(** * ov-checkin: login polling, token lifecycle and check-in orchestration

    A shallow embedding of the Cloudflare Worker in
    [polling-service.ts], [checkin-scheduler.ts], [auth-service.ts],
    [lib/wechat-utils.ts], [lib/checkin-utils.ts], [lib/storage.ts],
    [lib/auth-utils.ts] and [lib/checkin-service.ts], followed by the
    properties of the specification that were checked against it and by
    further properties of the worker.

    Conventions of the embedding.
    - The KV namespace [TOKEN_KV] is a finite map from keys to entries; an
      entry keeps the value together with the [expirationTtl] it was written
      with.  Values are kept in parsed form: [JSON.stringify] followed by
      [JSON.parse] is the identity on the records the worker stores.
    - An [async] function that can reject is a computation in the monad [M]:
      it threads the [World] and ends in [Ok] or [Throw]; [try]/[catch]
      is [try_catch].  Writes made before a throw stay in the world.
    - What the outside answers during one invocation (clock, provider
      replies, random bytes) is read from [Env]; every [Date.now()] of one
      invocation gives the same reading.  Numbers are [Z];
      [Math.floor (x / 1000)] on integers is [x / 1000] in [Z]. *)

From stdpp Require Import gmap strings list fin_maps pretty.

Open Scope string_scope.
Open Scope Z_scope.

(** ** JavaScript helpers *)

(** [s.includes(sub)] *)
Fixpoint includes (s sub : string) : bool :=
  String.prefix sub s ||
  match s with
  | EmptyString => false
  | String _ rest => includes rest sub
  end.

(** Truthiness of an optional string: missing and [''] are falsy. *)
Definition truthy_string (o : option string) : bool :=
  match o with
  | Some s => negb (String.eqb s "")
  | None => false
  end.

(** Truthiness of an optional number: missing and [0] are falsy. *)
Definition truthy_number (o : option Z) : bool :=
  match o with
  | Some n => negb (n =? 0)
  | None => false
  end.

(** [s.slice(n)] *)
Fixpoint slice_from (n : nat) (s : string) : string :=
  match n, s with
  | O, _ => s
  | Datatypes.S _, EmptyString => EmptyString
  | Datatypes.S n', String _ rest => slice_from n' rest
  end.

(** [s.split(sep)] for a separator of one character. *)
Fixpoint split_char (sep : Ascii.ascii) (s : string) : list string :=
  match s with
  | EmptyString => [EmptyString]
  | String c rest =>
      if Ascii.eqb c sep then EmptyString :: split_char sep rest
      else match split_char sep rest with
           | [] => [String c EmptyString]
           | part :: parts => String c part :: parts
           end
  end.

(** The character ['.']. *)
Definition dot : Ascii.ascii := Ascii.ascii_of_nat 46.

(** [Math.ceil(x / 1000)] on an integer [x]. *)
Definition ceil_div_1000 (x : Z) : Z := - ((- x) / 1000).

(** The character class [[a-zA-Z0-9_-]]. *)
Definition is_id_char (c : Ascii.ascii) : bool :=
  let n := Ascii.nat_of_ascii c in
  ((97 <=? n) && (n <=? 122) || (65 <=? n) && (n <=? 90)
   || (48 <=? n) && (n <=? 57) || (n =? 95) || (n =? 45))%nat.

(** [/^[a-zA-Z0-9_-]+$/.test(s)] *)
Definition is_id_string (s : string) : bool :=
  negb (String.eqb s "") && forallb is_id_char (String.list_ascii_of_string s).

(** ** Data model (types.ts) *)

(** The enum [WeChatLoginStatus] is imported from [./types] by
    polling-service.ts, but its declaration is not among the sources.  The
    service assigns the numeric [status] of a [PollingResponse] to
    [pollingStatus.status], so the members are numbers; their values are a
    parameter of the development. *)
Class WeChatLoginStatus := {
  WAITING : Z;
  SCANNED : Z;
  CONFIRMED : Z;
  EXPIRED : Z;
  SERVER_ERROR : Z;
  ERROR : Z
}.

(** Modelled from the spec: the values of the missing enum
    [WeChatLoginStatus], used only where a run on concrete data is shown.
    The four provider signals carry the codes that [pollWeChatLogin]
    returns (polling-service.ts: the WeChat errcode is used as the status);
    the two error members are given codes outside that vocabulary. *)
Definition errcodeStatus : WeChatLoginStatus :=
  {| WAITING := 404; SCANNED := 408; CONFIRMED := 405; EXPIRED := 403;
     SERVER_ERROR := 500; ERROR := 0 |}.

Record TokenInfo := {
  token : string;
  expire : Z
}.

Record PollingResponse := {
  success : bool;
  status : Z;
  wxCode : option string;
  message : option string
}.

Record PollingStatus := {
  ps_status : Z;
  ps_message : option string;
  ps_wxCode : option string;
  ps_uuid : option string;
  timestamp : Z
}.

Record TokenExchangeResponse := {
  ex_success : bool;
  ex_token : option string;
  ex_expire : option Z;
  ex_message : option string
}.

Record CheckinResult := {
  ck_success : bool;
  ck_message : string
}.

Record QRCodeResponse := {
  qr_success : bool;
  qr_uuid : string;
  qrCodeDataUrl : string;
  qr_message : option string
}.

(** The record kept behind a one-time link (auth-utils.ts). *)
Record OneTimeData := {
  purpose : string;
  createdAt : Z;
  expiresAt : option Z
}.

(** The e-mails of the worker, told apart by their subject; the payload is
    the text interpolated into the body. *)
Inductive EmailContent :=
  | LoginRequiredEmail (oneTimeLink : string)
  | LoginSuccessEmail
  | CheckinSuccessEmail (msg : string)
  | CheckinReminderEmail (msg : string)
  | SystemErrorEmail (msg : string).

(** ** The outside world *)

(** Answer of [lp.open.weixin.qq.com] to one poll.  A body is represented
    by what the two regular expressions of [pollWeChatLogin] capture. *)
Inductive PollHttp :=
  | PollFetchError (msg : string)
  | PollHttpError (http_status : Z) (statusText : string)
  | PollBody (http_status : Z) (wx_errcode : option Z) (wx_code : option string).

(** Answer of [/api/User/OpenAuth]: [Data?.Token] and [Data?.Expire]. *)
Inductive ExchangeHttp :=
  | ExFetchError (msg : string)
  | ExHttpError (http_status : Z) (statusText errorText : string)
  | ExJson (Token : option string) (Expire : option Z).

(** Answer of [/api/CheckIn/EditRecord]: the [Description] of the reply. *)
Inductive CheckinHttp :=
  | CheckinFetchError (msg : string)
  | CheckinReply (Description : option string).

(** Answer to the worker's request to its own [/trigger-checkin]. *)
Inductive TriggerHttp :=
  | TriggerFetchError (msg : string)
  | TriggerResponse (ok : bool).

(** Answer of [open.weixin.qq.com/connect/qrconnect]: a page is represented
    by what the regular expression [/uuid=([a-zA-Z0-9_-]+)/] captures. *)
Inductive UuidHttp :=
  | UuidFetchError (msg : string)
  | UuidHttpError (http_status : Z) (statusText : string)
  | UuidPage (uuidMatch : option string).

(** Answer of [open.weixin.qq.com/connect/qrcode/<uuid>]: an image is
    represented by its Base64 text, as [arrayBufferToBase64] returns it. *)
Inductive QrHttp :=
  | QrFetchError (msg : string)
  | QrHttpError (http_status : Z)
  | QrImage (base64 : string).

(** What the QR code endpoints of the provider answer during one
    invocation. *)
Record QrProvider := {
  qr_connect : UuidHttp;
  qr_image : string -> QrHttp
}.

(** The bindings of the TypeScript [Env] that the core reads, and what the
    outside answers during one invocation. *)
Record Env := {
  AUTH_WORKER_URL : string;
  THREAD_ID : Z;
  USER_NAME : string;
  now : Z;                                   (* Date.now() *)
  randomBytes32 : string;                    (* crypto.randomBytes(32).toString('hex') *)
  randomSuffix : string;                     (* Math.random().toString(36).slice(2, 11) *)
  wechat_poll : string -> PollHttp;
  wechat_exchange : string -> ExchangeHttp;
  checkin_endpoint : string -> Z -> string -> CheckinHttp;
  trigger_checkin : TriggerHttp
}.

Inductive KVValue :=
  | VText (s : string)
  | VPolling (p : PollingStatus)
  | VToken (t : TokenInfo)
  | VOneTime (d : OneTimeData).

Record KVEntry := {
  value : KVValue;
  expirationTtl : Z
}.

(** What the worker did towards its collaborators, most recent first. *)
Inductive Event :=
  | EmailSent (content : EmailContent)
  | CheckinSubmitted (token : string) (threadId : Z) (signature : string)
  | CheckinTriggered.

(** [kv_faults] scripts the availability of the store: each KV request
    takes the head of the list and rejects when it is [true]; an empty list
    means the store answers every request. *)
Record World := {
  kv : gmap string KVEntry;
  trace : list Event;
  kv_faults : list bool
}.

Definition set_kv (m : gmap string KVEntry) (w : World) : World :=
  {| kv := m; trace := trace w; kv_faults := kv_faults w |}.

Definition set_trace (t : list Event) (w : World) : World :=
  {| kv := kv w; trace := t; kv_faults := kv_faults w |}.

Definition set_faults (fs : list bool) (w : World) : World :=
  {| kv := kv w; trace := trace w; kv_faults := fs |}.

(** ** Computations that can throw *)

Inductive result (A : Type) :=
  | Ok (a : A)
  | Throw (msg : string).
Arguments Ok {A} a.
Arguments Throw {A} msg.

(** [try { body } catch (error) { handler }] around code without effect on
    the world. *)
Definition catch {A : Type} (body : result A) (handler : string -> A) : A :=
  match body with
  | Ok a => a
  | Throw msg => handler msg
  end.

Definition M (A : Type) : Type := World -> result A * World.

Definition ret {A : Type} (a : A) : M A := fun w => (Ok a, w).

Definition throw {A : Type} (msg : string) : M A := fun w => (Throw msg, w).

Definition bind {A B : Type} (m : M A) (k : A -> M B) : M B :=
  fun w =>
    match m w with
    | (Ok a, w') => k a w'
    | (Throw msg, w') => (Throw msg, w')
    end.

Notation "'let!' x ':=' m 'in' k" := (bind m (fun x => k))
  (at level 10, x name, m at level 100, k at level 200).
Notation "'do!' m 'in' k" := (bind m (fun _ => k))
  (at level 10, m at level 100, k at level 200).

Definition try_catch {A : Type} (body : M A) (handler : string -> M A) : M A :=
  fun w =>
    match body w with
    | (Ok a, w') => (Ok a, w')
    | (Throw msg, w') => handler msg w'
    end.

Definition emit (e : Event) : M unit :=
  fun w => (Ok tt, set_trace (e :: trace w) w).

(** ** TOKEN_KV *)

(** Takes the next entry of the availability script. *)
Definition kv_request : M unit :=
  fun w =>
    match kv_faults w with
    | [] => (Ok tt, w)
    | false :: fs => (Ok tt, set_faults fs w)
    | true :: fs => (Throw "KV request failed", set_faults fs w)
    end.

(** [TOKEN_KV.get(key)] and [TOKEN_KV.get(key, 'json')], before parsing. *)
Definition kv_get (key : string) : M (option KVValue) :=
  do! kv_request in
  fun w => (Ok (value <$> kv w !! key), w).

(** [TOKEN_KV.put(key, value, { expirationTtl })] *)
Definition kv_put (key : string) (v : KVValue) (ttl : Z) : M unit :=
  do! kv_request in
  fun w => (Ok tt, set_kv (<[key := {| value := v; expirationTtl := ttl |}]> (kv w)) w).

(** [TOKEN_KV.delete(key)] *)
Definition kv_delete (key : string) : M unit :=
  do! kv_request in
  fun w => (Ok tt, set_kv (delete key (kv w)) w).

(** [TOKEN_KV.get(key)] read as text.  The keys the worker reads as text
    are written as text; a record found there is outside the model and makes
    the read fail. *)
Definition kv_get_text (key : string) : M (option string) :=
  let! v := kv_get key in
  match v with
  | None => ret None
  | Some (VText s) => ret (Some s)
  | Some _ => throw "value is not text"
  end.

(** [TOKEN_KV.get(key, 'json')]: plain text is not JSON. *)
Definition kv_get_json (key : string) : M (option KVValue) :=
  let! v := kv_get key in
  match v with
  | Some (VText _) => throw "Unexpected token in JSON"
  | _ => ret v
  end.

(** [JSON.parse(statusData)] read as a [PollingStatus].  A value of another
    shape makes the read fail; in the source such a value parses into an
    object without [status] and [timestamp], on which both callers give up
    without writing. *)
Definition parsePollingStatus (v : KVValue) : M PollingStatus :=
  match v with
  | VPolling p => ret p
  | _ => throw "Unexpected token in JSON"
  end.

(** [!statusData] for the text read from the store. *)
Definition is_missing (v : option KVValue) : bool :=
  match v with
  | None => true
  | Some (VText s) => String.eqb s ""
  | Some _ => false
  end.

(** Field reads on a parsed value; a field the object does not have is
    [undefined]. *)
Definition expire_of (v : KVValue) : option Z :=
  match v with VToken t => Some (expire t) | _ => None end.

Definition token_of (v : KVValue) : option string :=
  match v with VToken t => Some (token t) | _ => None end.

Definition purpose_of (v : KVValue) : option string :=
  match v with VOneTime d => Some (purpose d) | _ => None end.

Definition expiresAt_of (v : KVValue) : option Z :=
  match v with VOneTime d => expiresAt d | _ => None end.

(** [x > n] and [x < n] where [x] may be [undefined]. *)
Definition number_gt (x : option Z) (n : Z) : bool :=
  match x with Some a => n <? a | None => false end.

Definition number_lt (x : option Z) (n : Z) : bool :=
  match x with Some a => a <? n | None => false end.

(** ** lib/email-utils.ts *)

(** [sendEmail] catches every failure of the mail service and its callers
    ignore what it returns; the trace records the content handed to it. *)
Definition sendEmail (content : EmailContent) : M unit :=
  emit (EmailSent content).

(** ** lib/wechat-utils.ts *)

Module WeChatUtils.

Definition pollWeChatLogin (E : Env) (uuid : string) : PollingResponse :=
  catch
    (if (String.length uuid <? 10)%nat then
       Throw ("Invalid UUID format: " +:+ uuid)
     else
       match wechat_poll E uuid with
       | PollFetchError msg => Throw msg
       | PollHttpError st txt =>
           Ok {| success := false; status := st; wxCode := None;
                 message := Some ("HTTP " +:+ pretty st +:+ ": " +:+ txt) |}
       | PollBody http errcode code =>
           if bool_decide (errcode = Some 405) && truthy_string code then
             Ok {| success := true; status := 405; wxCode := code;
                   message := Some "扫码成功" |}
           else if bool_decide (errcode = Some 403) then
             Ok {| success := true; status := 403; wxCode := None;
                   message := Some "二维码已过期，请重试" |}
           else if bool_decide (errcode = Some 404) then
             Ok {| success := true; status := 404; wxCode := None;
                   message := Some "等待扫描二维码" |}
           else
             let st := if truthy_number errcode then default 0 errcode else http in
             if st =? 408 then
               Ok {| success := true; status := 408; wxCode := None;
                     message := Some "二维码已扫描，等待确认" |}
             else
               Ok {| success := false; status := st; wxCode := None;
                     message := Some ("未知状态码: " +:+ pretty st) |}
       end)
    (fun msg => {| success := false; status := 0; wxCode := None;
                   message := Some msg |}).

Definition exchangeWeChatCode (E : Env) (code : string) : TokenExchangeResponse :=
  catch
    (match wechat_exchange E code with
     | ExFetchError msg => Throw msg
     | ExHttpError st txt errorText =>
         Ok {| ex_success := false; ex_token := None; ex_expire := None;
               ex_message := Some ("HTTP " +:+ pretty st +:+ ": " +:+ txt
                                     +:+ " - " +:+ errorText) |}
     | ExJson tokenData expire =>
         if truthy_string tokenData && truthy_number expire then
           Ok {| ex_success := true;
                 ex_token := Some ("Bearer " +:+ default "" tokenData);
                 ex_expire := expire; ex_message := None |}
         else
           Throw "❌ 获取 Token 失败"
     end)
    (fun msg => {| ex_success := false; ex_token := None; ex_expire := None;
                   ex_message := Some msg |}).

Definition getUUID (Q : QrProvider) : bool * option string * option string :=
  catch
    (match qr_connect Q with
     | UuidFetchError msg => Throw msg
     | UuidHttpError st txt =>
         Ok (false, None, Some ("HTTP " +:+ pretty st +:+ ": " +:+ txt))
     | UuidPage None =>
         Ok (false, None, Some "Failed to extract UUID from response")
     | UuidPage (Some uuid) => Ok (true, Some uuid, None)
     end)
    (fun msg => (false, None, Some msg)).

Definition generateQRCodeDataURL (Q : QrProvider) (uuid : string)
  : bool * option string * option string :=
  catch
    (match qr_image Q uuid with
     | QrFetchError msg => Throw msg
     | QrHttpError st =>
         Ok (false, None, Some ("Failed to fetch QR code: " +:+ pretty st))
     | QrImage base64 => Ok (true, Some ("data:image/png;base64," +:+ base64), None)
     end)
    (fun msg => (false, None, Some msg)).

Definition getWeChatQRCode (Q : QrProvider) : QRCodeResponse :=
  catch
    (let '(uuid_success, uuid, uuid_message) := getUUID Q in
     if negb uuid_success || negb (truthy_string uuid) then
       Ok {| qr_success := false; qr_uuid := ""; qrCodeDataUrl := "";
             qr_message := Some (if truthy_string uuid_message
                                 then default "" uuid_message
                                 else "Failed to get UUID") |}
     else
       let '(qr_ok, dataUrl, qr_msg) := generateQRCodeDataURL Q (default "" uuid) in
       if negb qr_ok || negb (truthy_string dataUrl) then
         Ok {| qr_success := false; qr_uuid := default "" uuid; qrCodeDataUrl := "";
               qr_message := Some (if truthy_string qr_msg
                                   then default "" qr_msg
                                   else "Failed to generate QR code") |}
       else
         Ok {| qr_success := true; qr_uuid := default "" uuid;
               qrCodeDataUrl := default "" dataUrl; qr_message := None |})
    (fun msg => {| qr_success := false; qr_uuid := ""; qrCodeDataUrl := "";
                   qr_message := Some msg |}).

Definition isValidToken (token : string) : bool :=
  if String.eqb token "" then false
  else
    let token := if String.prefix "Bearer " token then slice_from 7 token else token in
    let parts := split_char dot token in
    (length parts =? 3)%nat.

End WeChatUtils.

Definition pollWeChatLogin := WeChatUtils.pollWeChatLogin.
Definition exchangeWeChatCode := WeChatUtils.exchangeWeChatCode.

(** ** lib/checkin-utils.ts *)

Module CheckinUtils.

Definition submitCheckIn (E : Env) (token signature : string) (threadId : Z)
  : M CheckinResult :=
  try_catch
    (do! emit (CheckinSubmitted token threadId signature) in
     match checkin_endpoint E token threadId signature with
     | CheckinFetchError msg => throw msg
     | CheckinReply None =>
         throw "Cannot read properties of undefined (reading 'includes')"
     | CheckinReply (Some description) =>
         if includes description "打卡成功" then
           ret {| ck_success := true; ck_message := description |}
         else
           ret {| ck_success := false; ck_message := description |}
     end)
    (fun msg => ret {| ck_success := false; ck_message := msg |}).

End CheckinUtils.

Definition performCheckin (E : Env) (token : string) (threadId : Z) (signature : string)
  : M CheckinResult :=
  try_catch
    (CheckinUtils.submitCheckIn E token signature threadId)
    (fun msg => ret {| ck_success := false; ck_message := msg |}).

(** ** lib/storage.ts *)

Module KVStorage.

Definition getToken : M (option KVValue) :=
  try_catch (kv_get_json "wechat_token") (fun _ => ret None).

Definition setToken (E : Env) (tokenInfo : TokenInfo) : M unit :=
  try_catch
    (let ttlSeconds := Z.max 300 ((expire tokenInfo - now E) / 1000) in
     kv_put "wechat_token" (VToken tokenInfo) ttlSeconds)
    (fun msg => throw msg).

(** [data] is spread into the stored object and [createdAt] overwritten. *)
Definition storeOneTimeLink (E : Env) (token : string) (data : OneTimeData) (ttl : Z)
  : M unit :=
  try_catch
    (kv_put ("onetime_" +:+ token)
       (VOneTime {| purpose := purpose data; createdAt := now E;
                    expiresAt := expiresAt data |})
       ttl)
    (fun msg => throw msg).

Definition getOneTimeLink (token : string) : M (option KVValue) :=
  try_catch (kv_get_json ("onetime_" +:+ token)) (fun _ => ret None).

Definition consumeOneTimeLink (token : string) : M (option KVValue) :=
  try_catch
    (let! data := getOneTimeLink token in
     do! (if bool_decide (is_Some data)
          then kv_delete ("onetime_" +:+ token)
          else ret tt) in
     ret data)
    (fun _ => ret None).

Definition deleteToken : M unit :=
  try_catch (kv_delete "wechat_token") (fun msg => throw msg).

End KVStorage.

Module TokenValidator.

Definition isTokenValid (E : Env) : M bool :=
  try_catch
    (let! tokenInfo := KVStorage.getToken in
     ret (match tokenInfo with
          | Some v => number_gt (expire_of v) (now E)
          | None => false
          end))
    (fun _ => ret false).

Definition getValidToken (E : Env) : M (option string) :=
  try_catch
    (let! tokenInfo := KVStorage.getToken in
     ret (match tokenInfo with
          | Some v => if number_gt (expire_of v) (now E) then token_of v else None
          | None => None
          end))
    (fun _ => ret None).

Definition storeToken (E : Env) (token : string) (expireIn : Z) : M unit :=
  try_catch
    (let tokenInfo := {| token := token; expire := now E + expireIn * 1000 |} in
     KVStorage.setToken E tokenInfo)
    (fun msg => throw msg).

Definition refreshTokenIfNeeded (E : Env) : M (option string) :=
  try_catch
    (let! isValid := isTokenValid E in
     if negb isValid then ret None
     else getValidToken E)
    (fun _ => ret None).

End TokenValidator.

(** ** lib/auth-utils.ts *)

Module AuthUtils.

Definition generateOneTimeLink (E : Env) : M string :=
  try_catch
    (let token := randomBytes32 E in
     do! KVStorage.storeOneTimeLink E token
           {| purpose := "wechat_auth"; createdAt := now E;
              expiresAt := Some (now E + 24 * 60 * 60 * 1000) |}
           86400 in
     ret (AUTH_WORKER_URL E +:+ "/auth/" +:+ token))
    (fun _ => throw "Failed to generate one-time link").

Definition validateOneTimeLink (E : Env) (token : string) : M bool :=
  try_catch
    (if (String.length token <? 32)%nat then ret false else
     let! data := KVStorage.consumeOneTimeLink token in
     match data with
     | None => ret false
     | Some d =>
         if negb (bool_decide (purpose_of d = Some "wechat_auth")) then ret false
         else if truthy_number (expiresAt_of d) && number_lt (expiresAt_of d) (now E)
         then ret false
         else ret true
     end)
    (fun _ => ret false).

End AuthUtils.

Definition generateOneTimeLink := AuthUtils.generateOneTimeLink.
Definition validateOneTimeLink := AuthUtils.validateOneTimeLink.

(** ** lib/checkin-service.ts *)

Module CheckinService.

Definition executeCheckin (E : Env) (token : string) (threadId : Z) (userName : string)
  : M CheckinResult :=
  try_catch
    (let! checkinResult := performCheckin E token threadId userName in
     if ck_success checkinResult then
       do! sendEmail (CheckinSuccessEmail (ck_message checkinResult)) in
       ret {| ck_success := true; ck_message := ck_message checkinResult |}
     else
       do! sendEmail (CheckinReminderEmail (ck_message checkinResult)) in
       ret {| ck_success := false; ck_message := ck_message checkinResult |})
    (fun msg =>
       do! try_catch (sendEmail (SystemErrorEmail msg)) (fun _ => ret tt) in
       ret {| ck_success := false; ck_message := msg |}).

End CheckinService.

(** ** checkin-scheduler.ts *)

Definition handleAuthenticationRequired (E : Env) : M unit :=
  try_catch
    (let! oneTimeLink := generateOneTimeLink E in
     sendEmail (LoginRequiredEmail oneTimeLink))
    (fun _ => ret tt).

Definition scheduled (E : Env) : M unit :=
  try_catch
    (let! tokenInfo := kv_get_json "wechat_token" in
     match tokenInfo with
     | Some v =>
         if number_gt (expire_of v) (now E) then
           try_catch
             (let! result := CheckinService.executeCheckin E (default "" (token_of v))
                               (THREAD_ID E) (USER_NAME E) in
              if negb (ck_success result) then handleAuthenticationRequired E
              else ret tt)
             (fun _ => handleAuthenticationRequired E)
         else handleAuthenticationRequired E
     | None => handleAuthenticationRequired E
     end)
    (fun msg => try_catch (sendEmail (SystemErrorEmail msg)) (fun _ => ret tt)).

(** ** polling-service.ts *)

Record StartReply := {
  sr_success : bool;
  sr_pollingId : option string;
  sr_error : option string
}.

Record StatusReply := {
  st_success : bool;
  st_status : option string;
  st_message : option string;
  st_error : option string
}.

(** Assignments to fields of [pollingStatus]. *)
Definition with_status (st : Z) (p : PollingStatus) : PollingStatus :=
  {| ps_status := st; ps_message := ps_message p; ps_wxCode := ps_wxCode p;
     ps_uuid := ps_uuid p; timestamp := timestamp p |}.

Definition with_message (m : option string) (p : PollingStatus) : PollingStatus :=
  {| ps_status := ps_status p; ps_message := m; ps_wxCode := ps_wxCode p;
     ps_uuid := ps_uuid p; timestamp := timestamp p |}.

Definition with_wxCode (c : option string) (p : PollingStatus) : PollingStatus :=
  {| ps_status := ps_status p; ps_message := ps_message p; ps_wxCode := c;
     ps_uuid := ps_uuid p; timestamp := timestamp p |}.

Section PollingService.

Context {S : WeChatLoginStatus}.

Definition startPollingSession (E : Env) (uuid : string) : M StartReply :=
  try_catch
    (let pollingId := "polling_" +:+ pretty (now E) +:+ "_" +:+ randomSuffix E in
     let pollingStatus :=
       {| ps_status := WAITING; ps_message := None; ps_wxCode := None;
          ps_uuid := None; timestamp := now E |} in
     do! kv_put pollingId (VPolling pollingStatus) 300 in
     do! kv_put (pollingId +:+ "_uuid") (VText uuid) 300 in
     ret {| sr_success := true; sr_pollingId := Some pollingId; sr_error := None |})
    (fun msg =>
       ret {| sr_success := false; sr_pollingId := None; sr_error := Some msg |}).

(** [[CONFIRMED, EXPIRED, SERVER_ERROR, ERROR].includes(status)] *)
Definition is_completed (st : Z) : bool :=
  bool_decide (st ∈ [CONFIRMED; EXPIRED; SERVER_ERROR; ERROR]).

(** The request to the worker's own [/trigger-checkin] starts another
    invocation; this one only sees whether the request went through. *)
Definition triggerCheckin (E : Env) : M unit :=
  try_catch
    (do! emit CheckinTriggered in
     match trigger_checkin E with
     | TriggerFetchError msg => throw msg
     | TriggerResponse _ => ret tt
     end)
    (fun _ => ret tt).

(** [processPollingSession] with the code exchange it calls as a
    parameter. *)
Definition processPollingSession_with
    (exchangeCode : string -> TokenExchangeResponse)
    (E : Env) (pollingId : string) : M unit :=
  try_catch
    (let! statusData := kv_get pollingId in
     if is_missing statusData then ret tt else
     let! pollingStatus := parsePollingStatus (default (VText "") statusData) in
     if is_completed (ps_status pollingStatus) then ret tt else
     let! uuid := kv_get_text (pollingId +:+ "_uuid") in
     if negb (truthy_string uuid) then ret tt else
     let loginResult := pollWeChatLogin E (default "" uuid) in
     let! pollingStatus :=
       if negb (success loginResult) then
         ret (with_message (message loginResult) (with_status ERROR pollingStatus))
       else
         let pollingStatus :=
           with_message (message loginResult)
             (with_status (status loginResult) pollingStatus) in
         if truthy_string (wxCode loginResult) then
           let pollingStatus := with_wxCode (wxCode loginResult) pollingStatus in
           let tokenResult := exchangeCode (default "" (wxCode loginResult)) in
           if ex_success tokenResult && truthy_string (ex_token tokenResult) then
             let expireTime :=
               if truthy_number (ex_expire tokenResult)
               then default 0 (ex_expire tokenResult)
               else now E + 3 * 24 * 60 * 60 * 1000 in
             let ttlSeconds := Z.max 300 ((expireTime - now E) / 1000) in
             let tokenInfo :=
               {| token := default "" (ex_token tokenResult); expire := expireTime |} in
             do! kv_put "wechat_token" (VToken tokenInfo) ttlSeconds in
             do! sendEmail LoginSuccessEmail in
             do! triggerCheckin E in
             ret (with_status CONFIRMED pollingStatus)
           else
             ret (with_message (ex_message tokenResult)
                    (with_status ERROR pollingStatus))
         else ret pollingStatus in
     kv_put pollingId (VPolling pollingStatus)
       (if ps_status pollingStatus =? WAITING then 300 else 3600))
    (fun _ => ret tt).

Definition processPollingSession (E : Env) (pollingId : string) : M unit :=
  processPollingSession_with (exchangeWeChatCode E) E pollingId.

Definition getPollingStatus (E : Env) (pollingId : string) : M StatusReply :=
  try_catch
    (let! statusData := kv_get pollingId in
     if is_missing statusData then
       ret {| st_success := false; st_status := None; st_message := None;
              st_error := Some "轮询会话不存在或已过期" |}
     else
       let! pollingStatus := parsePollingStatus (default (VText "") statusData) in
       let! pollingStatus :=
         if 5 * 60 * 1000 <? now E - timestamp pollingStatus then
           let pollingStatus := with_status EXPIRED pollingStatus in
           do! kv_put pollingId (VPolling pollingStatus) 3600 in
           ret pollingStatus
         else ret pollingStatus in
       ret {| st_success := true;
              st_status := Some (pretty (ps_status pollingStatus));
              st_message := ps_message pollingStatus;
              st_error := None |})
    (fun msg =>
       ret {| st_success := false; st_status := None; st_message := None;
              st_error := Some msg |}).

(** The [/login-status] branch of [fetch], after input validation and
    rate limiting: one tick, then the status query. *)
Definition loginStatus (E : Env) (pollingId : string) : M StatusReply :=
  try_catch
    (do! processPollingSession E pollingId in
     getPollingStatus E pollingId)
    (fun _ =>
       ret {| st_success := false; st_status := None; st_message := None;
              st_error := Some "查询登录状态失败" |}).

End PollingService.

(** ** auth-service.ts *)

Record AuthData := {
  ad_qrCodeDataUrl : string;
  ad_uuid : string;
  ad_pollingId : string
}.

Record AuthReply := {
  ar_success : bool;
  ar_data : option AuthData;
  ar_error : option string
}.

(** [a || b] on optional strings *)
Definition or_string (a : option string) (b : string) : string :=
  if truthy_string a then default "" a else b.

Definition handleAuthRequest {S : WeChatLoginStatus} (Q : QrProvider) (E : Env)
    (token : string) : M AuthReply :=
  try_catch
    (let! isValid := validateOneTimeLink E token in
     if negb isValid then
       ret {| ar_success := false; ar_data := None;
              ar_error := Some "认证链接已失效或无效" |}
     else
       let qrResponse := WeChatUtils.getWeChatQRCode Q in
       if negb (qr_success qrResponse) then
         ret {| ar_success := false; ar_data := None;
                ar_error := Some (or_string (qr_message qrResponse) "生成二维码失败") |}
       else
         let! pollingResponse := startPollingSession E (qr_uuid qrResponse) in
         if negb (sr_success pollingResponse)
            || negb (truthy_string (sr_pollingId pollingResponse)) then
           ret {| ar_success := false; ar_data := None;
                  ar_error := Some (or_string (sr_error pollingResponse)
                                      "启动登录轮询失败") |}
         else
           ret {| ar_success := true;
                  ar_data := Some {| ad_qrCodeDataUrl := qrCodeDataUrl qrResponse;
                                     ad_uuid := qr_uuid qrResponse;
                                     ad_pollingId :=
                                       default "" (sr_pollingId pollingResponse) |};
                  ar_error := None |})
    (fun msg => ret {| ar_success := false; ar_data := None; ar_error := Some msg |}).

(** ** The other copy of the scheduler (src/unnamed/part_000) *)

Module SchedulerCopy.

Definition handleCheckinFailure (checkinResult : CheckinResult) : M unit :=
  try_catch
    (sendEmail (CheckinReminderEmail (ck_message checkinResult)))
    (fun _ => ret tt).

Definition scheduled (E : Env) : M unit :=
  try_catch
    (let! tokenInfo := kv_get_json "wechat_token" in
     match tokenInfo with
     | Some v =>
         if number_gt (expire_of v) (now E) then
           try_catch
             (let! checkinResult := performCheckin E (default "" (token_of v))
                                      (THREAD_ID E) (USER_NAME E) in
              if ck_success checkinResult then
                sendEmail (CheckinSuccessEmail (ck_message checkinResult))
              else handleCheckinFailure checkinResult)
             (fun _ => handleAuthenticationRequired E)
         else handleAuthenticationRequired E
     | None => handleAuthenticationRequired E
     end)
    (fun msg => try_catch (sendEmail (SystemErrorEmail msg)) (fun _ => ret tt)).

End SchedulerCopy.

(** ** lib/auth-utils.ts: rate limiting *)

(** The records of the rate limiter live in [TOKEN_KV] under the keys
    [rate_limit_<identifier>].  No other function of the worker writes such
    a key, and [checkRateLimit] touches no other key; this part of the
    namespace is kept as a store of its own, with its own availability
    script. *)
Record RateLimitData := {
  count : Z;
  firstAttempt : Z
}.

Record RateEntry := {
  rl_data : RateLimitData;
  rl_ttl : Z
}.

Record RateStore := {
  limits : gmap string RateEntry;
  limit_faults : list bool
}.

(** Takes the next entry of the availability script; [true] is a rejected
    request. *)
Definition rl_request (s : RateStore) : bool * RateStore :=
  match limit_faults s with
  | [] => (false, s)
  | failed :: fs => (failed, {| limits := limits s; limit_faults := fs |})
  end.

(** [TOKEN_KV.put(rateLimitKey, JSON.stringify(data), { expirationTtl })];
    the first component tells whether the request was rejected. *)
Definition rl_put (key : string) (data : RateLimitData) (ttl : Z) (s : RateStore)
  : bool * RateStore :=
  let (failed, s) := rl_request s in
  if failed then (true, s)
  else (false, {| limits := <[key := {| rl_data := data; rl_ttl := ttl |}]> (limits s);
                  limit_faults := limit_faults s |}).

Module RateLimit.

(** Every rejected request lands in the [catch], which answers [true]. *)
Definition checkRateLimit (E : Env) (identifier : string) (maxAttempts windowMs : Z)
    (s : RateStore) : bool * RateStore :=
  let rateLimitKey := "rate_limit_" +:+ identifier in
  let (failed, s) := rl_request s in
  if failed then (true, s)
  else
    match limits s !! rateLimitKey with
    | None =>
        let (_, s) := rl_put rateLimitKey {| count := 1; firstAttempt := now E |}
                        (Z.max 60 (ceil_div_1000 windowMs)) s in
        (true, s)
    | Some entry =>
        let data := rl_data entry in
        if windowMs <? now E - firstAttempt data then
          let (_, s) := rl_put rateLimitKey {| count := 1; firstAttempt := now E |}
                          (Z.max 60 (ceil_div_1000 windowMs)) s in
          (true, s)
        else if maxAttempts <=? count data then (false, s)
        else
          let remainingTtl :=
            ceil_div_1000 (windowMs - (now E - firstAttempt data)) in
          let (_, s) := rl_put rateLimitKey
                          {| count := count data + 1;
                             firstAttempt := firstAttempt data |}
                          (Z.max 60 remainingTtl) s in
          (true, s)
    end.

End RateLimit.

(** ** checkin-scheduler.ts: the request handler *)

(** A request, after [new URL(request.url)] and the header lookups. *)
Record Request := {
  method : string;
  pathname : string;
  pollingId_param : option string;      (* url.searchParams.get('pollingId') *)
  CF_Connecting_IP : option string;
  X_Forwarded_For : option string
}.

(** The pages are rendered by templates; a body is represented by the
    template and its arguments. *)
Inductive ResponseBody :=
  | TextBody (text : string)
  | ErrorPage (error_message : string)
  | QRCodePage (qr_code_data_url polling_id : string)
  | SuccessPage
  | IndexPage
  | StatusJson (reply : StatusReply)
  | FailureJson (error : string)
  | TriggeredJson.

Record Response := {
  resp_status : Z;
  resp_body : ResponseBody;
  retry_after : option string
}.

(** The two parts of the namespace that the handler works on. *)
Record Worker := {
  world : World;
  rate : RateStore
}.

Definition respond (st : Z) (b : ResponseBody) : Response :=
  {| resp_status := st; resp_body := b; retry_after := None |}.

Section Fetch.

Context {S : WeChatLoginStatus}.

Definition fetch (Q : QrProvider) (E : Env) (request : Request) (k : Worker)
  : result Response * Worker :=
  let path := pathname request in
  let clientIP :=
    if truthy_string (CF_Connecting_IP request)
    then default "" (CF_Connecting_IP request)
    else or_string (X_Forwarded_For request) "unknown" in
  if String.prefix "/auth/" path then
    let token := slice_from 6 path in
    if (String.length token <? 32)%nat then
      (Ok (respond 400 (TextBody "Invalid authentication link")), k)
    else
      let (rateLimitAllowed, rate') :=
        RateLimit.checkRateLimit E clientIP 10 300000 (rate k) in
      if negb rateLimitAllowed then
        (Ok {| resp_status := 429; resp_body := TextBody "Too many requests";
               retry_after := Some "300" |},
         {| world := world k; rate := rate' |})
      else
        let (r, w') :=
          try_catch
            (let! authResult := handleAuthRequest Q E token in
             if negb (ar_success authResult) then
               ret (respond 400 (ErrorPage (or_string (ar_error authResult) "认证失败")))
             else
               match ar_data authResult with
               | Some data =>
                   ret (respond 200 (QRCodePage (ad_qrCodeDataUrl data)
                                       (ad_pollingId data)))
               | None => ret (respond 500 (ErrorPage "认证处理失败"))
               end)
            (fun _ => ret (respond 500 (ErrorPage "认证处理过程中发生错误")))
            (world k) in
        (r, {| world := w'; rate := rate' |})
  else if String.eqb path "/login-status" then
    let pollingId := pollingId_param request in
    if negb (truthy_string pollingId)
       || (String.length (default "" pollingId) <? 10)%nat
       || negb (is_id_string (default "" pollingId)) then
      (Ok (respond 400 (FailureJson "Invalid polling ID")), k)
    else
      let (rateLimitAllowed, rate') :=
        RateLimit.checkRateLimit E clientIP 100 60000 (rate k) in
      if negb rateLimitAllowed then
        (Ok {| resp_status := 429; resp_body := FailureJson "Too many requests";
               retry_after := Some "60" |},
         {| world := world k; rate := rate' |})
      else
        let (r, w') :=
          try_catch
            (do! processPollingSession E (default "" pollingId) in
             let! statusResult := getPollingStatus E (default "" pollingId) in
             ret (respond 200 (StatusJson statusResult)))
            (fun _ => ret (respond 500 (FailureJson "查询登录状态失败")))
            (world k) in
        (r, {| world := w'; rate := rate' |})
  else if String.eqb path "/login-success" then
    (Ok (respond 200 SuccessPage), k)
  else if String.eqb path "/" then
    (Ok (respond 200 IndexPage), k)
  else if String.eqb (method request) "POST" && String.eqb path "/trigger-checkin" then
    let (r, w') := (do! scheduled E in ret (respond 200 TriggeredJson)) (world k) in
    (r, {| world := w'; rate := rate k |})
  else
    (Ok (respond 404 (TextBody "Not Found")), k).

End Fetch.

(** ** Vocabulary of the statements *)

(** A sequence of invocations of [processPollingSession] on one session;
    each tick comes with its own outside world and its own availability
    script for the store. *)
Definition run_ticks {S : WeChatLoginStatus} (ticks : list (Env * list bool))
    (pollingId : string) (w : World) : World :=
  foldl (fun w tick => (processPollingSession tick.1 pollingId (set_faults tick.2 w)).2)
        w ticks.

(** The requests made to the check-in endpoint. *)
Definition is_checkin_call (e : Event) : bool :=
  match e with
  | CheckinSubmitted _ _ _ => true
  | _ => false
  end.

Definition checkin_calls (w : World) : list Event :=
  List.filter is_checkin_call (trace w).

(** Successive calls of [checkRateLimit] for one identifier, one per
    invocation; the answers are listed in the order of the calls. *)
Fixpoint checkRateLimits (clocks : list Env) (identifier : string)
    (maxAttempts windowMs : Z) (s : RateStore) : list bool * RateStore :=
  match clocks with
  | [] => ([], s)
  | E :: rest =>
      let (allowed, s) := RateLimit.checkRateLimit E identifier maxAttempts windowMs s in
      let (answers, s) := checkRateLimits rest identifier maxAttempts windowMs s in
      (allowed :: answers, s)
  end.

(** The stored credential is missing or not valid at the clock of [E]. *)
Definition no_valid_token (E : Env) (w : World) : Prop :=
  kv w !! "wechat_token" = None
  \/ exists t ttl,
       kv w !! "wechat_token" = Some {| value := VToken t; expirationTtl := ttl |}
       /\ expire t <= now E.

(** The store holds at [pollingId] a session whose timestamp is [ts]. *)
Definition holds_session (pollingId : string) (ts : Z) (w : World) : Prop :=
  exists p ttl,
    kv w !! pollingId = Some {| value := VPolling p; expirationTtl := ttl |}
    /\ timestamp p = ts.

(** Data for runs on concrete input. *)
Definition exampleEnv (t : Z) (poll : PollHttp) (exch : ExchangeHttp)
    (reply : CheckinHttp) : Env :=
  {| AUTH_WORKER_URL := "https://checkin.example.workers.dev";
     THREAD_ID := 123456;
     USER_NAME := "user";
     now := t;
     randomBytes32 := "00112233445566778899aabbccddeeff00112233445566778899aabbccddeeff";
     randomSuffix := "k3j9x2m1q";
     wechat_poll := fun _ => poll;
     wechat_exchange := fun _ => exch;
     checkin_endpoint := fun _ _ _ => reply;
     trigger_checkin := TriggerResponse true |}.

Definition emptyWorld : World := {| kv := ∅; trace := []; kv_faults := [] |}.

Definition exampleSession (st ts : Z) : PollingStatus :=
  {| ps_status := st; ps_message := None; ps_wxCode := None; ps_uuid := None;
     timestamp := ts |}.

(** A store with one session, created at [ts] and now in status [st]. *)
Definition sessionWorld (st ts : Z) : World :=
  {| kv := <["polling_1000_k3j9x2m1q_uuid" :=
               {| value := VText "0a1b2c3d4e5f6g7h"; expirationTtl := 300 |}]>
             (<["polling_1000_k3j9x2m1q" :=
                  {| value := VPolling (exampleSession st ts);
                     expirationTtl := 300 |}]> ∅);
     trace := [];
     kv_faults := [] |}.

(** A store with a credential that expires at [e]. *)
Definition tokenWorld (e : Z) : World :=
  {| kv := <["wechat_token" :=
               {| value := VToken {| token := "Bearer tok"; expire := e |};
                  expirationTtl := 3600 |}]> ∅;
     trace := [];
     kv_faults := [] |}.

(** Partial correctness of a computation: from a world in [P], the
    outcome and the final world are in [Q]. *)
Definition hoare {A : Type} (P : World -> Prop) (m : M A)
    (Q : result A -> World -> Prop) : Prop :=
  forall w, P w -> Q (m w).1 (m w).2.

(** [m] keeps [I], whatever it returns or throws. *)
Definition preserves {A : Type} (I : World -> Prop) (m : M A) : Prop :=
  hoare I m (fun _ w => I w).

(** [I] does not read the availability script. *)
Definition stable (I : World -> Prop) : Prop :=
  forall w fs, I w -> I (set_faults fs w).

(** The store answers every request. *)
Definition nofault (w : World) : Prop := kv_faults w = [].

(** [I] does not read the trace. *)
Definition silent (I : World -> Prop) : Prop :=
  forall w e, I w -> I (set_trace (e :: trace w) w).

(** * Reasoning rules *)

Section Rules.

Context {A B : Type}.
Implicit Types (P I : World -> Prop).

Lemma hoare_conseq P P' (m : M A) (Q Q' : result A -> World -> Prop) :
  hoare P' m Q' ->
  (forall w, P w -> P' w) ->
  (forall r w, Q' r w -> Q r w) ->
  hoare P m Q.
Proof. intros H HP HQ w Hw. apply HQ, H, HP, Hw. Qed.

Lemma hoare_pure (phi : Prop) P (m : M A) Q :
  (phi -> hoare P m Q) -> hoare (fun w => P w /\ phi) m Q.
Proof. intros H w [HP Hphi]. by apply H. Qed.

Lemma hoare_ret (a : A) P Q :
  (forall w, P w -> Q (Ok a) w) -> hoare P (ret a) Q.
Proof. intros H w HP. by apply H. Qed.

Lemma hoare_throw msg P (Q : result A -> World -> Prop) :
  (forall w, P w -> Q (Throw msg) w) -> hoare P (throw msg) Q.
Proof. intros H w HP. by apply H. Qed.

Lemma hoare_bind (R : A -> World -> Prop) P (m : M A) (k : A -> M B) Q :
  hoare P m (fun r w => match r with
                        | Ok a => R a w
                        | Throw msg => Q (Throw msg) w
                        end) ->
  (forall a, hoare (R a) (k a) Q) ->
  hoare P (bind m k) Q.
Proof.
  intros Hm Hk w HP. specialize (Hm w HP). unfold bind.
  destruct (m w) as [[a|msg] w']; simpl in *; [by apply Hk | done].
Qed.

(** The first computation cannot throw. *)
Lemma hoare_bind_ok (R : A -> World -> Prop) P (m : M A) (k : A -> M B) Q :
  hoare P m (fun r w => exists a, r = Ok a /\ R a w) ->
  (forall a, hoare (R a) (k a) Q) ->
  hoare P (bind m k) Q.
Proof.
  intros Hm Hk. apply hoare_bind with (R := R); [|done].
  intros w HP. destruct (Hm w HP) as (a & -> & HR). done.
Qed.

Lemma hoare_bind_ret P (a : A) (k : A -> M B) Q :
  hoare P (k a) Q -> hoare P (bind (ret a) k) Q.
Proof. intros H w Hw. exact (H w Hw). Qed.

Lemma hoare_try_catch (T : string -> World -> Prop) P (body : M A) h Q :
  hoare P body (fun r w => match r with
                           | Ok a => Q (Ok a) w
                           | Throw msg => T msg w
                           end) ->
  (forall msg, hoare (T msg) (h msg) Q) ->
  hoare P (try_catch body h) Q.
Proof.
  intros Hm Hk w HP. specialize (Hm w HP). unfold try_catch.
  destruct (body w) as [[a|msg] w']; simpl in *; [done | by apply Hk].
Qed.

Lemma hoare_if P (b : bool) (m1 m2 : M A) Q :
  (b = true -> hoare P m1 Q) -> (b = false -> hoare P m2 Q) ->
  hoare P (if b then m1 else m2) Q.
Proof. destruct b; auto. Qed.

Lemma preserves_ret I (a : A) : preserves I (ret a).
Proof. by intros w Hw. Qed.

Lemma preserves_throw I msg : preserves I (throw (A := A) msg).
Proof. by intros w Hw. Qed.

Lemma preserves_bind I (m : M A) (k : A -> M B) :
  preserves I m -> (forall a, preserves I (k a)) -> preserves I (bind m k).
Proof.
  intros Hm Hk. apply hoare_bind with (R := fun _ w => I w); [|exact Hk].
  intros w Hw. specialize (Hm w Hw). by destruct (m w) as [[a|msg] w'].
Qed.

Lemma preserves_try_catch I (body : M A) h :
  preserves I body -> (forall msg, preserves I (h msg)) ->
  preserves I (try_catch body h).
Proof.
  intros Hm Hk. apply hoare_try_catch with (T := fun _ w => I w); [|exact Hk].
  intros w Hw. specialize (Hm w Hw). by destruct (body w) as [[a|msg] w'].
Qed.

Lemma preserves_if I (b : bool) (m1 m2 : M A) :
  preserves I m1 -> preserves I m2 -> preserves I (if b then m1 else m2).
Proof. by destruct b. Qed.

(** A computation under [try]/[catch] with a handler that returns never
    throws. *)
Lemma try_catch_returns (body : M A) (h : string -> A) w :
  exists a, (try_catch body (fun msg => ret (h msg)) w).1 = Ok a.
Proof.
  unfold try_catch. destruct (body w) as [[a|msg] w']; simpl; eauto.
Qed.

End Rules.

(** ** The store and the trace *)

Lemma stable_kv_request I : stable I -> preserves I kv_request.
Proof.
  intros HI w Hw. unfold kv_request.
  destruct (kv_faults w) as [|[] fs]; simpl; auto.
Qed.

Lemma hoare_kv_get I key :
  preserves I kv_request ->
  hoare I (kv_get key)
    (fun r w => I w /\ forall v, r = Ok v -> v = value <$> kv w !! key).
Proof.
  intros HI w Hw. unfold kv_get, bind. pose proof (HI w Hw) as H.
  destruct (kv_request w) as [[[]|msg] w']; simpl in *; split; auto; congruence.
Qed.

Lemma preserves_kv_get I key : preserves I kv_request -> preserves I (kv_get key).
Proof. intros HI w Hw. by destruct (hoare_kv_get I key HI w Hw). Qed.

Lemma preserves_kv_get_text I key :
  preserves I kv_request -> preserves I (kv_get_text key).
Proof.
  intros HI. apply preserves_bind; [by apply preserves_kv_get|].
  intros [[]|]; first [apply preserves_ret | apply preserves_throw].
Qed.

Lemma preserves_kv_get_json I key :
  preserves I kv_request -> preserves I (kv_get_json key).
Proof.
  intros HI. apply preserves_bind; [by apply preserves_kv_get|].
  intros [[]|]; first [apply preserves_ret | apply preserves_throw].
Qed.

Lemma preserves_kv_put I key v ttl :
  preserves I kv_request ->
  (forall w, I w ->
     I (set_kv (<[key := {| value := v; expirationTtl := ttl |}]> (kv w)) w)) ->
  preserves I (kv_put key v ttl).
Proof.
  intros HI Hput w Hw. unfold kv_put, bind. pose proof (HI w Hw) as H.
  destruct (kv_request w) as [[[]|msg] w']; simpl in *; auto.
Qed.

Lemma preserves_kv_delete I key :
  preserves I kv_request ->
  (forall w, I w -> I (set_kv (delete key (kv w)) w)) ->
  preserves I (kv_delete key).
Proof.
  intros HI Hdel w Hw. unfold kv_delete, bind. pose proof (HI w Hw) as H.
  destruct (kv_request w) as [[[]|msg] w']; simpl in *; auto.
Qed.

Lemma preserves_emit I e :
  (forall w, I w -> I (set_trace (e :: trace w) w)) -> preserves I (emit e).
Proof. intros H w Hw. by apply H. Qed.

Lemma preserves_sendEmail I content : silent I -> preserves I (sendEmail content).
Proof. intros HI. apply preserves_emit. intros w. apply HI. Qed.

(** ** Runs against a store that answers every request *)

Lemma kv_request_run w : kv_faults w = [] -> kv_request w = (Ok tt, w).
Proof. intros H. unfold kv_request. by rewrite H. Qed.

Lemma kv_get_run key w :
  kv_faults w = [] -> kv_get key w = (Ok (value <$> kv w !! key), w).
Proof. intros H. unfold kv_get, bind. by rewrite kv_request_run. Qed.

Lemma kv_put_run key v ttl w :
  kv_faults w = [] ->
  kv_put key v ttl w
  = (Ok tt, set_kv (<[key := {| value := v; expirationTtl := ttl |}]> (kv w)) w).
Proof. intros H. unfold kv_put, bind. by rewrite kv_request_run. Qed.

Lemma kv_delete_run key w :
  kv_faults w = [] -> kv_delete key w = (Ok tt, set_kv (delete key (kv w)) w).
Proof. intros H. unfold kv_delete, bind. by rewrite kv_request_run. Qed.

Ltac kv_run :=
  repeat first
    [ rewrite kv_get_run by done
    | rewrite kv_put_run by done
    | rewrite kv_delete_run by done ].

(** Unfolds the monad at the head of the goal and runs the store. *)
Ltac mrun := unfold try_catch, bind; kv_run; simpl.

Lemma nofault_kv_request I :
  stable I -> preserves (fun w => nofault w /\ I w) kv_request.
Proof. intros HI w [Hf Hw]. by rewrite kv_request_run. Qed.

Lemma hoare_kv_get_ok P key :
  hoare (fun w => nofault w /\ P w) (kv_get key)
    (fun r w => exists a, r = Ok a /\
                          ((nofault w /\ P w) /\ a = value <$> kv w !! key)).
Proof. intros w [Hf HP]. rewrite kv_get_run by done. simpl. eauto. Qed.

Lemma hoare_kv_put_ok P (Q : World -> Prop) key v ttl :
  (forall w, nofault w -> P w ->
     Q (set_kv (<[key := {| value := v; expirationTtl := ttl |}]> (kv w)) w)) ->
  hoare (fun w => nofault w /\ P w) (kv_put key v ttl)
    (fun r w => exists a, r = Ok a /\ (nofault w /\ Q w)).
Proof. intros H w [Hf HP]. rewrite kv_put_run by done. simpl. eauto. Qed.

Lemma hoare_sendEmail_ok P content :
  silent P ->
  hoare P (sendEmail content) (fun r w => exists a, r = Ok a /\ P w).
Proof. intros HP w Hw. simpl. eauto. Qed.

Lemma nofault_silent : silent nofault.
Proof. by intros w e H. Qed.

(** * The login poll state machine *)

(** A successful poll carries one of the four signals of the provider; a
    rejected request, an HTTP error and an unknown code are failures. *)
Lemma pollWeChatLogin_success E u :
  success (pollWeChatLogin E u) = true ->
  status (pollWeChatLogin E u) ∈ [404; 408; 405; 403]
  /\ exists http errcode code, wechat_poll E u = PollBody http errcode code.
Proof.
  unfold pollWeChatLogin, WeChatUtils.pollWeChatLogin, catch.
  destruct (String.length u <? 10)%nat; [done|].
  destruct (wechat_poll E u) as [msg|st txt|http errcode code]; [done|done|].
  intros H. split; [|by eauto].
  repeat case_match; simpl in *; try done; set_solver.
Qed.

Lemma uuid_key_ne (id : string) : id +:+ "_uuid" <> id.
Proof. induction id as [|c id IH]; simpl; [done | by intros [= H]]. Qed.

Section PollingFacts.

Context {S : WeChatLoginStatus}.

Lemma holds_session_stable id ts : stable (holds_session id ts).
Proof. intros w fs H. exact H. Qed.

Lemma holds_session_silent id ts : silent (holds_session id ts).
Proof. intros w e H. exact H. Qed.

Lemma holds_session_put_other id ts key v ttl w :
  key <> id -> holds_session id ts w ->
  holds_session id ts
    (set_kv (<[key := {| value := v; expirationTtl := ttl |}]> (kv w)) w).
Proof.
  intros Hne (p & t & Hk & Hts). exists p, t. simpl. by rewrite lookup_insert_ne.
Qed.

Lemma holds_session_put_same id p ttl w :
  holds_session id (timestamp p)
    (set_kv (<[id := {| value := VPolling p; expirationTtl := ttl |}]> (kv w)) w).
Proof. exists p, ttl. simpl. by rewrite lookup_insert_eq. Qed.

Lemma preserves_triggerCheckin I E : silent I -> preserves I (triggerCheckin E).
Proof.
  intros HI. apply preserves_try_catch; [|intros; apply preserves_ret].
  apply preserves_bind; [apply preserves_emit; intros w; apply HI|].
  intros _. destruct (trigger_checkin E); [apply preserves_throw | apply preserves_ret].
Qed.

Lemma hoare_triggerCheckin_ok P E :
  silent P ->
  hoare P (triggerCheckin E) (fun r w => exists a, r = Ok a /\ P w).
Proof.
  intros HP w Hw. unfold triggerCheckin, try_catch, bind, emit.
  destruct (trigger_checkin E); simpl; eexists; (split; [done|]); by apply HP.
Qed.

(** The branch that stores the exchanged token leaves the session alone. *)
Lemma store_token_keeps_session E id ts tokenInfo ttl ps :
  id <> "wechat_token" -> timestamp ps = ts ->
  hoare (holds_session id ts)
    (do! kv_put "wechat_token" (VToken tokenInfo) ttl in
     do! sendEmail LoginSuccessEmail in
     do! triggerCheckin E in
     ret ps)
    (fun r w => match r with
                | Ok a => holds_session id ts w /\ timestamp a = ts
                | Throw _ => holds_session id ts w
                end).
Proof.
  intros Hne Hts. set (I := holds_session id ts).
  assert (HI : preserves I kv_request) by apply stable_kv_request, holds_session_stable.
  assert (Htr : silent I) by apply holds_session_silent.
  assert (Hdrop : forall (A : Type) (r : result A) w, I w ->
            match r with Ok _ => I w | Throw _ => I w end) by (by intros A [|]).
  apply hoare_bind with (R := fun _ w => I w).
  { eapply hoare_conseq; [apply (preserves_kv_put I) | done | apply Hdrop]; [done|].
    intros w Hw. by apply holds_session_put_other. }
  intros _. apply hoare_bind with (R := fun _ w => I w).
  { eapply hoare_conseq; [by apply preserves_sendEmail | done | apply Hdrop]. }
  intros _. apply hoare_bind with (R := fun _ w => I w).
  { eapply hoare_conseq; [by apply preserves_triggerCheckin | done | apply Hdrop]. }
  intros _. apply hoare_ret. intros w Hw; by split.
Qed.

(** One tick writes back the timestamp it read, whatever the provider
    answers and whichever requests to the store fail. *)
Lemma process_keeps_timestamp ex E id ts :
  id <> "wechat_token" ->
  preserves (holds_session id ts) (processPollingSession_with ex E id).
Proof.
  intros Hne. set (I := holds_session id ts).
  assert (HI : preserves I kv_request) by apply stable_kv_request, holds_session_stable.
  unfold processPollingSession_with.
  apply preserves_try_catch; [|intros; apply preserves_ret].
  apply hoare_bind
    with (R := fun v w => I w /\ exists p, v = Some (VPolling p) /\ timestamp p = ts).
  { eapply hoare_conseq; [apply (hoare_kv_get I id HI) | done |].
    intros [v|msg] w [Hw Hv]; [|done]. split; [done|].
    destruct Hw as (p & t & Hk & Hts). rewrite (Hv v eq_refl), Hk. eauto. }
  intros v. apply hoare_pure. intros (p & -> & Hts). simpl.
  apply hoare_bind_ret.
  apply preserves_if; [apply preserves_ret|].
  apply preserves_bind; [by apply preserves_kv_get_text|]. intros uuid.
  apply preserves_if; [apply preserves_ret|].
  apply hoare_bind with (R := fun ps w => I w /\ timestamp ps = ts).
  - repeat case_match;
      first [ apply hoare_ret; intros w Hw; by split
            | by apply store_token_keeps_session ].
  - intros ps. apply hoare_pure. intros <-.
    apply preserves_kv_put; [apply stable_kv_request, holds_session_stable|].
    intros w _. apply holds_session_put_same.
Qed.

Lemma run_ticks_keeps_timestamp ticks id ts w :
  id <> "wechat_token" ->
  holds_session id ts w -> holds_session id ts (run_ticks ticks id w).
Proof.
  intros Hne. revert w. induction ticks as [|[E fs] ticks IH]; intros w Hw; [done|].
  simpl. apply IH. apply (process_keeps_timestamp _ E id ts Hne).
  by apply holds_session_stable.
Qed.

(** With a store that answers every request, a tick that reaches its
    final write cannot miss it: the session is still there afterwards,
    under any key. *)
Lemma process_keeps_session_nofault ex E id ts :
  preserves (fun w => nofault w /\ holds_session id ts w)
    (processPollingSession_with ex E id).
Proof.
  set (I := fun w => nofault w /\ holds_session id ts w).
  assert (HI : preserves I kv_request)
    by apply nofault_kv_request, holds_session_stable.
  unfold processPollingSession_with.
  apply preserves_try_catch; [|intros; apply preserves_ret].
  apply hoare_bind_ok
    with (R := fun v w => I w /\ exists p, v = Some (VPolling p) /\ timestamp p = ts).
  { eapply hoare_conseq; [apply hoare_kv_get_ok | done |].
    intros r w (v & -> & [Hf Hw] & ->). exists (value <$> kv w !! id).
    split; [done|]. split; [done|].
    destruct Hw as (p & t & Hk & Hts). rewrite Hk. eauto. }
  intros v. apply hoare_pure. intros (p & -> & Hts). simpl.
  apply hoare_bind_ret.
  apply preserves_if; [apply preserves_ret|].
  apply preserves_bind; [by apply preserves_kv_get_text|]. intros uuid.
  apply preserves_if; [apply preserves_ret|].
  apply hoare_bind_ok with (R := fun ps w => nofault w /\ timestamp ps = ts).
  - apply hoare_conseq
      with (P' := fun w => nofault w /\ True)
           (Q' := fun r w => exists ps, r = Ok ps /\ nofault w /\ timestamp ps = ts);
      [| by intros w [Hf _] | done].
    repeat case_match;
      try (apply hoare_ret; intros w [Hf _]; by eexists).
    all: apply hoare_bind_ok with (R := fun _ w => nofault w /\ True);
      [by apply hoare_kv_put_ok|]; intros _.
    all: apply hoare_bind_ok with (R := fun _ w => nofault w /\ True);
      [apply hoare_sendEmail_ok; by intros w e|]; intros _.
    all: apply hoare_bind_ok with (R := fun _ w => nofault w /\ True);
      [apply hoare_triggerCheckin_ok; by intros w e|]; intros _.
    all: apply hoare_ret; intros w [Hf _]; by eexists.
  - intros ps. apply hoare_pure. intros <-.
    eapply hoare_conseq;
      [apply hoare_kv_put_ok
         with (P := fun _ => True) (Q := holds_session id (timestamp ps))
      | by intros w Hf | by intros r w (a & _ & Hw)].
    intros w _ _. apply holds_session_put_same.
Qed.

(** The tick itself never throws. *)
Lemma process_returns ex E id w :
  (processPollingSession_with ex E id w).1 = Ok tt.
Proof.
  unfold processPollingSession_with, try_catch.
  match goal with |- context [match ?m w with _ => _ end] =>
    destruct (m w) as [[[]|msg] w'] end; done.
Qed.

(** A tick on a completed session reads the store and stops. *)
Lemma process_completed_noop ex E id w p ttl :
  nofault w ->
  kv w !! id = Some {| value := VPolling p; expirationTtl := ttl |} ->
  is_completed (ps_status p) = true ->
  processPollingSession_with ex E id w = (Ok tt, w).
Proof.
  intros Hf Hk Hc. unfold processPollingSession_with. mrun.
  rewrite Hk. simpl. by rewrite Hc.
Qed.

Lemma getPollingStatus_run E id w p ttl :
  nofault w ->
  kv w !! id = Some {| value := VPolling p; expirationTtl := ttl |} ->
  getPollingStatus E id w
  = if 5 * 60 * 1000 <? now E - timestamp p then
      (Ok {| st_success := true; st_status := Some (pretty EXPIRED);
             st_message := ps_message p; st_error := None |},
       set_kv (<[id := {| value := VPolling (with_status EXPIRED p);
                          expirationTtl := 3600 |}]> (kv w)) w)
    else
      (Ok {| st_success := true; st_status := Some (pretty (ps_status p));
             st_message := ps_message p; st_error := None |}, w).
Proof.
  intros Hf Hk. unfold getPollingStatus. mrun. rewrite Hk. simpl.
  destruct (5 * 60 * 1000 <? now E - timestamp p); mrun; done.
Qed.

Lemma startPollingSession_run E uuid w :
  nofault w ->
  let pollingId := "polling_" +:+ pretty (now E) +:+ "_" +:+ randomSuffix E in
  startPollingSession E uuid w
  = (Ok {| sr_success := true; sr_pollingId := Some pollingId; sr_error := None |},
     set_kv (<[pollingId +:+ "_uuid" := {| value := VText uuid; expirationTtl := 300 |}]>
               (<[pollingId := {| value := VPolling
                                     {| ps_status := WAITING; ps_message := None;
                                        ps_wxCode := None; ps_uuid := None;
                                        timestamp := now E |};
                                  expirationTtl := 300 |}]> (kv w))) w).
Proof. intros Hf pollingId. unfold startPollingSession. mrun. by kv_run. Qed.

End PollingFacts.

(** Runs a tick up to the poll of the provider, on a session that is
    stored, not completed and has its uuid. *)
Ltac run_pending Hk Hc Hu Hne :=
  unfold processPollingSession, processPollingSession_with; mrun;
  rewrite Hk; simpl; rewrite Hc; unfold kv_get_text; mrun;
  rewrite Hu; simpl; rewrite (proj2 (String.eqb_neq _ _) Hne); simpl.

(** * The check-in orchestrator *)

(** The one-time record that [generateOneTimeLink] stores. *)
Lemma generateOneTimeLink_run E w :
  nofault w ->
  generateOneTimeLink E w
  = (Ok (AUTH_WORKER_URL E +:+ "/auth/" +:+ randomBytes32 E),
     set_kv (<["onetime_" +:+ randomBytes32 E :=
                 {| value := VOneTime {| purpose := "wechat_auth";
                                         createdAt := now E;
                                         expiresAt := Some (now E + 24 * 60 * 60 * 1000) |};
                    expirationTtl := 86400 |}]> (kv w)) w).
Proof.
  intros Hf. unfold generateOneTimeLink, AuthUtils.generateOneTimeLink,
    KVStorage.storeOneTimeLink. by mrun.
Qed.

Lemma handleAuthenticationRequired_run E w :
  nofault w ->
  handleAuthenticationRequired E w
  = (Ok tt,
     set_trace
       (EmailSent (LoginRequiredEmail (AUTH_WORKER_URL E +:+ "/auth/" +:+ randomBytes32 E))
          :: trace w)
       (set_kv (<["onetime_" +:+ randomBytes32 E :=
                   {| value := VOneTime {| purpose := "wechat_auth";
                                           createdAt := now E;
                                           expiresAt := Some (now E + 24 * 60 * 60 * 1000) |};
                      expirationTtl := 86400 |}]> (kv w)) w)).
Proof.
  intros Hf. unfold handleAuthenticationRequired, try_catch, bind.
  by rewrite generateOneTimeLink_run.
Qed.

Lemma scheduled_invalid_run E w :
  nofault w -> no_valid_token E w ->
  scheduled E w = handleAuthenticationRequired E w.
Proof.
  intros Hf Hinv. unfold scheduled, kv_get_json. mrun.
  destruct Hinv as [Hk | (t & ttl & Hk & Hle)]; rewrite Hk; simpl.
  - rewrite handleAuthenticationRequired_run by done. done.
  - rewrite (proj2 (Z.ltb_ge _ _) Hle).
    rewrite handleAuthenticationRequired_run by done. done.
Qed.

(** Minting a login link makes no request to the check-in endpoint,
    whichever store requests fail. *)
Lemma handleAuthenticationRequired_no_checkin E c :
  preserves (fun w => checkin_calls w = c) (handleAuthenticationRequired E).
Proof.
  set (I := fun w => checkin_calls w = c).
  assert (HI : preserves I kv_request) by (apply stable_kv_request; by intros w fs).
  unfold handleAuthenticationRequired.
  apply preserves_try_catch; [|intros; apply preserves_ret].
  apply preserves_bind; [|intros link; apply preserves_emit; by intros w].
  apply preserves_try_catch; [|intros; apply preserves_throw].
  apply preserves_bind; [|intros; apply preserves_ret].
  apply preserves_try_catch; [|intros; apply preserves_throw].
  apply preserves_kv_put; [done | by intros w].
Qed.

Lemma scheduled_invalid_no_checkin E w :
  no_valid_token E w ->
  checkin_calls (scheduled E w).2 = checkin_calls w.
Proof.
  intros Hinv.
  set (I := fun w' => checkin_calls w' = checkin_calls w
                      /\ kv w' !! "wechat_token" = kv w !! "wechat_token").
  assert (HI : preserves I kv_request) by (apply stable_kv_request; by intros w' fs).
  cut (hoare I (scheduled E) (fun _ w' => checkin_calls w' = checkin_calls w)).
  { intros H. by apply (H w). }
  unfold scheduled.
  apply hoare_try_catch with (T := fun _ w' => checkin_calls w' = checkin_calls w).
  2: { intros msg. apply preserves_try_catch; [|intros; apply preserves_ret].
       apply preserves_emit. by intros w'. }
  apply hoare_bind
    with (R := fun v w' => checkin_calls w' = checkin_calls w
                           /\ v = value <$> kv w !! "wechat_token").
  { unfold kv_get_json.
    apply hoare_bind with (R := fun v w' => I w' /\ v = value <$> kv w !! "wechat_token").
    - eapply hoare_conseq; [apply (hoare_kv_get I "wechat_token" HI) | done |].
      intros [v|msg] w' [[Hc Hk] Hv]; [|done].
      split; [done|]. by rewrite (Hv v eq_refl), Hk.
    - intros v. apply hoare_pure. intros ->.
      destruct (value <$> kv w !! "wechat_token") as [[]|];
        first [ apply hoare_throw; by intros w' [Hc _]
              | apply hoare_ret; by intros w' [Hc _] ]. }
  intros v. apply hoare_pure. intros ->.
  assert (Hauth : hoare (fun w' => checkin_calls w' = checkin_calls w)
                    (handleAuthenticationRequired E)
                    (fun _ w' => checkin_calls w' = checkin_calls w))
    by apply handleAuthenticationRequired_no_checkin.
  destruct Hinv as [Hk | (t & ttl & Hk & Hle)]; rewrite Hk; simpl.
  - eapply hoare_conseq; [exact Hauth | done | by intros [|]].
  - rewrite (proj2 (Z.ltb_ge _ _) Hle).
    eapply hoare_conseq; [exact Hauth | done | by intros [|]].
Qed.

(** One request to the check-in endpoint, and the result read off its
    reply. *)
Lemma performCheckin_run E tok th sig w :
  performCheckin E tok th sig w
  = (Ok match checkin_endpoint E tok th sig with
        | CheckinFetchError msg => {| ck_success := false; ck_message := msg |}
        | CheckinReply None =>
            {| ck_success := false;
               ck_message := "Cannot read properties of undefined (reading 'includes')" |}
        | CheckinReply (Some d) =>
            {| ck_success := includes d "打卡成功"; ck_message := d |}
        end,
     set_trace (CheckinSubmitted tok th sig :: trace w) w).
Proof.
  unfold performCheckin, CheckinUtils.submitCheckIn, try_catch, bind, emit.
  destruct (checkin_endpoint E tok th sig) as [msg|[d|]]; simpl; try done.
  by destruct (includes d "打卡成功").
Qed.

(** With a valid credential the scheduler submits one check-in; a result
    that is not a success is followed by the reminder e-mail of
    [executeCheckin] and then by [handleAuthenticationRequired]. *)
Lemma scheduled_valid_run E w t ttl :
  nofault w ->
  kv w !! "wechat_token" = Some {| value := VToken t; expirationTtl := ttl |} ->
  now E < expire t ->
  scheduled E w
  = let w1 := set_trace (CheckinSubmitted (token t) (THREAD_ID E) (USER_NAME E)
                           :: trace w) w in
    let remind msg :=
      handleAuthenticationRequired E
        (set_trace (EmailSent (CheckinReminderEmail msg) :: trace w1) w1) in
    match checkin_endpoint E (token t) (THREAD_ID E) (USER_NAME E) with
    | CheckinFetchError msg => remind msg
    | CheckinReply None =>
        remind "Cannot read properties of undefined (reading 'includes')"
    | CheckinReply (Some d) =>
        if includes d "打卡成功"
        then (Ok tt, set_trace (EmailSent (CheckinSuccessEmail d) :: trace w1) w1)
        else remind d
    end.
Proof.
  intros Hf Hk Hlt. unfold scheduled, kv_get_json. mrun. rewrite Hk. simpl.
  rewrite (proj2 (Z.ltb_lt _ _) Hlt).
  unfold CheckinService.executeCheckin, try_catch, bind.
  rewrite performCheckin_run.
  destruct (checkin_endpoint E (token t) (THREAD_ID E) (USER_NAME E)) as [msg|[d|]];
    simpl.
  - by rewrite handleAuthenticationRequired_run.
  - destruct (includes d "打卡成功"); simpl; [done|].
    by rewrite handleAuthenticationRequired_run.
  - by rewrite handleAuthenticationRequired_run.
Qed.

(** * One-time links *)

Lemma consumeOneTimeLink_run token w d ttl :
  nofault w ->
  kv w !! ("onetime_" +:+ token) = Some {| value := VOneTime d; expirationTtl := ttl |} ->
  KVStorage.consumeOneTimeLink token w
  = (Ok (Some (VOneTime d)), set_kv (delete ("onetime_" +:+ token) (kv w)) w).
Proof.
  intros Hf Hk. unfold KVStorage.consumeOneTimeLink, KVStorage.getOneTimeLink,
    kv_get_json.
  mrun. rewrite Hk. simpl. by mrun.
Qed.

Lemma validateOneTimeLink_absent E token w :
  nofault w ->
  kv w !! ("onetime_" +:+ token) = None ->
  validateOneTimeLink E token w = (Ok false, w).
Proof.
  intros Hf Hk. unfold validateOneTimeLink, AuthUtils.validateOneTimeLink,
    KVStorage.consumeOneTimeLink, KVStorage.getOneTimeLink, kv_get_json.
  unfold try_catch. destruct (String.length token <? 32)%nat; [done|].
  mrun. rewrite Hk. done.
Qed.

(** * Checked properties: login polling *)

Section PollingClaims.

Context {S : WeChatLoginStatus}.

(** C4. A stored session that is not completed and whose timestamp lies
    more than five minutes before now is persisted as EXPIRED, with the
    one-hour retention, by the status query: by [getPollingStatus] alone and
    by the [/login-status] path, which runs a tick first, whatever the
    provider and the code exchange answer during that tick. *)
Theorem C4_inactive_session_expires (E : Env) (id : string) (w : World)
    (p : PollingStatus) (ttl : Z) :
  kv_faults w = [] ->
  kv w !! id = Some {| value := VPolling p; expirationTtl := ttl |} ->
  is_completed (ps_status p) = false ->
  5 * 60 * 1000 < now E - timestamp p ->
  kv (getPollingStatus E id w).2 !! id
    = Some {| value := VPolling (with_status EXPIRED p); expirationTtl := 3600 |}
  /\ exists p',
       kv (loginStatus E id w).2 !! id
         = Some {| value := VPolling p'; expirationTtl := 3600 |}
       /\ ps_status p' = EXPIRED
       /\ timestamp p' = timestamp p.
Proof.
  intros Hf Hk _ Hold. split.
  - rewrite (getPollingStatus_run E id w p ttl Hf Hk).
    rewrite (proj2 (Z.ltb_lt _ _) Hold). simpl. apply lookup_insert_eq.
  - unfold loginStatus, try_catch, bind, processPollingSession.
    assert (Hw : nofault w /\ holds_session id (timestamp p) w)
      by (split; [done | by exists p, ttl]).
    pose proof (process_keeps_session_nofault (exchangeWeChatCode E) E id _ w Hw)
      as [Hf1 (p1 & t1 & Hk1 & Hts1)].
    pose proof (process_returns (exchangeWeChatCode E) E id w) as Hr.
    destruct (processPollingSession_with (exchangeWeChatCode E) E id w) as [r w1].
    simpl in *. subst r.
    rewrite (getPollingStatus_run E id w1 p1 t1 Hf1 Hk1).
    rewrite Hts1, (proj2 (Z.ltb_lt _ _) Hold). simpl.
    exists (with_status EXPIRED p1). by rewrite lookup_insert_eq.
Qed.

(** C10. [processPollingSession] never changes the timestamp of a session:
    whatever the provider answers and whichever store requests fail, the
    session it leaves behind carries the timestamp it read.  The timestamp
    is the clock reading taken by [startPollingSession]; after any sequence
    of ticks it is still that reading, so [getPollingStatus] rewrites the
    session to EXPIRED exactly when more than five minutes have passed since
    the session was created, however recent the last tick is. *)
Theorem C10_timestamp_fixed_at_creation (E0 : Env) (uuid : string) (w0 : World)
    (ticks : list (Env * list bool)) (E : Env) :
  kv_faults w0 = [] ->
  let id := "polling_" +:+ pretty (now E0) +:+ "_" +:+ randomSuffix E0 in
  let w1 := (startPollingSession E0 uuid w0).2 in
  let w2 := set_faults [] (run_ticks ticks id w1) in
  (forall E' id' w' p' ttl',
     id' <> "wechat_token" ->
     kv w' !! id' = Some {| value := VPolling p'; expirationTtl := ttl' |} ->
     exists q ttl,
       kv (processPollingSession E' id' w').2 !! id'
         = Some {| value := VPolling q; expirationTtl := ttl |}
       /\ timestamp q = timestamp p')
  /\ kv w1 !! id
       = Some {| value := VPolling {| ps_status := WAITING; ps_message := None;
                                      ps_wxCode := None; ps_uuid := None;
                                      timestamp := now E0 |};
                 expirationTtl := 300 |}
  /\ exists p ttl,
       kv w2 !! id = Some {| value := VPolling p; expirationTtl := ttl |}
       /\ timestamp p = now E0
       /\ (getPollingStatus E id w2).2
          = if 5 * 60 * 1000 <? now E - now E0 then
              set_kv (<[id := {| value := VPolling (with_status EXPIRED p);
                                 expirationTtl := 3600 |}]> (kv w2)) w2
            else w2.
Proof.
  intros Hf id w1 w2.
  assert (Hne : id <> "wechat_token") by done.
  assert (Hk1 : kv w1 !! id
                = Some {| value := VPolling {| ps_status := WAITING; ps_message := None;
                                               ps_wxCode := None; ps_uuid := None;
                                               timestamp := now E0 |};
                          expirationTtl := 300 |}).
  { subst w1. rewrite (startPollingSession_run E0 uuid w0 Hf). simpl.
    rewrite lookup_insert_ne by apply uuid_key_ne. apply lookup_insert_eq. }
  split; [|split; [exact Hk1|]].
  - intros E' id' w' p' ttl' Hne' Hk'.
    apply (process_keeps_timestamp (exchangeWeChatCode E') E' id' (timestamp p') Hne' w').
    by exists p', ttl'.
  - assert (H2 : holds_session id (now E0) (run_ticks ticks id w1)).
    { apply run_ticks_keeps_timestamp; [done|]. eexists _, _. split; [exact Hk1|done]. }
    destruct H2 as (p & ttl & Hk2 & Hts). exists p, ttl.
    split; [exact Hk2|]. split; [exact Hts|].
    rewrite (getPollingStatus_run E id w2 p ttl eq_refl Hk2), Hts.
    by destruct (5 * 60 * 1000 <? now E - now E0).
Qed.

(** C5. [processPollingSession] never throws, on any store and under any
    availability of the store.  When the poll of the provider reports a
    failure (a rejected request, an HTTP error status, a status code
    outside the vocabulary), the tick persists the session with status
    ERROR and the message of the failure, and with the retention of a
    session that is no longer waiting. *)
Theorem C5_polling_failures_captured (E : Env) (id : string) (w : World)
    (p : PollingStatus) (ttl : Z) (uuid : string) (ttl_uuid : Z) :
  kv_faults w = [] ->
  kv w !! id = Some {| value := VPolling p; expirationTtl := ttl |} ->
  is_completed (ps_status p) = false ->
  kv w !! (id +:+ "_uuid") = Some {| value := VText uuid; expirationTtl := ttl_uuid |} ->
  uuid <> "" ->
  success (pollWeChatLogin E uuid) = false ->
  (forall E' id' w', (processPollingSession E' id' w').1 = Ok tt)
  /\ (forall E' u,
        success (pollWeChatLogin E' u) = true ->
        status (pollWeChatLogin E' u) ∈ [404; 408; 405; 403]
        /\ exists http errcode code, wechat_poll E' u = PollBody http errcode code)
  /\ processPollingSession E id w
     = (Ok tt,
        set_kv (<[id := {| value :=
                             VPolling (with_message (message (pollWeChatLogin E uuid))
                                         (with_status ERROR p));
                           expirationTtl := if ERROR =? WAITING then 300 else 3600 |}]>
                  (kv w)) w).
Proof.
  intros Hf Hk Hc Hu Hne Hfail.
  split; [intros; apply process_returns|].
  split; [intros; by apply pollWeChatLogin_success|].
  unfold processPollingSession, processPollingSession_with. mrun.
  rewrite Hk. simpl. rewrite Hc. unfold kv_get_text. mrun. rewrite Hu. simpl.
  rewrite (proj2 (String.eqb_neq _ _) Hne). simpl.
  rewrite Hfail. simpl. mrun. done.
Qed.

(** C3, as the code has it.  [exchangeWeChatCode] reports a reply of the
    provider that lacks [Expire] as a failed exchange; the tick then
    persists the session as ERROR with that message and writes no
    credential.  The default horizon of three days belongs to
    [processPollingSession] alone: it is used for an exchange result that
    reports success with a token and no [expire], which
    [exchangeWeChatCode] never returns. *)
Theorem C3_default_horizon_needs_exchange_success
    (ex : string -> TokenExchangeResponse) (E : Env) (id : string) (w : World)
    (p : PollingStatus) (ttl : Z) (uuid : string) (ttl_uuid : Z) (code : string) :
  kv_faults w = [] ->
  kv w !! id = Some {| value := VPolling p; expirationTtl := ttl |} ->
  is_completed (ps_status p) = false ->
  kv w !! (id +:+ "_uuid") = Some {| value := VText uuid; expirationTtl := ttl_uuid |} ->
  uuid <> "" ->
  id <> "wechat_token" ->
  success (pollWeChatLogin E uuid) = true ->
  wxCode (pollWeChatLogin E uuid) = Some code ->
  code <> "" ->
  (forall tokenData,
     wechat_exchange E code = ExJson tokenData None ->
     exchangeWeChatCode E code
       = {| ex_success := false; ex_token := None; ex_expire := None;
            ex_message := Some "❌ 获取 Token 失败" |}
     /\ kv (processPollingSession E id w).2 !! "wechat_token"
        = kv w !! "wechat_token"
     /\ exists q,
          kv (processPollingSession E id w).2 !! id
            = Some {| value := VPolling q;
                      expirationTtl := if ERROR =? WAITING then 300 else 3600 |}
          /\ ps_status q = ERROR
          /\ ps_message q = Some "❌ 获取 Token 失败")
  /\ (forall tok,
        tok <> "" ->
        ex code = {| ex_success := true; ex_token := Some tok; ex_expire := None;
                     ex_message := None |} ->
        kv (processPollingSession_with ex E id w).2 !! "wechat_token"
          = Some {| value := VToken {| token := tok;
                                       expire := now E + 3 * 24 * 60 * 60 * 1000 |};
                    expirationTtl := 259200 |}).
Proof.
  intros Hf Hk Hc Hu Hne Hid Hsucc Hcode Hcne. split.
  - intros tokenData Hex.
    assert (Hfail : exchangeWeChatCode E code
              = {| ex_success := false; ex_token := None; ex_expire := None;
                   ex_message := Some "❌ 获取 Token 失败" |}).
    { unfold exchangeWeChatCode, WeChatUtils.exchangeWeChatCode. rewrite Hex.
      simpl. by rewrite andb_false_r. }
    split; [exact Hfail|].
    run_pending Hk Hc Hu Hne.
    rewrite Hsucc, Hcode. simpl.
    rewrite (proj2 (String.eqb_neq _ _) Hcne). simpl.
    rewrite Hfail. simpl. mrun.
    split; [by rewrite lookup_insert_ne|].
    eexists. split; [apply lookup_insert_eq|]. done.
  - intros tok Htok Hex.
    run_pending Hk Hc Hu Hne.
    rewrite Hsucc, Hcode. simpl.
    rewrite (proj2 (String.eqb_neq _ _) Hcne). simpl.
    rewrite Hex. simpl. rewrite (proj2 (String.eqb_neq _ _) Htok). simpl.
    mrun. unfold triggerCheckin, emit. mrun.
    destruct (trigger_checkin E); simpl; mrun;
      rewrite lookup_insert_ne by done; rewrite lookup_insert_eq;
      by replace (now E + 3 * 24 * 60 * 60 * 1000 - now E) with 259200000 by lia.
Qed.

(** C7. The credential obtained by a code exchange is written with the
    retention [max 300 (floor ((expire - now) / 1000))] seconds, by the tick
    that exchanges the code and by [KVStorage.setToken] alike; the retention
    is never below 300 seconds and is exactly 300 when [expire] is at or
    before now. *)
Theorem C7_token_ttl_floor (E : Env) (id : string) (w : World)
    (p : PollingStatus) (ttl : Z) (uuid : string) (ttl_uuid : Z)
    (code tok : string) (e : Z) :
  kv_faults w = [] ->
  kv w !! id = Some {| value := VPolling p; expirationTtl := ttl |} ->
  is_completed (ps_status p) = false ->
  kv w !! (id +:+ "_uuid") = Some {| value := VText uuid; expirationTtl := ttl_uuid |} ->
  uuid <> "" ->
  id <> "wechat_token" ->
  success (pollWeChatLogin E uuid) = true ->
  wxCode (pollWeChatLogin E uuid) = Some code ->
  code <> "" ->
  wechat_exchange E code = ExJson (Some tok) (Some e) ->
  tok <> "" ->
  e <> 0 ->
  kv (processPollingSession E id w).2 !! "wechat_token"
    = Some {| value := VToken {| token := "Bearer " +:+ tok; expire := e |};
              expirationTtl := Z.max 300 ((e - now E) / 1000) |}
  /\ (forall tokenInfo w',
        kv_faults w' = [] ->
        KVStorage.setToken E tokenInfo w'
          = (Ok tt,
             set_kv (<["wechat_token" :=
                         {| value := VToken tokenInfo;
                            expirationTtl :=
                              Z.max 300 ((expire tokenInfo - now E) / 1000) |}]>
                       (kv w')) w'))
  /\ 300 <= Z.max 300 ((e - now E) / 1000)
  /\ (e <= now E -> Z.max 300 ((e - now E) / 1000) = 300).
Proof.
  intros Hf Hk Hc Hu Hne Hid Hsucc Hcode Hcne Hex Htok He.
  split; [|split; [|split]].
  - run_pending Hk Hc Hu Hne.
    rewrite Hsucc, Hcode. simpl.
    rewrite (proj2 (String.eqb_neq _ _) Hcne). simpl.
    unfold exchangeWeChatCode, WeChatUtils.exchangeWeChatCode. rewrite Hex. simpl.
    rewrite (proj2 (String.eqb_neq _ _) Htok), (proj2 (Z.eqb_neq _ _) He). simpl.
    mrun. unfold triggerCheckin, emit. mrun.
    destruct (trigger_checkin E); simpl; mrun;
      rewrite lookup_insert_ne by done; rewrite lookup_insert_eq;
      by rewrite (proj2 (Z.eqb_neq _ _) He).
  - intros tokenInfo w' Hf'. unfold KVStorage.setToken. by mrun.
  - lia.
  - intros Hle. assert ((e - now E) / 1000 <= 0) by (apply Z.div_le_upper_bound; lia).
    lia.
Qed.

(** C1, as the code has it.  A tick on a completed session is a no-op, but
    the status query is not: for a completed session (CONFIRMED, EXPIRED,
    SERVER_ERROR or ERROR) whose timestamp lies more than five minutes back,
    [getPollingStatus] writes the session back with status EXPIRED, alone
    and after the tick of the [/login-status] path. *)
Theorem C1_completed_session_overwritten (E : Env) (id : string) (w : World)
    (p : PollingStatus) (ttl : Z) :
  kv_faults w = [] ->
  kv w !! id = Some {| value := VPolling p; expirationTtl := ttl |} ->
  is_completed (ps_status p) = true ->
  5 * 60 * 1000 < now E - timestamp p ->
  processPollingSession E id w = (Ok tt, w)
  /\ kv (getPollingStatus E id w).2 !! id
     = Some {| value := VPolling (with_status EXPIRED p); expirationTtl := 3600 |}
  /\ kv (loginStatus E id w).2 !! id
     = Some {| value := VPolling (with_status EXPIRED p); expirationTtl := 3600 |}.
Proof.
  intros Hf Hk Hc Hold.
  assert (Hnoop : processPollingSession E id w = (Ok tt, w))
    by (by apply (process_completed_noop _ E id w p ttl)).
  assert (Hget : kv (getPollingStatus E id w).2 !! id
                 = Some {| value := VPolling (with_status EXPIRED p);
                           expirationTtl := 3600 |}).
  { rewrite (getPollingStatus_run E id w p ttl Hf Hk).
    rewrite (proj2 (Z.ltb_lt _ _) Hold). simpl. apply lookup_insert_eq. }
  split; [exact Hnoop|]. split; [exact Hget|].
  unfold loginStatus, try_catch, bind. rewrite Hnoop.
  by destruct (getPollingStatus E id w) as [[r|msg] w'].
Qed.

End PollingClaims.

Lemma C4_witness :
  exists p',
    kv (loginStatus (S := errcodeStatus)
          (exampleEnv 400000 (PollBody 200 (Some 404) None) (ExFetchError "") (CheckinFetchError ""))
          "polling_1000_k3j9x2m1q" (sessionWorld 404 1000)).2
      !! "polling_1000_k3j9x2m1q"
      = Some {| value := VPolling p'; expirationTtl := 3600 |}
    /\ ps_status p' = 403
    /\ timestamp p' = 1000.
Proof.
  refine (proj2 (C4_inactive_session_expires (S := errcodeStatus)
                   (exampleEnv 400000 (PollBody 200 (Some 404) None)
                      (ExFetchError "") (CheckinFetchError ""))
                   "polling_1000_k3j9x2m1q" (sessionWorld 404 1000)
                   (exampleSession 404 1000) 300 _ _ _ _)).
  - reflexivity.
  - reflexivity.
  - reflexivity.
  - simpl. lia.
Defined.

Lemma C10_witness :
  exists p ttl,
    kv (set_faults []
          (run_ticks (S := errcodeStatus)
             [(exampleEnv 2000 (PollBody 200 (Some 404) None) (ExFetchError "")
                 (CheckinFetchError ""), [false; true]);
              (exampleEnv 299000 (PollBody 200 (Some 408) None) (ExFetchError "")
                 (CheckinFetchError ""), [])]
             "polling_1000_k3j9x2m1q"
             (startPollingSession (S := errcodeStatus)
                (exampleEnv 1000 (PollFetchError "") (ExFetchError "")
                   (CheckinFetchError ""))
                "0a1b2c3d4e5f6g7h" emptyWorld).2))
      !! "polling_1000_k3j9x2m1q"
      = Some {| value := VPolling p; expirationTtl := ttl |}
    /\ timestamp p = 1000.
Proof.
  destruct (C10_timestamp_fixed_at_creation (S := errcodeStatus)
              (exampleEnv 1000 (PollFetchError "") (ExFetchError "")
                 (CheckinFetchError ""))
              "0a1b2c3d4e5f6g7h" emptyWorld
              [(exampleEnv 2000 (PollBody 200 (Some 404) None) (ExFetchError "")
                  (CheckinFetchError ""), [false; true]);
               (exampleEnv 299000 (PollBody 200 (Some 408) None) (ExFetchError "")
                  (CheckinFetchError ""), [])]
              (exampleEnv 301001 (PollFetchError "") (ExFetchError "")
                 (CheckinFetchError ""))
              eq_refl)
    as (_ & _ & p & ttl & Hk & Hts & _).
  exists p, ttl. split; [exact Hk | exact Hts].
Defined.

Lemma C5_witness :
  processPollingSession (S := errcodeStatus)
    (exampleEnv 2000 (PollFetchError "network down") (ExFetchError "")
       (CheckinFetchError ""))
    "polling_1000_k3j9x2m1q" (sessionWorld 404 1000)
  = (Ok tt,
     set_kv (<["polling_1000_k3j9x2m1q" :=
                 {| value := VPolling {| ps_status := 0;
                                         ps_message := Some "network down";
                                         ps_wxCode := None; ps_uuid := None;
                                         timestamp := 1000 |};
                    expirationTtl := 3600 |}]> (kv (sessionWorld 404 1000)))
       (sessionWorld 404 1000)).
Proof.
  refine (proj2 (proj2
    (C5_polling_failures_captured (S := errcodeStatus)
       (exampleEnv 2000 (PollFetchError "network down") (ExFetchError "")
          (CheckinFetchError ""))
       "polling_1000_k3j9x2m1q" (sessionWorld 404 1000)
       (exampleSession 404 1000) 300 "0a1b2c3d4e5f6g7h" 300 _ _ _ _ _ _))).
  - reflexivity.
  - reflexivity.
  - reflexivity.
  - reflexivity.
  - discriminate.
  - reflexivity.
Defined.

Lemma C3_witness :
  kv (processPollingSession_with (S := errcodeStatus)
        (fun _ => {| ex_success := true; ex_token := Some "Bearer tok";
                     ex_expire := None; ex_message := None |})
        (exampleEnv 2000 (PollBody 200 (Some 405) (Some "code-42"))
           (ExJson (Some "tok") None) (CheckinFetchError ""))
        "polling_1000_k3j9x2m1q" (sessionWorld 404 1000)).2
    !! "wechat_token"
  = Some {| value := VToken {| token := "Bearer tok"; expire := 2000 + 3 * 24 * 60 * 60 * 1000 |};
            expirationTtl := 259200 |}.
Proof.
  refine (proj2
    (C3_default_horizon_needs_exchange_success (S := errcodeStatus)
       (fun _ => {| ex_success := true; ex_token := Some "Bearer tok";
                    ex_expire := None; ex_message := None |})
       (exampleEnv 2000 (PollBody 200 (Some 405) (Some "code-42"))
          (ExJson (Some "tok") None) (CheckinFetchError ""))
       "polling_1000_k3j9x2m1q" (sessionWorld 404 1000)
       (exampleSession 404 1000) 300 "0a1b2c3d4e5f6g7h" 300 "code-42"
       _ _ _ _ _ _ _ _ _) "Bearer tok" _ _).
  - reflexivity.
  - reflexivity.
  - reflexivity.
  - reflexivity.
  - discriminate.
  - discriminate.
  - reflexivity.
  - reflexivity.
  - discriminate.
  - discriminate.
  - reflexivity.
Defined.

(** C3, the statement of the specification at a concrete input: the
    provider confirms the login and answers the code exchange with a token
    and no expiry.  The exchange is reported as failed, no credential is
    stored and the session ends in ERROR. *)
Lemma C3_missing_expiry_rejected :
  let E := exampleEnv 2000 (PollBody 200 (Some 405) (Some "code-42"))
             (ExJson (Some "tok") None) (CheckinFetchError "") in
  let w' := (processPollingSession (S := errcodeStatus) E
               "polling_1000_k3j9x2m1q" (sessionWorld 404 1000)).2 in
  ex_success (exchangeWeChatCode E "code-42") = false
  /\ ~ (exists t ttl,
          kv w' !! "wechat_token" = Some {| value := VToken t; expirationTtl := ttl |})
  /\ kv w' !! "polling_1000_k3j9x2m1q"
     = Some {| value := VPolling {| ps_status := @ERROR errcodeStatus;
                                    ps_message := Some "❌ 获取 Token 失败";
                                    ps_wxCode := Some "code-42";
                                    ps_uuid := None;
                                    timestamp := 1000 |};
               expirationTtl := 3600 |}.
Proof.
  split; [reflexivity|]. split; [|reflexivity].
  intros (t & ttl & H). vm_compute in H. discriminate H.
Qed.

Lemma C7_witness :
  kv (processPollingSession (S := errcodeStatus)
        (exampleEnv 2000 (PollBody 200 (Some 405) (Some "code-42"))
           (ExJson (Some "tok") (Some 1500)) (CheckinFetchError ""))
        "polling_1000_k3j9x2m1q" (sessionWorld 404 1000)).2
    !! "wechat_token"
  = Some {| value := VToken {| token := "Bearer tok"; expire := 1500 |};
            expirationTtl := Z.max 300 ((1500 - 2000) / 1000) |}.
Proof.
  refine (proj1
    (C7_token_ttl_floor (S := errcodeStatus)
       (exampleEnv 2000 (PollBody 200 (Some 405) (Some "code-42"))
          (ExJson (Some "tok") (Some 1500)) (CheckinFetchError ""))
       "polling_1000_k3j9x2m1q" (sessionWorld 404 1000)
       (exampleSession 404 1000) 300 "0a1b2c3d4e5f6g7h" 300 "code-42" "tok" 1500
       _ _ _ _ _ _ _ _ _ _ _ _)).
  - reflexivity.
  - reflexivity.
  - reflexivity.
  - reflexivity.
  - discriminate.
  - discriminate.
  - reflexivity.
  - reflexivity.
  - discriminate.
  - reflexivity.
  - discriminate.
  - discriminate.
Defined.

Lemma C1_witness :
  kv (loginStatus (S := errcodeStatus)
        (exampleEnv 400000 (PollBody 200 (Some 404) None) (ExFetchError "")
           (CheckinFetchError ""))
        "polling_1000_k3j9x2m1q" (sessionWorld 405 1000)).2
    !! "polling_1000_k3j9x2m1q"
  = Some {| value := VPolling (exampleSession 403 1000); expirationTtl := 3600 |}.
Proof.
  refine (proj2 (proj2
    (C1_completed_session_overwritten (S := errcodeStatus)
       (exampleEnv 400000 (PollBody 200 (Some 404) None) (ExFetchError "")
          (CheckinFetchError ""))
       "polling_1000_k3j9x2m1q" (sessionWorld 405 1000)
       (exampleSession 405 1000) 300 _ _ _ _))).
  - reflexivity.
  - reflexivity.
  - reflexivity.
  - simpl. lia.
Defined.

(** * Checked properties: check-in orchestration and one-time links *)

(** C2, as the code has it.  With a valid stored credential and a check-in
    that the endpoint rejects with a message of its own (any description
    without the success marker, the one of an already completed check-in
    included), the scheduler leaves the credential in the store, and after
    the reminder e-mail of [executeCheckin] it goes on to
    [handleAuthenticationRequired]: it stores a new one-time login link and
    sends the e-mail that asks for a new login. *)
Theorem C2_rejected_checkin_requests_login (E : Env) (w : World)
    (t : TokenInfo) (ttl : Z) (d : string) :
  kv_faults w = [] ->
  kv w !! "wechat_token" = Some {| value := VToken t; expirationTtl := ttl |} ->
  now E < expire t ->
  checkin_endpoint E (token t) (THREAD_ID E) (USER_NAME E) = CheckinReply (Some d) ->
  includes d "打卡成功" = false ->
  scheduled E w
  = (Ok tt,
     set_trace
       (EmailSent (LoginRequiredEmail
                     (AUTH_WORKER_URL E +:+ "/auth/" +:+ randomBytes32 E))
          :: EmailSent (CheckinReminderEmail d)
          :: CheckinSubmitted (token t) (THREAD_ID E) (USER_NAME E)
          :: trace w)
       (set_kv (<["onetime_" +:+ randomBytes32 E :=
                   {| value := VOneTime
                                 {| purpose := "wechat_auth";
                                    createdAt := now E;
                                    expiresAt := Some (now E + 24 * 60 * 60 * 1000) |};
                      expirationTtl := 86400 |}]> (kv w)) w))
  /\ kv (scheduled E w).2 !! "wechat_token"
     = Some {| value := VToken t; expirationTtl := ttl |}.
Proof.
  intros Hf Hk Hlt Hreply Hd.
  rewrite (scheduled_valid_run E w t ttl Hf Hk Hlt), Hreply, Hd. simpl.
  rewrite handleAuthenticationRequired_run by done. simpl.
  split; [done|]. by rewrite lookup_insert_ne.
Qed.

Lemma C2_witness :
  scheduled
    (exampleEnv 2000 (PollFetchError "") (ExFetchError "")
       (CheckinReply (Some "今日已签到")))
    (tokenWorld 5000)
  = (Ok tt,
     {| kv := <["onetime_00112233445566778899aabbccddeeff00112233445566778899aabbccddeeff" :=
                 {| value := VOneTime {| purpose := "wechat_auth"; createdAt := 2000;
                                         expiresAt := Some 86402000 |};
                    expirationTtl := 86400 |}]> (kv (tokenWorld 5000));
        trace :=
          [EmailSent (LoginRequiredEmail
             "https://checkin.example.workers.dev/auth/00112233445566778899aabbccddeeff00112233445566778899aabbccddeeff");
           EmailSent (CheckinReminderEmail "今日已签到");
           CheckinSubmitted "Bearer tok" 123456 "user"];
        kv_faults := [] |}).
Proof.
  refine (proj1
    (C2_rejected_checkin_requests_login
       (exampleEnv 2000 (PollFetchError "") (ExFetchError "")
          (CheckinReply (Some "今日已签到")))
       (tokenWorld 5000) {| token := "Bearer tok"; expire := 5000 |} 3600
       "今日已签到" _ _ _ _ _)).
  - reflexivity.
  - reflexivity.
  - simpl. lia.
  - reflexivity.
  - reflexivity.
Defined.

(** C6. When the store holds no credential, or one whose [expire] is not
    after now, the scheduler makes no request to the check-in endpoint,
    whichever store requests fail; with a store that answers, all it does is
    store a one-time record under the random token and send the e-mail that
    carries the login link. *)
Theorem C6_no_credential_mints_login_link (E : Env) (w : World) :
  no_valid_token E w ->
  checkin_calls (scheduled E w).2 = checkin_calls w
  /\ (kv_faults w = [] ->
      scheduled E w
      = (Ok tt,
         set_trace
           (EmailSent (LoginRequiredEmail
                         (AUTH_WORKER_URL E +:+ "/auth/" +:+ randomBytes32 E))
              :: trace w)
           (set_kv (<["onetime_" +:+ randomBytes32 E :=
                       {| value := VOneTime
                                     {| purpose := "wechat_auth";
                                        createdAt := now E;
                                        expiresAt := Some (now E + 24 * 60 * 60 * 1000) |};
                          expirationTtl := 86400 |}]> (kv w)) w))).
Proof.
  intros Hinv. split; [by apply scheduled_invalid_no_checkin|].
  intros Hf. rewrite scheduled_invalid_run by done.
  by apply handleAuthenticationRequired_run.
Qed.

Lemma C6_witness :
  checkin_calls
    (scheduled (exampleEnv 5000 (PollFetchError "") (ExFetchError "")
                  (CheckinReply (Some "打卡成功")))
       (tokenWorld 5000)).2
  = checkin_calls (tokenWorld 5000).
Proof.
  refine (proj1 (C6_no_credential_mints_login_link
                   (exampleEnv 5000 (PollFetchError "") (ExFetchError "")
                      (CheckinReply (Some "打卡成功")))
                   (tokenWorld 5000) _)).
  right. exists {| token := "Bearer tok"; expire := 5000 |}, 3600.
  split; [reflexivity | simpl; lia].
Defined.

(** C8. [isTokenValid] answers true exactly when the store holds a
    credential whose [expire] is strictly after now.  For a credential with
    [expire <= now], the boundary [expire = now] included, it answers false
    and the scheduler makes no request to the check-in endpoint; for a
    credential with [now < expire] the scheduler submits the check-in with
    it. *)
Theorem C8_token_valid_iff_unexpired (E : Env) (w : World) :
  kv_faults w = [] ->
  ((TokenValidator.isTokenValid E w).1 = Ok true
   <-> exists t ttl,
         kv w !! "wechat_token" = Some {| value := VToken t; expirationTtl := ttl |}
         /\ now E < expire t)
  /\ (forall t ttl,
        kv w !! "wechat_token" = Some {| value := VToken t; expirationTtl := ttl |} ->
        expire t <= now E ->
        (TokenValidator.isTokenValid E w).1 = Ok false
        /\ checkin_calls (scheduled E w).2 = checkin_calls w)
  /\ (forall t ttl,
        kv w !! "wechat_token" = Some {| value := VToken t; expirationTtl := ttl |} ->
        now E < expire t ->
        checkin_calls (scheduled E w).2
        = CheckinSubmitted (token t) (THREAD_ID E) (USER_NAME E) :: checkin_calls w).
Proof.
  intros Hf.
  assert (Hrun : (TokenValidator.isTokenValid E w).1
                 = Ok match value <$> kv w !! "wechat_token" with
                      | Some v => number_gt (expire_of v) (now E)
                      | None => false
                      end).
  { unfold TokenValidator.isTokenValid, KVStorage.getToken, kv_get_json. mrun.
    by destruct (kv w !! "wechat_token") as [[[] ?]|]. }
  split; [|split].
  - rewrite Hrun. split.
    + destruct (kv w !! "wechat_token") as [[[ | |t|] ttl]|]; simpl; try done.
      intros [= H]. apply Z.ltb_lt in H. by exists t, ttl.
    + intros (t & ttl & -> & Hlt). simpl. by rewrite (proj2 (Z.ltb_lt _ _) Hlt).
  - intros t ttl Hk Hle. split.
    + rewrite Hrun, Hk. simpl. by rewrite (proj2 (Z.ltb_ge _ _) Hle).
    + apply scheduled_invalid_no_checkin. right. by exists t, ttl.
  - intros t ttl Hk Hlt. rewrite (scheduled_valid_run E w t ttl Hf Hk Hlt). simpl.
    destruct (checkin_endpoint E (token t) (THREAD_ID E) (USER_NAME E)) as [msg|[d|]];
      try destruct (includes d "打卡成功");
      try rewrite handleAuthenticationRequired_run by done; done.
Qed.

Lemma C8_witness :
  (TokenValidator.isTokenValid
     (exampleEnv 5000 (PollFetchError "") (ExFetchError "") (CheckinFetchError ""))
     (tokenWorld 5000)).1 = Ok false
  /\ checkin_calls
       (scheduled (exampleEnv 5000 (PollFetchError "") (ExFetchError "")
                     (CheckinFetchError ""))
          (tokenWorld 5000)).2
     = checkin_calls (tokenWorld 5000).
Proof.
  refine (proj1 (proj2 (C8_token_valid_iff_unexpired
                          (exampleEnv 5000 (PollFetchError "") (ExFetchError "")
                             (CheckinFetchError ""))
                          (tokenWorld 5000) _))
            {| token := "Bearer tok"; expire := 5000 |} 3600 _ _).
  - reflexivity.
  - reflexivity.
  - simpl. lia.
Defined.

(** C9. [validateOneTimeLink] deletes the record of the link as soon as it
    has read it, before it looks at [purpose] and [expiresAt]: whatever the
    outcome of those checks, the record is gone afterwards, and every later
    validation of the same token answers false and changes nothing. *)
Theorem C9_link_consumed_before_checks (E : Env) (token : string) (w : World)
    (d : OneTimeData) (ttl : Z) :
  kv_faults w = [] ->
  (32 <= String.length token)%nat ->
  kv w !! ("onetime_" +:+ token) = Some {| value := VOneTime d; expirationTtl := ttl |} ->
  let w1 := (validateOneTimeLink E token w).2 in
  (validateOneTimeLink E token w).1
    = Ok (bool_decide (purpose d = "wechat_auth")
          && negb (truthy_number (expiresAt d) && number_lt (expiresAt d) (now E)))
  /\ w1 = set_kv (delete ("onetime_" +:+ token) (kv w)) w
  /\ forall E', validateOneTimeLink E' token w1 = (Ok false, w1).
Proof.
  intros Hf Hlen Hk w1.
  assert (Hrun : validateOneTimeLink E token w
                 = (Ok (bool_decide (purpose d = "wechat_auth")
                        && negb (truthy_number (expiresAt d)
                                 && number_lt (expiresAt d) (now E))),
                    set_kv (delete ("onetime_" +:+ token) (kv w)) w)).
  { unfold validateOneTimeLink, AuthUtils.validateOneTimeLink, try_catch.
    rewrite (proj2 (Nat.ltb_ge _ _) Hlen). unfold bind.
    rewrite (consumeOneTimeLink_run token w d ttl Hf Hk). simpl.
    case_bool_decide as Hp.
    - rewrite bool_decide_eq_true_2 by congruence. simpl.
      by destruct (truthy_number (expiresAt d) && number_lt (expiresAt d) (now E)).
    - rewrite bool_decide_eq_false_2 by congruence. done. }
  subst w1. rewrite Hrun. simpl. split; [done|]. split; [done|].
  intros E'. apply validateOneTimeLink_absent; [done|].
  simpl. apply lookup_delete_eq.
Qed.

Lemma C9_witness :
  (validateOneTimeLink
     (exampleEnv 2000 (PollFetchError "") (ExFetchError "") (CheckinFetchError ""))
     "00112233445566778899aabbccddeeff00112233445566778899aabbccddeeff"
     {| kv := <["onetime_00112233445566778899aabbccddeeff00112233445566778899aabbccddeeff" :=
                  {| value := VOneTime {| purpose := "wechat_auth"; createdAt := 0;
                                          expiresAt := Some 1000 |};
                     expirationTtl := 86400 |}]> ∅;
        trace := []; kv_faults := [] |}).1
  = Ok false.
Proof.
  refine (proj1 (C9_link_consumed_before_checks
    (exampleEnv 2000 (PollFetchError "") (ExFetchError "") (CheckinFetchError ""))
    "00112233445566778899aabbccddeeff00112233445566778899aabbccddeeff"
    {| kv := <["onetime_00112233445566778899aabbccddeeff00112233445566778899aabbccddeeff" :=
                 {| value := VOneTime {| purpose := "wechat_auth"; createdAt := 0;
                                         expiresAt := Some 1000 |};
                    expirationTtl := 86400 |}]> ∅;
       trace := []; kv_faults := [] |}
    {| purpose := "wechat_auth"; createdAt := 0; expiresAt := Some 1000 |} 86400
    _ _ _)).
  - reflexivity.
  - simpl. lia.
  - reflexivity.
Defined.

(** * Further properties of the worker *)

Lemma truthy_string_true o :
  truthy_string o = true <-> exists s, o = Some s /\ s <> "".
Proof.
  destruct o as [s|]; simpl; [|split; [done | by intros (s & ? & _)]].
  rewrite negb_true_iff, String.eqb_neq. split; [eauto | by intros (s' & [= <-] & H)].
Qed.

Lemma truthy_number_true o :
  truthy_number o = true <-> exists n, o = Some n /\ n <> 0.
Proof.
  destruct o as [n|]; simpl; [|split; [done | by intros (s & ? & _)]].
  rewrite negb_true_iff, Z.eqb_neq. split; [eauto | by intros (s' & [= <-] & H)].
Qed.

Lemma exchangeWeChatCode_success_inv E code :
  ex_success (exchangeWeChatCode E code) = true ->
  exists tok e,
    wechat_exchange E code = ExJson (Some tok) (Some e) /\ tok <> "" /\ e <> 0
    /\ exchangeWeChatCode E code
       = {| ex_success := true; ex_token := Some ("Bearer " +:+ tok);
            ex_expire := Some e; ex_message := None |}.
Proof.
  unfold exchangeWeChatCode, WeChatUtils.exchangeWeChatCode, catch.
  destruct (wechat_exchange E code) as [msg|st txt err|tokenData expire]; simpl;
    [done|done|].
  destruct (truthy_string tokenData && truthy_number expire) eqn:Hb; simpl; [|done].
  apply andb_prop in Hb as [Ht He].
  apply truthy_string_true in Ht as (tok & -> & Ht).
  apply truthy_number_true in He as (e & -> & He). intros _. by exists tok, e.
Qed.

(** A write either goes through or is rejected before it changes the
    store. *)
Lemma hoare_kv_put_cases (P : World -> Prop) key v ttl :
  stable P ->
  hoare P (kv_put key v ttl)
    (fun r w' =>
       match r with
       | Ok _ =>
           exists w, P w /\
             w' = set_kv (<[key := {| value := v; expirationTtl := ttl |}]> (kv w)) w
       | Throw _ => P w'
       end).
Proof.
  intros HP w Hw. unfold kv_put, bind, kv_request.
  destruct (kv_faults w) as [|[] fs] eqn:Hf; simpl.
  - by exists w.
  - by apply HP.
  - exists (set_faults fs w). split; [by apply HP | done].
Qed.

(** ** wechat-utils.ts *)

(** X8. [pollWeChatLogin] returns an authorization code exactly when the
    uuid has at least ten characters and the provider answers with errcode
    405 together with a code; such a result is a success with status 405.
    A uuid of fewer than ten characters is a failure with status 0 whatever
    the provider would answer, and errcode 405 without a code is reported as
    the unknown status 405. *)
Theorem X8_poll_code_only_when_confirmed (E : Env) (uuid : string) :
  let r := pollWeChatLogin E uuid in
  (truthy_string (wxCode r) = true
   <-> (10 <= String.length uuid)%nat
       /\ exists http code,
            wechat_poll E uuid = PollBody http (Some 405) (Some code) /\ code <> "")
  /\ (truthy_string (wxCode r) = true -> success r = true /\ status r = 405)
  /\ ((String.length uuid < 10)%nat ->
      r = {| success := false; status := 0; wxCode := None;
             message := Some ("Invalid UUID format: " +:+ uuid) |})
  /\ (forall http,
        (10 <= String.length uuid)%nat ->
        wechat_poll E uuid = PollBody http (Some 405) None ->
        r = {| success := false; status := 405; wxCode := None;
               message := Some ("未知状态码: " +:+ pretty 405) |}).
Proof.
  intros r. subst r. unfold pollWeChatLogin, WeChatUtils.pollWeChatLogin, catch.
  destruct (String.length uuid <? 10)%nat eqn:Hlen.
  - apply Nat.ltb_lt in Hlen. simpl. repeat split; try done; try lia.
  - apply Nat.ltb_ge in Hlen. split; [|split; [|split]].
    + destruct (wechat_poll E uuid) as [msg|st txt|http errcode code]; simpl.
      * split; [done | by intros (_ & ? & ? & ? & _)].
      * split; [done | by intros (_ & ? & ? & ? & _)].
      * split.
        -- intros H. split; [done|].
           destruct (bool_decide (errcode = Some 405) && truthy_string code) eqn:Hb.
           ++ apply andb_prop in Hb as [He Hc]. apply bool_decide_eq_true in He as ->.
              apply truthy_string_true in Hc as (c & -> & Hc). by exists http, c.
           ++ destruct (bool_decide (errcode = Some 403)); [done|].
              destruct (bool_decide (errcode = Some 404)); [done|].
              by destruct ((if truthy_number errcode then default 0 errcode else http)
                           =? 408).
        -- intros (_ & http' & c & [= ? ? ?] & Hc). subst. simpl.
           rewrite (proj2 (String.eqb_neq _ _) Hc). simpl.
           by rewrite (proj2 (String.eqb_neq _ _) Hc).
    + destruct (wechat_poll E uuid) as [msg|st txt|http errcode code]; simpl; try done.
      destruct (bool_decide (errcode = Some 405) && truthy_string code); [done|].
      destruct (bool_decide (errcode = Some 403)); [done|].
      destruct (bool_decide (errcode = Some 404)); [done|].
      by destruct ((if truthy_number errcode then default 0 errcode else http) =? 408).
    + intros. lia.
    + intros http _ ->. done.
Qed.

(** X9. [exchangeWeChatCode] succeeds exactly when the reply carries a
    non-empty [Token] and a non-zero [Expire]; the token it returns is the
    provider's with the prefix ["Bearer "], the expiry is the provider's.  A
    failed exchange carries neither token nor expiry, and always a
    message. *)
Theorem X9_exchange_success (E : Env) (code : string) :
  let r := exchangeWeChatCode E code in
  (ex_success r = true
   <-> exists tok e,
         wechat_exchange E code = ExJson (Some tok) (Some e) /\ tok <> "" /\ e <> 0)
  /\ (forall tok e,
        wechat_exchange E code = ExJson (Some tok) (Some e) -> tok <> "" -> e <> 0 ->
        r = {| ex_success := true; ex_token := Some ("Bearer " +:+ tok);
               ex_expire := Some e; ex_message := None |})
  /\ (ex_success r = false ->
      ex_token r = None /\ ex_expire r = None /\ is_Some (ex_message r)).
Proof.
  intros r. subst r. unfold exchangeWeChatCode, WeChatUtils.exchangeWeChatCode, catch.
  destruct (wechat_exchange E code) as [msg|st txt err|tokenData expire]; simpl.
  - repeat split; try done; eauto. by intros (? & ? & ? & _).
  - repeat split; try done; eauto. by intros (? & ? & ? & _).
  - destruct (truthy_string tokenData && truthy_number expire) eqn:Hb; simpl.
    + apply andb_prop in Hb as [Ht He].
      apply truthy_string_true in Ht as (tok & -> & Ht).
      apply truthy_number_true in He as (e & -> & He).
      repeat split; try done; eauto.
      intros tok' e' [= ? ?] _ _. by subst.
    + repeat split; try done; eauto.
      * intros (tok & e & [= ? ?] & Ht & He). subst. simpl in Hb.
        rewrite (proj2 (String.eqb_neq _ _) Ht), (proj2 (Z.eqb_neq _ _) He) in Hb. done.
      * intros tok e [= ? ?] Ht He. subst. simpl in Hb.
        rewrite (proj2 (String.eqb_neq _ _) Ht), (proj2 (Z.eqb_neq _ _) He) in Hb. done.
Qed.

(** ** polling-service.ts *)

Section TickFacts.

Context {S : WeChatLoginStatus}.

Lemma triggerCheckin_run E w :
  triggerCheckin E w = (Ok tt, set_trace (CheckinTriggered :: trace w) w).
Proof. unfold triggerCheckin, try_catch, bind, emit. by destruct (trigger_checkin E). Qed.

(** A tick whose poll succeeds without a code only rewrites the session. *)
Lemma tick_run_no_code ex E id w p ttl uuid ttl_uuid :
  nofault w ->
  kv w !! id = Some {| value := VPolling p; expirationTtl := ttl |} ->
  is_completed (ps_status p) = false ->
  kv w !! (id +:+ "_uuid") = Some {| value := VText uuid; expirationTtl := ttl_uuid |} ->
  uuid <> "" ->
  success (pollWeChatLogin E uuid) = true ->
  truthy_string (wxCode (pollWeChatLogin E uuid)) = false ->
  processPollingSession_with ex E id w
  = (Ok tt,
     set_kv (<[id := {| value := VPolling
                                   (with_message (message (pollWeChatLogin E uuid))
                                      (with_status (status (pollWeChatLogin E uuid)) p));
                        expirationTtl :=
                          if status (pollWeChatLogin E uuid) =? WAITING
                          then 300 else 3600 |}]> (kv w)) w).
Proof.
  intros Hf Hk Hc Hu Hne Hs Hcode.
  run_pending Hk Hc Hu Hne. rewrite Hs, Hcode. simpl. mrun. done.
Qed.

(** A tick whose poll delivers a code that is exchanged for a token. *)
Lemma tick_run_confirmed ex E id w p ttl uuid ttl_uuid code tok :
  nofault w ->
  kv w !! id = Some {| value := VPolling p; expirationTtl := ttl |} ->
  is_completed (ps_status p) = false ->
  kv w !! (id +:+ "_uuid") = Some {| value := VText uuid; expirationTtl := ttl_uuid |} ->
  uuid <> "" ->
  success (pollWeChatLogin E uuid) = true ->
  wxCode (pollWeChatLogin E uuid) = Some code ->
  code <> "" ->
  ex_success (ex code) = true ->
  ex_token (ex code) = Some tok ->
  tok <> "" ->
  let expireTime := if truthy_number (ex_expire (ex code))
                    then default 0 (ex_expire (ex code))
                    else now E + 3 * 24 * 60 * 60 * 1000 in
  processPollingSession_with ex E id w
  = (Ok tt,
     {| kv := <[id := {| value := VPolling
                           (with_status CONFIRMED
                              (with_wxCode (Some code)
                                 (with_message (message (pollWeChatLogin E uuid))
                                    (with_status (status (pollWeChatLogin E uuid)) p))));
                         expirationTtl := if CONFIRMED =? WAITING then 300 else 3600 |}]>
               (<["wechat_token" :=
                    {| value := VToken {| token := tok; expire := expireTime |};
                       expirationTtl := Z.max 300 ((expireTime - now E) / 1000) |}]>
                  (kv w));
        trace := CheckinTriggered :: EmailSent LoginSuccessEmail :: trace w;
        kv_faults := kv_faults w |}).
Proof.
  intros Hf Hk Hc Hu Hne Hs Hcode Hcne Hex Htok Htne expireTime.
  run_pending Hk Hc Hu Hne. rewrite Hs, Hcode. simpl.
  rewrite (proj2 (String.eqb_neq _ _) Hcne). simpl.
  rewrite Hex, Htok. simpl. rewrite (proj2 (String.eqb_neq _ _) Htne). simpl.
  mrun. unfold triggerCheckin, emit. mrun.
  destruct (trigger_checkin E); simpl; mrun; done.
Qed.

(** X1. [startPollingSession] never throws and sends nothing.  When it
    reports success, the session (status WAITING, timestamp now, retention
    300 s) and its uuid are both stored under the id it returns.  When a
    store request is rejected it reports failure with a message and no id,
    and the uuid record is not written; the session record may already be
    there. *)
Theorem X1_start_outcome (E : Env) (uuid : string) (w : World) :
  let id := "polling_" +:+ pretty (now E) +:+ "_" +:+ randomSuffix E in
  let session := {| value := VPolling {| ps_status := WAITING; ps_message := None;
                                         ps_wxCode := None; ps_uuid := None;
                                         timestamp := now E |};
                    expirationTtl := 300 |} in
  exists reply,
    (startPollingSession E uuid w).1 = Ok reply
    /\ trace (startPollingSession E uuid w).2 = trace w
    /\ ((sr_success reply = true
         /\ sr_pollingId reply = Some id
         /\ kv (startPollingSession E uuid w).2
            = <[id +:+ "_uuid" := {| value := VText uuid; expirationTtl := 300 |}]>
                (<[id := session]> (kv w)))
        \/ (sr_success reply = false
            /\ sr_pollingId reply = None
            /\ is_Some (sr_error reply)
            /\ kv (startPollingSession E uuid w).2 !! (id +:+ "_uuid")
               = kv w !! (id +:+ "_uuid")
            /\ (kv (startPollingSession E uuid w).2 = kv w
                \/ kv (startPollingSession E uuid w).2 = <[id := session]> (kv w)))).
Proof.
  intros id session. unfold startPollingSession, try_catch, bind, kv_put, kv_request, bind.
  fold id. fold session.
  destruct w as [m tr fs]. destruct fs as [|[] [|[] fs]]; simpl.
  all: eexists; (split; [done|]);
    (split; [done|]); first [ left; done | right ]; repeat split; eauto.
  all: try (rewrite lookup_insert_ne by (apply not_eq_sym, uuid_key_ne); done).
Qed.

(** X2. A tick on an id without a session, or on a session whose uuid
    record is missing (as [startPollingSession] can leave it), returns
    without writing and without sending anything, whichever store requests
    fail. *)
Theorem X2_tick_without_session (E : Env) (id : string) (w : World) :
  kv w !! id = None \/ kv w !! (id +:+ "_uuid") = None ->
  (processPollingSession E id w).1 = Ok tt
  /\ kv (processPollingSession E id w).2 = kv w
  /\ trace (processPollingSession E id w).2 = trace w.
Proof.
  intros H. unfold processPollingSession, processPollingSession_with, try_catch, bind,
    kv_get_text, kv_get, kv_request, bind.
  destruct w as [m tr fs]. simpl in H.
  destruct fs as [|[] [|[] fs]]; simpl;
    destruct (m !! id) as [[[] ?]|] eqn:Hk; simpl; try done;
    try destruct (is_completed _); simpl; try done;
    try (destruct H as [H|H]; [done|]; rewrite H; done);
    try (destruct (String.eqb s ""); done).
Qed.

(** X5. Whichever store requests fail and whatever the provider answers,
    a tick does one of two things to the credential and the trace: it leaves
    both alone, or it stores the credential exactly as the code exchange
    delivered it (the provider's token behind ["Bearer "], the provider's
    non-zero expiry, never the default horizon) and records the
    login-success e-mail and the check-in trigger, once each. *)
Theorem X5_credential_provenance (E : Env) (id : string) (w : World) :
  id <> "wechat_token" ->
  let w' := (processPollingSession E id w).2 in
  (kv w' !! "wechat_token" = kv w !! "wechat_token" /\ trace w' = trace w)
  \/ exists code tok e,
       wechat_exchange E code = ExJson (Some tok) (Some e) /\ tok <> "" /\ e <> 0
       /\ kv w' !! "wechat_token"
          = Some {| value := VToken {| token := "Bearer " +:+ tok; expire := e |};
                    expirationTtl := Z.max 300 ((e - now E) / 1000) |}
       /\ trace w' = CheckinTriggered :: EmailSent LoginSuccessEmail :: trace w.
Proof.
  intros Hne w'. subst w'.
  set (J := fun w' : World =>
              kv w' !! "wechat_token" = kv w !! "wechat_token" /\ trace w' = trace w).
  set (K := fun w' : World =>
              exists code tok e,
                wechat_exchange E code = ExJson (Some tok) (Some e) /\ tok <> "" /\ e <> 0
                /\ kv w' !! "wechat_token"
                   = Some {| value := VToken {| token := "Bearer " +:+ tok; expire := e |};
                             expirationTtl := Z.max 300 ((e - now E) / 1000) |}
                /\ trace w' = CheckinTriggered :: EmailSent LoginSuccessEmail :: trace w).
  assert (HJ : stable J) by (by intros w1 fs).
  assert (HJK : stable (fun w' => J w' \/ K w')) by (by intros w1 fs).
  assert (HJr : preserves J kv_request) by by apply stable_kv_request.
  cut (hoare J (processPollingSession E id) (fun _ w' => J w' \/ K w')).
  { intros H. apply (H w). by split. }
  assert (Hweak : forall (A : Type) (m : M A), preserves J m ->
            hoare J m (fun r w' => match r with
                                   | Ok _ => J w'
                                   | Throw _ => J w' \/ K w'
                                   end)).
  { intros A m Hm. eapply hoare_conseq; [exact Hm | done |]. intros [|] w1 H; auto. }
  unfold processPollingSession, processPollingSession_with.
  apply hoare_try_catch with (T := fun _ w' => J w' \/ K w');
    [|intros; by apply hoare_ret].
  apply hoare_bind with (R := fun _ w' => J w');
    [by apply Hweak, preserves_kv_get|]. intros v.
  apply hoare_if; intros _; [apply hoare_ret; auto|].
  apply hoare_bind with (R := fun _ w' => J w').
  { apply Hweak. destruct (default (VText "") v);
      first [apply preserves_ret | apply preserves_throw]. }
  intros p.
  apply hoare_if; intros _; [apply hoare_ret; auto|].
  apply hoare_bind with (R := fun _ w' => J w');
    [by apply Hweak, preserves_kv_get_text|]. intros uuid.
  apply hoare_if; intros _; [apply hoare_ret; auto|].
  apply hoare_bind with (R := fun _ w' => J w' \/ K w').
  - apply hoare_if; intros _; [apply hoare_ret; auto|].
    apply hoare_if; intros _; [|apply hoare_ret; auto].
    apply hoare_if; intros Hex; [|apply hoare_ret; auto].
    apply andb_prop in Hex as [Hex _].
    apply exchangeWeChatCode_success_inv in Hex as (tok & e & Hraw & Htok & He & ->).
    simpl. rewrite (proj2 (Z.eqb_neq _ _) He). simpl.
    apply hoare_bind
      with (R := fun _ w' => exists w0,
                   J w0 /\ w' = set_kv (<["wechat_token" :=
                       {| value := VToken {| token := "Bearer " +:+ tok; expire := e |};
                          expirationTtl := Z.max 300 ((e - now E) / 1000) |}]> (kv w0)) w0).
    { eapply hoare_conseq; [apply (hoare_kv_put_cases J), HJ | done |].
      intros [|] w1 H; simpl; auto. }
    intros _ w1 (w0 & [Hk Htr] & ->). unfold bind, sendEmail, emit.
    rewrite triggerCheckin_run. simpl. right.
    eexists _, tok, e. repeat split; try done.
    + simpl. by rewrite lookup_insert_eq.
    + simpl. by rewrite Htr.
  - intros ps.
    eapply hoare_conseq;
      [apply (preserves_kv_put (fun w' => J w' \/ K w')) | done | by intros [|]];
      [by apply stable_kv_request|].
    intros w1 [[Hk Htr]|(code & tok & e & ? & ? & ? & Hk & Htr)]; [left|right].
    + split; [|done]. simpl. by rewrite lookup_insert_ne.
    + exists code, tok, e. repeat split; try done. simpl. by rewrite lookup_insert_ne.
Qed.

End TickFacts.

Section SessionFacts.

Context {S : WeChatLoginStatus}.

Lemma is_completed_CONFIRMED : is_completed CONFIRMED = true.
Proof. apply bool_decide_eq_true_2. set_solver. Qed.

Lemma poll_confirmed_run E uuid http code :
  (10 <= String.length uuid)%nat ->
  wechat_poll E uuid = PollBody http (Some 405) (Some code) -> code <> "" ->
  pollWeChatLogin E uuid
  = {| success := true; status := 405; wxCode := Some code; message := Some "扫码成功" |}.
Proof.
  intros Hlen Hpoll Hc. unfold pollWeChatLogin, WeChatUtils.pollWeChatLogin, catch.
  rewrite (proj2 (Nat.ltb_ge _ _) Hlen), Hpoll. simpl.
  by rewrite (proj2 (String.eqb_neq _ _) Hc).
Qed.

Lemma exchange_run E code tok e :
  wechat_exchange E code = ExJson (Some tok) (Some e) -> tok <> "" -> e <> 0 ->
  exchangeWeChatCode E code
  = {| ex_success := true; ex_token := Some ("Bearer " +:+ tok);
       ex_expire := Some e; ex_message := None |}.
Proof.
  intros Hx Ht He. unfold exchangeWeChatCode, WeChatUtils.exchangeWeChatCode, catch.
  rewrite Hx. simpl.
  by rewrite (proj2 (String.eqb_neq _ _) Ht), (proj2 (Z.eqb_neq _ _) He).
Qed.

(** The tick that exchanges the code, with the provider's answers spelled
    out. *)
Lemma confirming_tick_run E id w p ttl uuid ttl_uuid http code tok e :
  nofault w ->
  kv w !! id = Some {| value := VPolling p; expirationTtl := ttl |} ->
  is_completed (ps_status p) = false ->
  kv w !! (id +:+ "_uuid") = Some {| value := VText uuid; expirationTtl := ttl_uuid |} ->
  (10 <= String.length uuid)%nat ->
  wechat_poll E uuid = PollBody http (Some 405) (Some code) -> code <> "" ->
  wechat_exchange E code = ExJson (Some tok) (Some e) -> tok <> "" -> e <> 0 ->
  processPollingSession E id w
  = (Ok tt,
     {| kv := <[id := {| value := VPolling
                           {| ps_status := CONFIRMED; ps_message := Some "扫码成功";
                              ps_wxCode := Some code; ps_uuid := ps_uuid p;
                              timestamp := timestamp p |};
                         expirationTtl := if CONFIRMED =? WAITING then 300 else 3600 |}]>
               (<["wechat_token" :=
                    {| value := VToken {| token := "Bearer " +:+ tok; expire := e |};
                       expirationTtl := Z.max 300 ((e - now E) / 1000) |}]>
                  (kv w));
        trace := CheckinTriggered :: EmailSent LoginSuccessEmail :: trace w;
        kv_faults := kv_faults w |}).
Proof.
  intros Hf Hk Hc Hu Hlen Hpoll Hcode Hx Htok He.
  assert (Hne : uuid <> "") by (intros ->; simpl in Hlen; lia).
  pose proof (poll_confirmed_run E uuid http code Hlen Hpoll Hcode) as Hr.
  pose proof (exchange_run E code tok e Hx Htok He) as Hex.
  unfold processPollingSession.
  rewrite (tick_run_confirmed _ E id w p ttl uuid ttl_uuid code ("Bearer " +:+ tok));
    try done; try (by rewrite Hr); try (by rewrite Hex).
  rewrite Hr, Hex. simpl. by rewrite (proj2 (Z.eqb_neq _ _) He).
Qed.

(** X3. What a tick persists for the three provider signals that carry no
    code.  On a pending session with its uuid, and a store that answers,
    errcode 404, 408 or 403 changes the session record only: the status
    becomes the provider's code as it is, the message is the one of the
    signal, and the record is kept for 300 s when the code equals WAITING
    and for 3600 s otherwise.  A code that the provider sends along with
    these signals is ignored; no credential is stored and nothing is
    sent. *)
Theorem X3_signal_table (E : Env) (id : string) (w : World)
    (p : PollingStatus) (ttl : Z) (uuid : string) (ttl_uuid : Z)
    (http c : Z) (code : option string) :
  nofault w ->
  kv w !! id = Some {| value := VPolling p; expirationTtl := ttl |} ->
  is_completed (ps_status p) = false ->
  kv w !! (id +:+ "_uuid") = Some {| value := VText uuid; expirationTtl := ttl_uuid |} ->
  (10 <= String.length uuid)%nat ->
  wechat_poll E uuid = PollBody http (Some c) code ->
  c ∈ [404; 408; 403] ->
  processPollingSession E id w
  = (Ok tt,
     set_kv (<[id := {| value := VPolling
                          (with_message
                             (Some (if c =? 404 then "等待扫描二维码"
                                    else if c =? 408 then "二维码已扫描，等待确认"
                                    else "二维码已过期，请重试"))
                             (with_status c p));
                        expirationTtl := if c =? WAITING then 300 else 3600 |}]> (kv w)) w).
Proof.
  intros Hf Hk Hc Hu Hlen Hpoll Hin.
  assert (Hne : uuid <> "") by (intros ->; simpl in Hlen; lia).
  assert (Hr : pollWeChatLogin E uuid
               = {| success := true; status := c; wxCode := None;
                    message := Some (if c =? 404 then "等待扫描二维码"
                                     else if c =? 408 then "二维码已扫描，等待确认"
                                     else "二维码已过期，请重试") |}).
  { unfold pollWeChatLogin, WeChatUtils.pollWeChatLogin, catch.
    rewrite (proj2 (Nat.ltb_ge _ _) Hlen), Hpoll.
    set_unfold in Hin. destruct Hin as [->|[->|[->|[]]]]; done. }
  unfold processPollingSession.
  rewrite (tick_run_no_code _ E id w p ttl uuid ttl_uuid) by (try done; by rewrite Hr).
  by rewrite Hr.
Qed.

(** X4. The confirming tick.  On a pending session with its uuid, and a
    store that answers, errcode 405 with a code that the exchange turns
    into a token has exactly this effect: the credential is stored under
    [wechat_token] with the provider's expiry and a retention of
    [max 300 ((e - now) / 1000)] seconds, the session becomes CONFIRMED and
    keeps the code and its timestamp, and the trace gains the login-success
    e-mail followed by the check-in trigger.  The outcome does not depend on
    what the trigger request returns.  A status query in the same
    invocation, within five minutes of the session's creation, then reports
    success with status CONFIRMED. *)
Theorem X4_confirming_tick (E : Env) (id : string) (w : World)
    (p : PollingStatus) (ttl : Z) (uuid : string) (ttl_uuid : Z)
    (http : Z) (code tok : string) (e : Z) :
  nofault w ->
  kv w !! id = Some {| value := VPolling p; expirationTtl := ttl |} ->
  is_completed (ps_status p) = false ->
  kv w !! (id +:+ "_uuid") = Some {| value := VText uuid; expirationTtl := ttl_uuid |} ->
  (10 <= String.length uuid)%nat ->
  wechat_poll E uuid = PollBody http (Some 405) (Some code) -> code <> "" ->
  wechat_exchange E code = ExJson (Some tok) (Some e) -> tok <> "" -> e <> 0 ->
  processPollingSession E id w
  = (Ok tt,
     {| kv := <[id := {| value := VPolling
                           {| ps_status := CONFIRMED; ps_message := Some "扫码成功";
                              ps_wxCode := Some code; ps_uuid := ps_uuid p;
                              timestamp := timestamp p |};
                         expirationTtl := if CONFIRMED =? WAITING then 300 else 3600 |}]>
               (<["wechat_token" :=
                    {| value := VToken {| token := "Bearer " +:+ tok; expire := e |};
                       expirationTtl := Z.max 300 ((e - now E) / 1000) |}]>
                  (kv w));
        trace := CheckinTriggered :: EmailSent LoginSuccessEmail :: trace w;
        kv_faults := kv_faults w |})
  /\ (now E - timestamp p <= 5 * 60 * 1000 ->
      (getPollingStatus E id (processPollingSession E id w).2).1
      = Ok {| st_success := true; st_status := Some (pretty CONFIRMED);
              st_message := Some "扫码成功"; st_error := None |}).
Proof.
  intros Hf Hk Hc Hu Hlen Hpoll Hcode Hx Htok He.
  rewrite (confirming_tick_run E id w p ttl uuid ttl_uuid http code tok e) by done.
  split; [done|]. intros Hfresh. cbn [snd].
  erewrite getPollingStatus_run; [|done|apply lookup_insert_eq].
  cbn [timestamp]. by rewrite (proj2 (Z.ltb_ge _ _) Hfresh).
Qed.

(** X7. [getPollingStatus] never throws and sends nothing, whichever
    store requests fail.  A successful reply reports a stored session: its
    message, and either its status with the store untouched, or, when more
    than five minutes have passed since its timestamp, EXPIRED with the
    session rewritten as EXPIRED for 3600 s.  A failed reply carries an
    error and no status and leaves the store as it was; for an id without a
    session the error is the session-missing message. *)
Theorem X7_status_query_outcome (E : Env) (id : string) (w : World) :
  let r := getPollingStatus E id w in
  exists reply,
    r.1 = Ok reply
    /\ trace r.2 = trace w
    /\ (st_success reply = true ->
        exists p ttl,
          kv w !! id = Some {| value := VPolling p; expirationTtl := ttl |}
          /\ st_message reply = ps_message p
          /\ if 5 * 60 * 1000 <? now E - timestamp p then
               st_status reply = Some (pretty EXPIRED)
               /\ kv r.2 = <[id := {| value := VPolling (with_status EXPIRED p);
                                      expirationTtl := 3600 |}]> (kv w)
             else
               st_status reply = Some (pretty (ps_status p)) /\ kv r.2 = kv w)
    /\ (st_success reply = false ->
        kv r.2 = kv w /\ st_status reply = None /\ is_Some (st_error reply))
    /\ (kv w !! id = None -> nofault w ->
        st_error reply = Some "轮询会话不存在或已过期").
Proof.
  intros r. subst r.
  unfold getPollingStatus, try_catch, bind, kv_put, kv_get, kv_request, bind, nofault.
  destruct w as [m tr fs]. simpl.
  destruct fs as [|[] [|[] fs]]; simpl;
    destruct (m !! id) as [[[s|p|t|d] ttl]|] eqn:Hk; simpl;
    try destruct (String.eqb s ""); simpl;
    try destruct (5 * 60 * 1000 <? now E - timestamp p) eqn:Hold; simpl;
    eexists; (split; [done|]); (split; [done|]);
    repeat split; try done; eauto;
    intros _; exists p, ttl; rewrite Hold; done.
Qed.

End SessionFacts.

Lemma scheduled_valid_checkin_calls E w t ttl :
  nofault w ->
  kv w !! "wechat_token" = Some {| value := VToken t; expirationTtl := ttl |} ->
  now E < expire t ->
  checkin_calls (scheduled E w).2
  = CheckinSubmitted (token t) (THREAD_ID E) (USER_NAME E) :: checkin_calls w.
Proof.
  intros Hf Hk Hlt. rewrite (scheduled_valid_run E w t ttl) by done. simpl.
  destruct (checkin_endpoint E (token t) (THREAD_ID E) (USER_NAME E)) as [msg|[d|]];
    try destruct (includes d "打卡成功");
    rewrite ?handleAuthenticationRequired_run by done; done.
Qed.

Section LoginFlow.
Context {S : WeChatLoginStatus}.

Lemma poll_waiting_no_code E uuid :
  success (pollWeChatLogin E uuid) = true ->
  status (pollWeChatLogin E uuid) ∈ [404; 408] ->
  truthy_string (wxCode (pollWeChatLogin E uuid)) = false.
Proof.
  unfold pollWeChatLogin, WeChatUtils.pollWeChatLogin, catch.
  destruct (String.length uuid <? 10)%nat; [done|].
  destruct (wechat_poll E uuid) as [msg|st txt|http errcode code]; [done|done|].
  destruct (bool_decide (errcode = Some 405) && truthy_string code); simpl.
  { intros _ H. set_unfold in H. by destruct H as [|[|[]]]. }
  destruct (bool_decide (errcode = Some 403)); [done|].
  destruct (bool_decide (errcode = Some 404)); [done|].
  by destruct ((if truthy_number errcode then default 0 errcode else http) =? 408).
Qed.

(** The state of a login that is under way. *)
Lemma waiting_tick_keeps_pending E id uuid ts tokrec tr w :
  is_completed 404 = false -> is_completed 408 = false ->
  success (pollWeChatLogin E uuid) = true ->
  status (pollWeChatLogin E uuid) ∈ [404; 408] ->
  uuid <> "" ->
  let Pend := fun w : World =>
    nofault w
    /\ (exists p ttl,
          kv w !! id = Some {| value := VPolling p; expirationTtl := ttl |}
          /\ is_completed (ps_status p) = false /\ timestamp p = ts)
    /\ kv w !! (id +:+ "_uuid") = Some {| value := VText uuid; expirationTtl := 300 |}
    /\ kv w !! "wechat_token" = tokrec
    /\ trace w = tr in
  id <> "wechat_token" ->
  Pend w -> Pend (processPollingSession E id (set_faults [] w)).2.
Proof.
  intros H404 H408 Hs Hst Hne Pend Hid (Hf & (p & ttl & Hk & Hc & Hts) & Hu & Htok & Htr).
  unfold processPollingSession.
  rewrite (tick_run_no_code _ E id _ p ttl uuid 300); try done;
    [|by apply poll_waiting_no_code].
  subst Pend. simpl. split; [done|]. split; [|split; [|split]].
  - eexists _, _. rewrite lookup_insert_eq. split; [done|]. simpl. split; [|done].
    set_unfold in Hst. by destruct Hst as [->|[->|[]]].
  - rewrite lookup_insert_ne; [done|]. apply not_eq_sym, uuid_key_ne.
  - by rewrite lookup_insert_ne.
  - done.
Qed.

(** X6. A complete login, from the QR page to the next scheduled run.
    After [startPollingSession], any number of ticks that see the signals
    404 or 408, and one tick that sees 405 with a code that the exchange
    accepts (the store answering throughout): the credential of the exchange
    is stored, the session is CONFIRMED with the code and still carries the
    timestamp of its creation, and exactly the login-success e-mail and the
    check-in trigger were recorded, once each, however many ticks came
    before.  Every later tick on the session changes nothing, and a
    scheduled run before the expiry submits the check-in with the new
    token. *)
Theorem X6_login_flow (E0 : Env) (uuid : string) (envs : list Env) (Ec : Env)
    (http : Z) (code tok : string) (e : Z) (w0 : World) :
  nofault w0 ->
  is_completed WAITING = false -> is_completed 404 = false -> is_completed 408 = false ->
  Forall (fun E => success (pollWeChatLogin E uuid) = true
                   /\ status (pollWeChatLogin E uuid) ∈ [404; 408]) envs ->
  (10 <= String.length uuid)%nat ->
  wechat_poll Ec uuid = PollBody http (Some 405) (Some code) -> code <> "" ->
  wechat_exchange Ec code = ExJson (Some tok) (Some e) -> tok <> "" -> e <> 0 ->
  let id := "polling_" +:+ pretty (now E0) +:+ "_" +:+ randomSuffix E0 in
  let w1 := (startPollingSession E0 uuid w0).2 in
  let w2 := run_ticks ((fun E => (E, [])) <$> envs) id w1 in
  let w3 := (processPollingSession Ec id w2).2 in
  kv w3 !! "wechat_token"
  = Some {| value := VToken {| token := "Bearer " +:+ tok; expire := e |};
            expirationTtl := Z.max 300 ((e - now Ec) / 1000) |}
  /\ (exists ps ttl,
        kv w3 !! id = Some {| value := VPolling ps; expirationTtl := ttl |}
        /\ ps_status ps = CONFIRMED /\ ps_wxCode ps = Some code
        /\ timestamp ps = now E0)
  /\ trace w3 = CheckinTriggered :: EmailSent LoginSuccessEmail :: trace w0
  /\ (forall E', processPollingSession E' id w3 = (Ok tt, w3))
  /\ (forall E', now E' < e ->
        checkin_calls (scheduled E' w3).2
        = CheckinSubmitted ("Bearer " +:+ tok) (THREAD_ID E') (USER_NAME E')
            :: checkin_calls w0).
Proof.
  intros Hf HW H404 H408 Hwait Hlen Hpoll Hcode Hx Htok He id w1 w2 w3.
  assert (Hne : uuid <> "") by (intros ->; simpl in Hlen; lia).
  assert (Hid : id <> "wechat_token") by done.
  set (Pend := fun w : World =>
    nofault w
    /\ (exists p ttl,
          kv w !! id = Some {| value := VPolling p; expirationTtl := ttl |}
          /\ is_completed (ps_status p) = false /\ timestamp p = now E0)
    /\ kv w !! (id +:+ "_uuid") = Some {| value := VText uuid; expirationTtl := 300 |}
    /\ kv w !! "wechat_token" = kv w0 !! "wechat_token"
    /\ trace w = trace w0).
  assert (H1 : Pend w1).
  { subst w1. rewrite startPollingSession_run by done. fold id.
    split; [done|]. split; [|split; [|split]].
    - eexists _, _. cbn [snd kv set_kv].
      rewrite lookup_insert_ne by apply uuid_key_ne.
      rewrite lookup_insert_eq. done.
    - cbn [snd kv set_kv]. by rewrite lookup_insert_eq.
    - cbn [snd kv set_kv]. rewrite !lookup_insert_ne; done.
    - done. }
  assert (Hticks : forall w, Pend w -> Pend (run_ticks ((fun E => (E, [])) <$> envs) id w)).
  { clear w1 w2 w3 H1.
    induction Hwait as [|E envs' [HsE HstE] _ IH]; intros w1 H1; [done|].
    simpl. apply IH.
    by apply (waiting_tick_keeps_pending E id uuid (now E0) (kv w0 !! "wechat_token")
                (trace w0) w1). }
  assert (H2 : Pend w2) by by apply Hticks.
  subst w3. clearbody w2. destruct H2 as (Hf2 & (p & ttl & Hk & Hc & Hts) & Hu & Hcred & Htr).
  assert (H3 : processPollingSession Ec id w2 = _)
    by exact (confirming_tick_run Ec id w2 p ttl uuid 300 http code tok e
                Hf2 Hk Hc Hu Hlen Hpoll Hcode Hx Htok He).
  rewrite H3. simpl.
  split; [by rewrite lookup_insert_ne, lookup_insert_eq|].
  split; [eexists _, _; rewrite lookup_insert_eq; done|].
  split; [by rewrite Htr|].
  split.
  - intros E'. eapply process_completed_noop; [done| |].
    + simpl. by rewrite lookup_insert_eq.
    + simpl. apply is_completed_CONFIRMED.
  - intros E' Hlt.
    rewrite (scheduled_valid_checkin_calls E' _
               {| token := "Bearer " +:+ tok; expire := e |}
               (Z.max 300 ((e - now Ec) / 1000))); try done.
    + unfold checkin_calls. simpl. by rewrite Htr.
    + simpl. by rewrite lookup_insert_ne, lookup_insert_eq.
Qed.

End LoginFlow.

Lemma X2_witness :
  (processPollingSession (S := errcodeStatus)
     (exampleEnv 2000 (PollBody 200 (Some 405) (Some "wxcode"))
        (ExJson (Some "tok") (Some 90000000)) (CheckinFetchError ""))
     "polling_1000_k3j9x2m1q" emptyWorld).1 = Ok tt
  /\ kv (processPollingSession (S := errcodeStatus)
           (exampleEnv 2000 (PollBody 200 (Some 405) (Some "wxcode"))
              (ExJson (Some "tok") (Some 90000000)) (CheckinFetchError ""))
           "polling_1000_k3j9x2m1q" emptyWorld).2 = kv emptyWorld
  /\ trace (processPollingSession (S := errcodeStatus)
              (exampleEnv 2000 (PollBody 200 (Some 405) (Some "wxcode"))
                 (ExJson (Some "tok") (Some 90000000)) (CheckinFetchError ""))
              "polling_1000_k3j9x2m1q" emptyWorld).2 = trace emptyWorld.
Proof.
  apply (X2_tick_without_session (S := errcodeStatus)). left. reflexivity.
Defined.

Lemma X3_witness :
  processPollingSession (S := errcodeStatus)
    (exampleEnv 2000 (PollBody 200 (Some 408) (Some "ignored")) (ExFetchError "")
       (CheckinFetchError ""))
    "polling_1000_k3j9x2m1q" (sessionWorld 404 1000)
  = (Ok tt,
     set_kv (<["polling_1000_k3j9x2m1q" :=
                 {| value := VPolling
                               {| ps_status := 408;
                                  ps_message := Some "二维码已扫描，等待确认";
                                  ps_wxCode := None; ps_uuid := None;
                                  timestamp := 1000 |};
                    expirationTtl := 3600 |}]> (kv (sessionWorld 404 1000)))
       (sessionWorld 404 1000)).
Proof.
  apply (X3_signal_table (S := errcodeStatus)
           (exampleEnv 2000 (PollBody 200 (Some 408) (Some "ignored")) (ExFetchError "")
              (CheckinFetchError ""))
           "polling_1000_k3j9x2m1q" (sessionWorld 404 1000)
           (exampleSession 404 1000) 300 "0a1b2c3d4e5f6g7h" 300 200 408
           (Some "ignored"));
    try reflexivity.
  - simpl. lia.
  - repeat constructor.
Defined.

Lemma X4_witness :
  processPollingSession (S := errcodeStatus)
    (exampleEnv 4000 (PollBody 200 (Some 405) (Some "wxcode"))
       (ExJson (Some "tok") (Some 90000000)) (CheckinFetchError ""))
    "polling_1000_k3j9x2m1q" (sessionWorld 408 1000)
  = (Ok tt,
     {| kv := <["polling_1000_k3j9x2m1q" :=
                 {| value := VPolling
                               {| ps_status := 405; ps_message := Some "扫码成功";
                                  ps_wxCode := Some "wxcode"; ps_uuid := None;
                                  timestamp := 1000 |};
                    expirationTtl := 3600 |}]>
               (<["wechat_token" :=
                    {| value := VToken {| token := "Bearer tok"; expire := 90000000 |};
                       expirationTtl := Z.max 300 ((90000000 - 4000) / 1000) |}]>
                  (kv (sessionWorld 408 1000)));
        trace := [CheckinTriggered; EmailSent LoginSuccessEmail];
        kv_faults := [] |}).
Proof.
  assert (Hlen : (10 <= String.length "0a1b2c3d4e5f6g7h")%nat) by (simpl; lia).
  exact (proj1 (X4_confirming_tick (S := errcodeStatus)
           (exampleEnv 4000 (PollBody 200 (Some 405) (Some "wxcode"))
              (ExJson (Some "tok") (Some 90000000)) (CheckinFetchError ""))
           "polling_1000_k3j9x2m1q" (sessionWorld 408 1000)
           (exampleSession 408 1000) 300 "0a1b2c3d4e5f6g7h" 300 200 "wxcode" "tok"
           90000000 eq_refl eq_refl eq_refl eq_refl Hlen eq_refl ltac:(discriminate)
           eq_refl ltac:(discriminate) ltac:(discriminate))).
Defined.

Lemma X5_witness :
  let w' := (processPollingSession (S := errcodeStatus)
               (exampleEnv 4000 (PollBody 200 (Some 405) (Some "wxcode"))
                  (ExJson (Some "tok") (Some 90000000)) (CheckinFetchError ""))
               "polling_1000_k3j9x2m1q"
               (set_faults [false; false; true] (sessionWorld 408 1000))).2 in
  (kv w' !! "wechat_token" = kv (set_faults [false; false; true] (sessionWorld 408 1000))
                               !! "wechat_token"
   /\ trace w' = trace (set_faults [false; false; true] (sessionWorld 408 1000)))
  \/ exists code tok e,
       wechat_exchange
         (exampleEnv 4000 (PollBody 200 (Some 405) (Some "wxcode"))
            (ExJson (Some "tok") (Some 90000000)) (CheckinFetchError "")) code
       = ExJson (Some tok) (Some e) /\ tok <> "" /\ e <> 0
       /\ kv w' !! "wechat_token"
          = Some {| value := VToken {| token := "Bearer " +:+ tok; expire := e |};
                    expirationTtl := Z.max 300 ((e - 4000) / 1000) |}
       /\ trace w'
          = CheckinTriggered :: EmailSent LoginSuccessEmail
              :: trace (set_faults [false; false; true] (sessionWorld 408 1000)).
Proof.
  apply (X5_credential_provenance (S := errcodeStatus)
           (exampleEnv 4000 (PollBody 200 (Some 405) (Some "wxcode"))
              (ExJson (Some "tok") (Some 90000000)) (CheckinFetchError ""))
           "polling_1000_k3j9x2m1q"
           (set_faults [false; false; true] (sessionWorld 408 1000))).
  discriminate.
Defined.

Lemma X6_witness :
  let w3 :=
    (processPollingSession (S := errcodeStatus)
       (exampleEnv 4000 (PollBody 200 (Some 405) (Some "wxcode"))
          (ExJson (Some "tok") (Some 90000000)) (CheckinReply (Some "打卡成功")))
       "polling_1000_k3j9x2m1q"
       (run_ticks (S := errcodeStatus)
          ((fun E => (E, []))
             <$> [exampleEnv 2000 (PollBody 200 (Some 404) None) (ExFetchError "")
                    (CheckinFetchError "");
                  exampleEnv 3000 (PollBody 200 (Some 408) None) (ExFetchError "")
                    (CheckinFetchError "")])
          "polling_1000_k3j9x2m1q"
          (startPollingSession (S := errcodeStatus)
             (exampleEnv 1000 (PollFetchError "") (ExFetchError "")
                (CheckinFetchError ""))
             "0a1b2c3d4e5f6g7h" emptyWorld).2)).2 in
  kv w3 !! "wechat_token"
  = Some {| value := VToken {| token := "Bearer tok"; expire := 90000000 |};
            expirationTtl := Z.max 300 ((90000000 - 4000) / 1000) |}
  /\ trace w3 = [CheckinTriggered; EmailSent LoginSuccessEmail].
Proof.
  assert (Hwait :
    Forall (fun E => success (pollWeChatLogin E "0a1b2c3d4e5f6g7h") = true
                     /\ status (pollWeChatLogin E "0a1b2c3d4e5f6g7h") ∈ [404; 408])
      [exampleEnv 2000 (PollBody 200 (Some 404) None) (ExFetchError "")
         (CheckinFetchError "");
       exampleEnv 3000 (PollBody 200 (Some 408) None) (ExFetchError "")
         (CheckinFetchError "")]).
  { repeat constructor. }
  assert (Hlen : (10 <= String.length "0a1b2c3d4e5f6g7h")%nat) by (simpl; lia).
  destruct (X6_login_flow (S := errcodeStatus)
              (exampleEnv 1000 (PollFetchError "") (ExFetchError "")
                 (CheckinFetchError ""))
              "0a1b2c3d4e5f6g7h" _
              (exampleEnv 4000 (PollBody 200 (Some 405) (Some "wxcode"))
                 (ExJson (Some "tok") (Some 90000000)) (CheckinReply (Some "打卡成功")))
              200 "wxcode" "tok" 90000000 emptyWorld
              eq_refl eq_refl eq_refl eq_refl Hwait Hlen eq_refl
              ltac:(discriminate) eq_refl ltac:(discriminate) ltac:(discriminate))
    as (H1 & _ & H3 & _).
  split; [exact H1 | exact H3].
Defined.

(** * Token lifecycle and one-time links *)

Lemma getToken_run w :
  nofault w ->
  KVStorage.getToken w
  = (Ok match value <$> kv w !! "wechat_token" with
        | Some (VText _) => None
        | v => v
        end, w).
Proof.
  intros Hf. unfold KVStorage.getToken, kv_get_json. mrun.
  by destruct (kv w !! "wechat_token") as [[[] ?]|].
Qed.

(** X11. A token stored with [TokenValidator.storeToken] (the store
    answering) is kept with expiry [now + expireIn * 1000] and a retention
    of [max 300 expireIn] seconds.  At any later clock the three readers
    agree: [isTokenValid] answers whether that clock is strictly before the
    expiry, and [getValidToken] and [refreshTokenIfNeeded] return the token
    in that case and nothing otherwise; none of them changes the world. *)
Theorem X11_token_round_trip (E E' : Env) (tok : string) (expireIn : Z) (w : World) :
  nofault w ->
  let w1 := (TokenValidator.storeToken E tok expireIn w).2 in
  (TokenValidator.storeToken E tok expireIn w).1 = Ok tt
  /\ w1 = set_kv (<["wechat_token" :=
                     {| value := VToken {| token := tok;
                                           expire := now E + expireIn * 1000 |};
                        expirationTtl := Z.max 300 expireIn |}]> (kv w)) w
  /\ TokenValidator.isTokenValid E' w1 = (Ok (now E' <? now E + expireIn * 1000), w1)
  /\ TokenValidator.getValidToken E' w1
     = (Ok (if now E' <? now E + expireIn * 1000 then Some tok else None), w1)
  /\ TokenValidator.refreshTokenIfNeeded E' w1
     = (Ok (if now E' <? now E + expireIn * 1000 then Some tok else None), w1).
Proof.
  intros Hf w1.
  assert (Hw1 : TokenValidator.storeToken E tok expireIn w
                = (Ok tt, set_kv (<["wechat_token" :=
                     {| value := VToken {| token := tok;
                                           expire := now E + expireIn * 1000 |};
                        expirationTtl := Z.max 300 expireIn |}]> (kv w)) w)).
  { unfold TokenValidator.storeToken, KVStorage.setToken. mrun.
    replace (now E + expireIn * 1000 - now E) with (expireIn * 1000) by lia.
    by rewrite Z.div_mul. }
  subst w1. rewrite Hw1. simpl. split; [done|]. split; [done|].
  set (w1 := set_kv _ w).
  assert (Hf1 : nofault w1) by done.
  assert (Hv : TokenValidator.isTokenValid E' w1
               = (Ok (now E' <? now E + expireIn * 1000), w1)).
  { unfold TokenValidator.isTokenValid, try_catch, bind. rewrite getToken_run by done.
    simpl. by rewrite lookup_insert_eq. }
  assert (Hg : TokenValidator.getValidToken E' w1
               = (Ok (if now E' <? now E + expireIn * 1000 then Some tok else None), w1)).
  { unfold TokenValidator.getValidToken, try_catch, bind. rewrite getToken_run by done.
    simpl. by rewrite lookup_insert_eq. }
  split; [done|]. split; [done|].
  unfold TokenValidator.refreshTokenIfNeeded, try_catch, bind. rewrite Hv.
  destruct (now E' <? now E + expireIn * 1000) eqn:Hlt; simpl; [|done].
  by rewrite Hg.
Qed.

(** X12. The readers of the credential fail closed.  Whichever store
    requests are rejected, [isTokenValid], [getValidToken] and
    [refreshTokenIfNeeded] return normally, leave store and trace as they
    were, and report a token only when the store holds a credential whose
    expiry is strictly after the clock, and then that credential's token. *)
Theorem X12_token_reads_fail_closed (E : Env) (w : World) :
  let held tok :=
    exists t ttl,
      kv w !! "wechat_token" = Some {| value := VToken t; expirationTtl := ttl |}
      /\ now E < expire t /\ tok = token t in
  (exists b, (TokenValidator.isTokenValid E w).1 = Ok b
             /\ (b = true -> exists tok, held tok)
             /\ kv (TokenValidator.isTokenValid E w).2 = kv w
             /\ trace (TokenValidator.isTokenValid E w).2 = trace w)
  /\ (exists o, (TokenValidator.getValidToken E w).1 = Ok o
                /\ (forall tok, o = Some tok -> held tok)
                /\ kv (TokenValidator.getValidToken E w).2 = kv w
                /\ trace (TokenValidator.getValidToken E w).2 = trace w)
  /\ (exists o, (TokenValidator.refreshTokenIfNeeded E w).1 = Ok o
                /\ (forall tok, o = Some tok -> held tok)
                /\ kv (TokenValidator.refreshTokenIfNeeded E w).2 = kv w
                /\ trace (TokenValidator.refreshTokenIfNeeded E w).2 = trace w).
Proof.
  intros held. subst held.
  unfold TokenValidator.refreshTokenIfNeeded, TokenValidator.isTokenValid,
    TokenValidator.getValidToken, KVStorage.getToken, kv_get_json, kv_get, kv_request,
    try_catch, bind.
  destruct w as [m tr fs]. simpl.
  destruct (m !! "wechat_token") as [[[s|p|t|d] ttl]|] eqn:Hk; simpl.
  all: destruct fs as [|[] [|[] fs]]; simpl; rewrite ?Hk; simpl.
  all: try destruct (now E <? expire t) eqn:Hlt; simpl; rewrite ?Hk; simpl;
    rewrite ?Hlt; simpl.
  all: repeat split; eexists; (split; [done|]); repeat split; try done.
  all: try (intros _; exists (token t), t, ttl; apply Z.ltb_lt in Hlt; done).
  all: try (intros tok [= <-]; exists t, ttl; apply Z.ltb_lt in Hlt; done).
Qed.

(** X13. After [KVStorage.deleteToken] (the store answering) no
    credential is valid at any clock, and a scheduled run does what
    [handleAuthenticationRequired] does.  Unlike the readers, a rejected
    delete is passed on to the caller: the call throws and the store keeps
    the credential. *)
Theorem X13_delete_token (E : Env) (w : World) :
  (nofault w ->
   let w1 := set_kv (delete "wechat_token" (kv w)) w in
   KVStorage.deleteToken w = (Ok tt, w1)
   /\ TokenValidator.isTokenValid E w1 = (Ok false, w1)
   /\ TokenValidator.getValidToken E w1 = (Ok None, w1)
   /\ scheduled E w1 = handleAuthenticationRequired E w1)
  /\ (forall fs, kv_faults w = true :: fs ->
        KVStorage.deleteToken w = (Throw "KV request failed", set_faults fs w)).
Proof.
  split.
  - intros Hf w1. split; [unfold KVStorage.deleteToken; by mrun|].
    assert (Hf1 : nofault w1) by done.
    assert (Hk : kv w1 !! "wechat_token" = None) by (simpl; by rewrite lookup_delete_eq).
    split; [|split].
    + unfold TokenValidator.isTokenValid, try_catch, bind. rewrite getToken_run by done.
      by rewrite Hk.
    + unfold TokenValidator.getValidToken, try_catch, bind. rewrite getToken_run by done.
      by rewrite Hk.
    + apply scheduled_invalid_run; [done | by left].
  - intros fs Hfs. unfold KVStorage.deleteToken, kv_delete, kv_request, try_catch, bind.
    by rewrite Hfs.
Qed.

(** X14. A one-time link is good for exactly one validation.  The
    token of a link minted by [generateOneTimeLink] (the store answering, a
    token of at least 32 characters) validates at a later clock exactly when
    that clock is not past the 24 hours of the link; the validation removes
    the record whatever its answer, so the store is as it would be had the
    link never been minted, and every further validation of the token
    fails. *)
Theorem X14_link_round_trip (E E1 E2 : Env) (w : World) :
  nofault w ->
  0 <= now E ->
  (32 <= String.length (randomBytes32 E))%nat ->
  let tok := randomBytes32 E in
  let w1 := (generateOneTimeLink E w).2 in
  let w2 := (validateOneTimeLink E1 tok w1).2 in
  (generateOneTimeLink E w).1 = Ok (AUTH_WORKER_URL E +:+ "/auth/" +:+ tok)
  /\ (validateOneTimeLink E1 tok w1).1 = Ok (now E1 <=? now E + 24 * 60 * 60 * 1000)
  /\ kv w2 = delete ("onetime_" +:+ tok) (kv w)
  /\ validateOneTimeLink E2 tok w2 = (Ok false, w2).
Proof.
  intros Hf Hnow Hlen tok w1 w2. subst w1 w2.
  rewrite generateOneTimeLink_run by done. simpl. split; [done|].
  set (w1 := set_kv _ w). subst tok.
  assert (Hv : validateOneTimeLink E1 (randomBytes32 E) w1
               = (Ok (now E1 <=? now E + 24 * 60 * 60 * 1000),
                  set_kv (delete ("onetime_" +:+ randomBytes32 E) (kv w1)) w1)).
  { unfold validateOneTimeLink, AuthUtils.validateOneTimeLink, try_catch, bind.
    rewrite (proj2 (Nat.ltb_ge _ _) Hlen).
    erewrite consumeOneTimeLink_run; [|done|subst w1; simpl; by rewrite lookup_insert_eq].
    simpl. replace (now E + 24 * 60 * 60 * 1000 =? 0) with false
      by (symmetry; apply Z.eqb_neq; lia).
    simpl. rewrite Z.leb_antisym. by destruct (now E + 24 * 60 * 60 * 1000 <? now E1). }
  rewrite Hv. simpl. split; [done|]. split.
  - by rewrite delete_insert_eq.
  - apply validateOneTimeLink_absent; [done|]. simpl. by rewrite lookup_delete_eq.
Qed.

Lemma X11_witness :
  TokenValidator.getValidToken
    (exampleEnv 5000 (PollFetchError "") (ExFetchError "") (CheckinFetchError ""))
    (TokenValidator.storeToken
       (exampleEnv 1000 (PollFetchError "") (ExFetchError "") (CheckinFetchError ""))
       "Bearer tok" 3600 emptyWorld).2
  = (Ok (Some "Bearer tok"),
     (TokenValidator.storeToken
        (exampleEnv 1000 (PollFetchError "") (ExFetchError "") (CheckinFetchError ""))
        "Bearer tok" 3600 emptyWorld).2).
Proof.
  exact (proj1 (proj2 (proj2 (proj2
    (X11_token_round_trip
       (exampleEnv 1000 (PollFetchError "") (ExFetchError "") (CheckinFetchError ""))
       (exampleEnv 5000 (PollFetchError "") (ExFetchError "") (CheckinFetchError ""))
       "Bearer tok" 3600 emptyWorld eq_refl))))).
Defined.

Lemma X12_witness :
  exists o,
    (TokenValidator.getValidToken
       (exampleEnv 2000 (PollFetchError "") (ExFetchError "") (CheckinFetchError ""))
       (set_faults [true] (tokenWorld 5000))).1 = Ok o
    /\ forall tok, o = Some tok ->
         exists t ttl,
           kv (set_faults [true] (tokenWorld 5000)) !! "wechat_token"
           = Some {| value := VToken t; expirationTtl := ttl |}
           /\ 2000 < expire t /\ tok = token t.
Proof.
  destruct (X12_token_reads_fail_closed
              (exampleEnv 2000 (PollFetchError "") (ExFetchError "") (CheckinFetchError ""))
              (set_faults [true] (tokenWorld 5000)))
    as (_ & (o & Ho & Hheld & _) & _).
  exists o. split; [exact Ho | exact Hheld].
Defined.

Lemma X13_witness :
  scheduled
    (exampleEnv 2000 (PollFetchError "") (ExFetchError "") (CheckinFetchError ""))
    (set_kv (delete "wechat_token" (kv (tokenWorld 5000))) (tokenWorld 5000))
  = handleAuthenticationRequired
      (exampleEnv 2000 (PollFetchError "") (ExFetchError "") (CheckinFetchError ""))
      (set_kv (delete "wechat_token" (kv (tokenWorld 5000))) (tokenWorld 5000)).
Proof.
  exact (proj2 (proj2 (proj2
    (proj1 (X13_delete_token
              (exampleEnv 2000 (PollFetchError "") (ExFetchError "")
                 (CheckinFetchError ""))
              (tokenWorld 5000))
       eq_refl)))).
Defined.

Lemma X14_witness :
  (validateOneTimeLink
     (exampleEnv 5000 (PollFetchError "") (ExFetchError "") (CheckinFetchError ""))
     "00112233445566778899aabbccddeeff00112233445566778899aabbccddeeff"
     (generateOneTimeLink
        (exampleEnv 1000 (PollFetchError "") (ExFetchError "") (CheckinFetchError ""))
        emptyWorld).2).1
  = Ok true.
Proof.
  refine (proj1 (proj2
    (X14_link_round_trip
       (exampleEnv 1000 (PollFetchError "") (ExFetchError "") (CheckinFetchError ""))
       (exampleEnv 5000 (PollFetchError "") (ExFetchError "") (CheckinFetchError ""))
       (exampleEnv 9000 (PollFetchError "") (ExFetchError "") (CheckinFetchError ""))
       emptyWorld eq_refl _ _))).
  - simpl. lia.
  - simpl. lia.
Defined.

(** * The scheduler under store failures *)

Lemma executeCheckin_run E tok th user w :
  CheckinService.executeCheckin E tok th user w
  = let w1 := set_trace (CheckinSubmitted tok th user :: trace w) w in
    match checkin_endpoint E tok th user with
    | CheckinFetchError msg =>
        (Ok {| ck_success := false; ck_message := msg |},
         set_trace (EmailSent (CheckinReminderEmail msg) :: trace w1) w1)
    | CheckinReply None =>
        (Ok {| ck_success := false;
               ck_message := "Cannot read properties of undefined (reading 'includes')" |},
         set_trace (EmailSent (CheckinReminderEmail
                      "Cannot read properties of undefined (reading 'includes')")
                      :: trace w1) w1)
    | CheckinReply (Some d) =>
        if includes d "打卡成功"
        then (Ok {| ck_success := true; ck_message := d |},
              set_trace (EmailSent (CheckinSuccessEmail d) :: trace w1) w1)
        else (Ok {| ck_success := false; ck_message := d |},
              set_trace (EmailSent (CheckinReminderEmail d) :: trace w1) w1)
    end.
Proof.
  unfold CheckinService.executeCheckin, try_catch, bind. rewrite performCheckin_run.
  destruct (checkin_endpoint E tok th user) as [msg|[d|]]; simpl; try done.
  by destruct (includes d "打卡成功").
Qed.

(** X16. [executeCheckin] never throws and touches neither the store nor
    its availability: it makes exactly one request to the check-in endpoint,
    with the given token, thread and the user name as signature, and then
    sends exactly one e-mail, the success mail when the result is a success
    and the reminder otherwise.  The result is a success exactly when the
    reply has a description that contains the success marker; a reply
    without a description and a failed request are failures.  The
    system-error mail of its [catch] is never sent. *)
Theorem X16_checkin_one_request_one_mail (E : Env) (tok : string) (th : Z)
    (user : string) (w : World) :
  exists r mail,
    CheckinService.executeCheckin E tok th user w
    = (Ok r, set_trace (EmailSent mail :: CheckinSubmitted tok th user :: trace w) w)
    /\ (ck_success r = true
        <-> exists d, checkin_endpoint E tok th user = CheckinReply (Some d)
                      /\ includes d "打卡成功" = true)
    /\ mail = (if ck_success r then CheckinSuccessEmail (ck_message r)
               else CheckinReminderEmail (ck_message r))
    /\ (forall d, checkin_endpoint E tok th user = CheckinReply (Some d) ->
          ck_message r = d).
Proof.
  rewrite executeCheckin_run.
  destruct (checkin_endpoint E tok th user) as [msg|[d|]] eqn:Hreply; simpl.
  - eexists _, _. split; [done|]. repeat split; try done. by intros (? & ? & _).
  - destruct (includes d "打卡成功") eqn:Hinc; eexists _, _; (split; [done|]);
      repeat split; try done; eauto.
    + by intros d' [= ->].
    + intros (d' & [= <-] & H). congruence.
    + by intros d' [= ->].
  - eexists _, _. split; [done|]. repeat split; try done. by intros (? & ? & _).
Qed.

(** Minting the login link: a rejected store request means no link, no mail. *)
Lemma handleAuthenticationRequired_outcome E w :
  let link := AUTH_WORKER_URL E +:+ "/auth/" +:+ randomBytes32 E in
  let record := {| value := VOneTime {| purpose := "wechat_auth"; createdAt := now E;
                                        expiresAt := Some (now E + 24 * 60 * 60 * 1000) |};
                   expirationTtl := 86400 |} in
  let r := handleAuthenticationRequired E w in
  r.1 = Ok tt
  /\ ((trace r.2 = EmailSent (LoginRequiredEmail link) :: trace w
       /\ kv r.2 = <["onetime_" +:+ randomBytes32 E := record]> (kv w))
      \/ (trace r.2 = trace w /\ kv r.2 = kv w)).
Proof.
  unfold handleAuthenticationRequired, generateOneTimeLink, AuthUtils.generateOneTimeLink,
    KVStorage.storeOneTimeLink, sendEmail, emit, kv_put, kv_request, try_catch, bind.
  destruct w as [m tr fs]. destruct fs as [|[] fs]; simpl; split; auto.
Qed.

(** X15. The complete outcome table of [scheduled], for every store and
    every pattern of rejected store requests.  It never throws, and what it
    adds to the trace and to the store is one of: a system-error mail alone
    (the credential could not be read); nothing, or the login mail together
    with its one-time record (no valid credential); the check-in request
    followed by the success mail (valid credential, accepted check-in); the
    check-in request and the reminder, followed or not by the login mail
    with its record (valid credential, check-in not accepted).  So at most
    one check-in is submitted, only with a stored unexpired credential; a
    login mail is never sent without its record in the store; and the
    credential itself is never written. *)
Theorem X15_scheduled_outcomes (E : Env) (w : World) :
  let link := AUTH_WORKER_URL E +:+ "/auth/" +:+ randomBytes32 E in
  let record := {| value := VOneTime {| purpose := "wechat_auth"; createdAt := now E;
                                        expiresAt := Some (now E + 24 * 60 * 60 * 1000) |};
                   expirationTtl := 86400 |} in
  let minted := <["onetime_" +:+ randomBytes32 E := record]> (kv w) in
  let valid t :=
    (exists ttl, kv w !! "wechat_token"
                 = Some {| value := VToken t; expirationTtl := ttl |})
    /\ now E < expire t in
  let submitted t := CheckinSubmitted (token t) (THREAD_ID E) (USER_NAME E) in
  let w' := (scheduled E w).2 in
  (scheduled E w).1 = Ok tt
  /\ exists evs,
       trace w' = (evs ++ trace w)%list
       /\ ((exists msg, evs = [EmailSent (SystemErrorEmail msg)] /\ kv w' = kv w)
           \/ ((~ exists t, valid t)
               /\ ((evs = [] /\ kv w' = kv w)
                   \/ (evs = [EmailSent (LoginRequiredEmail link)] /\ kv w' = minted)))
           \/ (exists t d,
                 valid t
                 /\ checkin_endpoint E (token t) (THREAD_ID E) (USER_NAME E)
                    = CheckinReply (Some d)
                 /\ includes d "打卡成功" = true
                 /\ evs = [EmailSent (CheckinSuccessEmail d); submitted t]
                 /\ kv w' = kv w)
           \/ (exists t msg,
                 valid t
                 /\ ((evs = [EmailSent (CheckinReminderEmail msg); submitted t]
                      /\ kv w' = kv w)
                     \/ (evs = [EmailSent (LoginRequiredEmail link);
                                EmailSent (CheckinReminderEmail msg); submitted t]
                         /\ kv w' = minted)))).
Proof.
  intros link record minted valid submitted w'. subst w'.
  destruct w as [m tr fs]. simpl in minted, valid. cbn [trace kv].
  pose proof (handleAuthenticationRequired_outcome E) as Hauth. fold link record in Hauth.
  unfold scheduled.
  set (h := handleAuthenticationRequired E) in *. clearbody h.
  match goal with |- (?r).1 = _ /\ _ => pattern r end.
  match goal with |- ?P _ => set (Post := P) end.
  assert (Hnone : forall fs',
            (forall t, ~ valid t) ->
            Post (h {| kv := m; trace := tr; kv_faults := fs' |})).
  { intros fs' Hinv.
    destruct (Hauth {| kv := m; trace := tr; kv_faults := fs' |}) as (Hr & Hcases).
    split; [done|]. simpl in Hcases.
    assert (~ exists t, valid t) by (intros [t Ht]; by apply (Hinv t)).
    destruct Hcases as [[Ht Hk]|[Ht Hk]].
    - exists [EmailSent (LoginRequiredEmail link)]. split; [done|]. right; left. auto.
    - exists []. split; [done|]. right; left. auto. }
  assert (Hcatch : forall (m0 : M unit) w0,
            (m0 w0).1 = Ok tt -> Post (m0 w0) ->
            Post (let (r, w1) := m0 w0 in
                  match r with
                  | Ok a => (Ok a, w1)
                  | Throw msg =>
                      try_catch (sendEmail (SystemErrorEmail msg)) (fun _ => ret tt) w1
                  end)).
  { intros m0 w0. destruct (m0 w0) as [[[]|] ?]; simpl; [done|congruence]. }
  assert (Herr : forall msg fs',
            Post (Ok tt, {| kv := m; trace := EmailSent (SystemErrorEmail msg) :: tr;
                            kv_faults := fs' |})).
  { intros msg fs'. split; [done|]. eexists [_]. split; [done|]. left. eauto. }
  assert (Hinner : forall w0,
            Post (h w0) ->
            Post (try_catch
                    (try_catch (fun w => h w) (fun _ => h))
                    (fun msg =>
                       try_catch (sendEmail (SystemErrorEmail msg)) (fun _ => ret tt))
                    w0)).
  { intros w0. pose proof (Hauth w0) as [Hr _]. unfold try_catch.
    by destruct (h w0) as [[[]|] ?]. }
  assert (Hfin : forall w0 t msg,
            valid t -> kv w0 = m ->
            trace w0 = EmailSent (CheckinReminderEmail msg) :: submitted t :: tr ->
            Post (h w0)).
  { intros w0 t msg Hvalid Hkv Htr. destruct (Hauth w0) as (Hr & Hcases).
    split; [done|]. rewrite Hkv, Htr in Hcases.
    destruct Hcases as [[Ht Hk]|[Ht Hk]].
    - eexists [_; _; _]. split; [exact Ht|].
      right; right; right. exists t, msg. split; [done|]. right. by split.
    - eexists [_; _]. split; [exact Ht|].
      right; right; right. exists t, msg. split; [done|]. left. by split. }
  unfold try_catch at 1, bind at 1, kv_get_json, kv_get, bind, kv_request.
  destruct fs as [|[] fs]; simpl; [|apply Herr|].
  all: destruct (m !! "wechat_token") as [[[s|p|t|d] ttl]|] eqn:Hk; simpl;
    try apply Herr.
  all: try (apply Hcatch; [apply Hauth|]; apply Hnone; by intros t' [[ttl' [=]] _]).
  all: destruct (now E <? expire t) eqn:Hlt; simpl.
  all: try (apply Hcatch; [apply Hauth|]; apply Hnone;
            intros t' [[ttl' [= <-]] Hn]; apply Z.ltb_ge in Hlt; lia).
  all: apply Z.ltb_lt in Hlt.
  all: assert (Hvalid : valid t) by (split; [by exists ttl | done]).
  all: unfold try_catch at 1; cbv beta; rewrite executeCheckin_run; simpl.
  all: destruct (checkin_endpoint E (token t) (THREAD_ID E) (USER_NAME E))
         as [msg|[d|]] eqn:Hreply; simpl.
  all: try (destruct (includes d "打卡成功") eqn:Hinc; simpl).
  all: try (unfold Post; split; [done|]; eexists [_; _]; split; [done|];
            right; right; left; exists t, d; split; [exact Hvalid|];
            by repeat split).
  all: apply Hinner; by eapply Hfin.
Qed.

(** X17. The two copies of the scheduler (checkin-scheduler.ts and the
    older copy) behave identically on every store and every pattern of
    rejected requests, with one exception: after a check-in that was
    submitted with a valid credential and not accepted.  There the older
    copy stops after the reminder mail, leaving the store as it was, and
    the current one continues with [handleAuthenticationRequired] from
    that state. *)
Theorem X17_scheduler_copies (E : Env) (w : World) :
  let old := SchedulerCopy.scheduled E w in
  scheduled E w = old
  \/ exists t ttl msg,
       kv w !! "wechat_token" = Some {| value := VToken t; expirationTtl := ttl |}
       /\ now E < expire t
       /\ (forall d, checkin_endpoint E (token t) (THREAD_ID E) (USER_NAME E)
                     = CheckinReply (Some d) -> includes d "打卡成功" = false)
       /\ old.1 = Ok tt
       /\ kv old.2 = kv w
       /\ trace old.2
          = EmailSent (CheckinReminderEmail msg)
              :: CheckinSubmitted (token t) (THREAD_ID E) (USER_NAME E) :: trace w
       /\ scheduled E w = handleAuthenticationRequired E old.2.
Proof.
  intros old. subst old.
  pose proof (handleAuthenticationRequired_outcome E) as Hauth.
  destruct w as [m tr fs]. cbn [kv trace].
  set (h := handleAuthenticationRequired E) in *.
  pattern (SchedulerCopy.scheduled E {| kv := m; trace := tr; kv_faults := fs |}),
          (scheduled E {| kv := m; trace := tr; kv_faults := fs |}).
  match goal with |- ?P _ _ => set (Post := P) end.
  unfold scheduled, SchedulerCopy.scheduled, SchedulerCopy.handleCheckinFailure.
  fold h. clearbody h.
  assert (Hinner : forall w0,
            try_catch
              (try_catch (fun w => h w) (fun _ => h))
              (fun msg =>
                 try_catch (sendEmail (SystemErrorEmail msg)) (fun _ => ret tt))
              w0 = h w0).
  { intros w0. pose proof (Hauth w0) as [Hr _]. unfold try_catch.
    by destruct (h w0) as [[[]|] ?]. }
  assert (Hsame : forall p, Post p p) by (intros p; by left).
  unfold try_catch at 1 5, bind at 1 4, kv_get_json, kv_get, bind, kv_request.
  destruct fs as [|[] fs]; simpl; [|by apply Hsame|].
  all: destruct (m !! "wechat_token") as [[[s|p|t|d] ttl]|] eqn:Hk; simpl;
    try (by apply Hsame).
  all: destruct (now E <? expire t) eqn:Hlt; simpl; [|by apply Hsame].
  all: apply Z.ltb_lt in Hlt.
  all: unfold try_catch; cbv beta; rewrite executeCheckin_run, performCheckin_run;
    simpl.
  all: destruct (checkin_endpoint E (token t) (THREAD_ID E) (USER_NAME E))
         as [msg|[d|]] eqn:Hreply; simpl.
  all: try (destruct (includes d "打卡成功") eqn:Hinc; simpl; [by apply Hsame|]).
  all: right; eexists t, ttl, _; (split; [done|]); (split; [done|]);
    (split; [intros d' Heq; rewrite Hreply in Heq; by simplify_eq|]);
    (split; [done|]); (split; [done|]); (split; [done|]);
    apply (Hinner _).
Qed.

(** * Rate limiting *)

Lemma ceil_div_1000_covers x : x <= ceil_div_1000 x * 1000.
Proof.
  unfold ceil_div_1000.
  pose proof (Z.mul_div_le (- x) 1000 ltac:(lia)). lia.
Qed.

(** X18. [checkRateLimit] fails open.  It refuses exactly when its read
    of the record is not rejected and the record is inside its window with
    at least [maxAttempts] attempts counted; a missing record, a window that
    has passed and a rejected read all let the request through.  A refusal
    writes nothing, and no call touches the record of another
    identifier. *)
Theorem X18_rate_limit_denial (E : Env) (id : string) (maxAttempts windowMs : Z)
    (s : RateStore) :
  let key := "rate_limit_" +:+ id in
  let r := RateLimit.checkRateLimit E id maxAttempts windowMs s in
  (r.1 = false
   <-> head (limit_faults s) <> Some true
       /\ exists entry,
            limits s !! key = Some entry
            /\ now E - firstAttempt (rl_data entry) <= windowMs
            /\ maxAttempts <= count (rl_data entry))
  /\ (r.1 = false -> limits r.2 = limits s)
  /\ (forall key', key' <> key -> limits r.2 !! key' = limits s !! key').
Proof.
  intros key r. subst r. unfold RateLimit.checkRateLimit, rl_put, rl_request. fold key.
  destruct s as [m fs]. simpl.
  destruct fs as [|[] fs]; simpl.
  2: { repeat split; try done. by intros [? _]. }
  all: destruct (m !! key) as [[[c t0] ttl]|] eqn:Hk; simpl.
  all: try destruct (windowMs <? now E - t0) eqn:Hwin; simpl.
  all: try destruct (maxAttempts <=? c) eqn:Hmax; simpl.
  all: try (destruct fs as [|[] fs]; simpl).
  all: repeat split; try done.
  all: try (intros (_ & entry & [= <-] & Hw & Hm); simpl in *; lia).
  all: try (by intros (_ & entry & [=] & _)).
  all: try (intros key' Hne; by rewrite lookup_insert_ne).
  all: try (eexists; split; [done|]; simpl; lia).
Qed.

(** X20. Every record that [checkRateLimit] writes is kept at least
    until its window ends: its retention is at least 60 s and reaches from
    the clock of the write to [firstAttempt + windowMs] or beyond, since the
    milliseconds are rounded up.  A written record is either a fresh one
    with count 1, or the old one with the same [firstAttempt] and the count
    raised by one, which never exceeds [maxAttempts]. *)
Theorem X20_rate_record_outlives_window (E : Env) (id : string)
    (maxAttempts windowMs : Z) (s : RateStore) :
  let key := "rate_limit_" +:+ id in
  let r := RateLimit.checkRateLimit E id maxAttempts windowMs s in
  forall entry,
    limits r.2 !! key = Some entry ->
    limits s !! key <> Some entry ->
    60 <= rl_ttl entry
    /\ firstAttempt (rl_data entry) + windowMs <= now E + rl_ttl entry * 1000
    /\ (count (rl_data entry) = 1
        \/ exists old, limits s !! key = Some old
                       /\ count (rl_data entry) = count (rl_data old) + 1
                       /\ count (rl_data entry) <= maxAttempts
                       /\ firstAttempt (rl_data entry) = firstAttempt (rl_data old)).
Proof.
  intros key r entry. subst r.
  unfold RateLimit.checkRateLimit, rl_put, rl_request. fold key.
  destruct s as [m fs]. simpl.
  destruct fs as [|[] fs]; simpl; [|done|].
  all: destruct (m !! key) as [[[c t0] ttl]|] eqn:Hk; simpl.
  all: try destruct (windowMs <? now E - t0) eqn:Hwin; simpl.
  all: try destruct (maxAttempts <=? c) eqn:Hmax; simpl.
  all: try (destruct fs as [|[] fs]; simpl).
  all: rewrite ?lookup_insert_eq, ?Hk; try done.
  all: intros [= <-] _; simpl.
  all: pose proof (ceil_div_1000_covers windowMs).
  all: try pose proof (ceil_div_1000_covers (windowMs - (now E - t0))).
  all: repeat split; try lia; try (by left).
  all: right; eexists; split; [done|]; simpl; lia.
Qed.

Lemma checkRateLimit_counting E id maxAttempts windowMs m c t0 ttl :
  m !! ("rate_limit_" +:+ id)
  = Some {| rl_data := {| count := c; firstAttempt := t0 |}; rl_ttl := ttl |} ->
  now E - t0 <= windowMs ->
  RateLimit.checkRateLimit E id maxAttempts windowMs {| limits := m; limit_faults := [] |}
  = if maxAttempts <=? c then (false, {| limits := m; limit_faults := [] |})
    else (true,
          {| limits :=
               <["rate_limit_" +:+ id :=
                   {| rl_data := {| count := c + 1; firstAttempt := t0 |};
                      rl_ttl := Z.max 60 (ceil_div_1000 (windowMs - (now E - t0))) |}]> m;
             limit_faults := [] |}).
Proof.
  intros Hk Hwin. unfold RateLimit.checkRateLimit, rl_put, rl_request. simpl.
  rewrite Hk. simpl. rewrite (proj2 (Z.ltb_ge _ _) Hwin).
  by destruct (maxAttempts <=? c).
Qed.

Lemma checkRateLimits_counting clocks id maxAttempts windowMs m c t0 ttl :
  m !! ("rate_limit_" +:+ id)
  = Some {| rl_data := {| count := c; firstAttempt := t0 |}; rl_ttl := ttl |} ->
  Forall (fun E => now E - t0 <= windowMs) clocks ->
  (checkRateLimits clocks id maxAttempts windowMs {| limits := m; limit_faults := [] |}).1
  = (replicate (length clocks `min` Z.to_nat (maxAttempts - c)) true
       ++ replicate (length clocks - Z.to_nat (maxAttempts - c)) false)%list.
Proof.
  intros Hk Hall. revert m c ttl Hk.
  induction Hall as [|E clocks HE _ IH]; intros m c ttl Hk; [done|].
  cbn [checkRateLimits]. rewrite (checkRateLimit_counting _ _ _ _ _ c t0 ttl) by done.
  destruct (maxAttempts <=? c) eqn:Hmax.
  - apply Z.leb_le in Hmax.
    specialize (IH m c ttl Hk).
    destruct (checkRateLimits clocks id maxAttempts windowMs _) as [answers s'].
    simpl in *. rewrite IH.
    replace (Z.to_nat (maxAttempts - c)) with 0%nat by lia.
    rewrite !Nat.min_0_r, !Nat.sub_0_r. done.
  - apply Z.leb_gt in Hmax.
    specialize (IH (<["rate_limit_" +:+ id :=
                       {| rl_data := {| count := c + 1; firstAttempt := t0 |};
                          rl_ttl := Z.max 60 (ceil_div_1000 (windowMs - (now E - t0))) |}]> m)
                  (c + 1) _ (lookup_insert_eq _ _ _)).
    destruct (checkRateLimits clocks id maxAttempts windowMs _) as [answers s'].
    simpl in *. rewrite IH.
    replace (Z.to_nat (maxAttempts - c)) with (Datatypes.S (Z.to_nat (maxAttempts - (c + 1))))
      by lia.
    done.
Qed.

(** X19. A burst inside one window.  Starting without a record and with
    a store that answers, successive calls for one identifier whose clocks
    stay within [windowMs] of the first call are answered [true] for the
    first [max 1 maxAttempts] calls and [false] for all the others; the
    first call of a window is let through even when [maxAttempts] is zero
    or negative. *)
Theorem X19_rate_limit_burst (E0 : Env) (rest : list Env) (id : string)
    (maxAttempts windowMs : Z) (s : RateStore) :
  limit_faults s = [] ->
  limits s !! ("rate_limit_" +:+ id) = None ->
  Forall (fun E => now E - now E0 <= windowMs) rest ->
  let n := Datatypes.S (length rest) in
  let allowed := Z.to_nat (Z.max 1 maxAttempts) in
  (checkRateLimits (E0 :: rest) id maxAttempts windowMs s).1
  = (replicate (n `min` allowed) true ++ replicate (n - allowed) false)%list.
Proof.
  intros Hf Hk Hall n allowed. subst n allowed. destruct s as [m fs]. simpl in Hf, Hk.
  subst fs. cbn [checkRateLimits].
  unfold RateLimit.checkRateLimit at 1, rl_put, rl_request. simpl. rewrite Hk.
  pose proof (checkRateLimits_counting rest id maxAttempts windowMs
                (<["rate_limit_" +:+ id :=
                     {| rl_data := {| count := 1; firstAttempt := now E0 |};
                        rl_ttl := Z.max 60 (ceil_div_1000 windowMs) |}]> m)
                1 (now E0) _ (lookup_insert_eq _ _ _) Hall) as Hrest.
  destruct (checkRateLimits rest id maxAttempts windowMs _) as [answers s'].
  simpl in *. rewrite Hrest.
  replace (Z.to_nat (1 `max` maxAttempts))
    with (Datatypes.S (Z.to_nat (maxAttempts - 1))) by lia.
  done.
Qed.

Lemma X19_witness :
  (checkRateLimits
     [exampleEnv 1000 (PollFetchError "") (ExFetchError "") (CheckinFetchError "");
      exampleEnv 2000 (PollFetchError "") (ExFetchError "") (CheckinFetchError "");
      exampleEnv 3000 (PollFetchError "") (ExFetchError "") (CheckinFetchError "");
      exampleEnv 4000 (PollFetchError "") (ExFetchError "") (CheckinFetchError "")]
     "203.0.113.7" 2 300000 {| limits := ∅; limit_faults := [] |}).1
  = [true; true; false; false].
Proof.
  apply (X19_rate_limit_burst
           (exampleEnv 1000 (PollFetchError "") (ExFetchError "") (CheckinFetchError ""))
           [exampleEnv 2000 (PollFetchError "") (ExFetchError "") (CheckinFetchError "");
            exampleEnv 3000 (PollFetchError "") (ExFetchError "") (CheckinFetchError "");
            exampleEnv 4000 (PollFetchError "") (ExFetchError "") (CheckinFetchError "")]
           "203.0.113.7" 2 300000 {| limits := ∅; limit_faults := [] |}).
  - reflexivity.
  - reflexivity.
  - repeat constructor; simpl; lia.
Defined.

Lemma X20_witness :
  exists entry,
    limits (RateLimit.checkRateLimit
              (exampleEnv 1000 (PollFetchError "") (ExFetchError "")
                 (CheckinFetchError ""))
              "203.0.113.7" 10 300000 {| limits := ∅; limit_faults := [] |}).2
      !! "rate_limit_203.0.113.7" = Some entry
    /\ 60 <= rl_ttl entry
    /\ firstAttempt (rl_data entry) + 300000 <= 1000 + rl_ttl entry * 1000.
Proof.
  exists {| rl_data := {| count := 1; firstAttempt := 1000 |}; rl_ttl := 300 |}.
  split; [reflexivity|].
  pose proof (X20_rate_record_outlives_window
                (exampleEnv 1000 (PollFetchError "") (ExFetchError "")
                   (CheckinFetchError ""))
                "203.0.113.7" 10 300000 {| limits := ∅; limit_faults := [] |}
                {| rl_data := {| count := 1; firstAttempt := 1000 |}; rl_ttl := 300 |})
    as H.
  specialize (H ltac:(reflexivity)). specialize (H ltac:(discriminate)).
  destruct H as (Httl & Hcover & _).
  split; [exact Httl | exact Hcover].
Defined.

(** * Token format and the QR code *)

Lemma split_char_length sep s :
  length (split_char sep s)
  = Datatypes.S (length (List.filter (fun c => Ascii.eqb c sep)
                           (String.list_ascii_of_string s))).
Proof.
  induction s as [|c s IH]; simpl; [done|].
  destruct (Ascii.eqb c sep); simpl; [by rewrite IH|].
  destruct (split_char sep s) as [|part parts]; simpl in *; [done|]. done.
Qed.

(** X10. [isValidToken] accepts exactly the non-empty strings that, after
    one leading ["Bearer "] is removed, contain exactly two dots.  It looks
    at nothing else: the three parts may be empty.  For a string that starts
    with ["Bearer "] the answer depends only on what follows the prefix. *)
Theorem X10_token_format (token : string) :
  let body := if String.prefix "Bearer " token then slice_from 7 token else token in
  let dots := length (List.filter (fun c => Ascii.eqb c dot)
                        (String.list_ascii_of_string body)) in
  (WeChatUtils.isValidToken token = true <-> token <> "" /\ dots = 2%nat)
  /\ (forall t, WeChatUtils.isValidToken ("Bearer " +:+ t)
                = (length (List.filter (fun c => Ascii.eqb c dot)
                             (String.list_ascii_of_string t)) =? 2)%nat).
Proof.
  intros body dots. split.
  - unfold WeChatUtils.isValidToken. fold body.
    destruct (String.eqb token "") eqn:Hne.
    + apply String.eqb_eq in Hne. split; [done | by intros [? _]].
    + apply String.eqb_neq in Hne. rewrite split_char_length. fold dots.
      rewrite Nat.eqb_eq. split; [intros [= H]; by split | intros [_ ->]; done].
  - intros t. unfold WeChatUtils.isValidToken.
    change (String.eqb ("Bearer " +:+ t) "") with false.
    change (String.prefix "Bearer " ("Bearer " +:+ t)) with (String.prefix "" t).
    replace (String.prefix "" t) with true by (by destruct t).
    change (slice_from 7 ("Bearer " +:+ t)) with t.
    cbv zeta. by rewrite split_char_length.
Qed.

Lemma getWeChatQRCode_run Q u b :
  qr_connect Q = UuidPage (Some u) -> u <> "" -> qr_image Q u = QrImage b ->
  WeChatUtils.getWeChatQRCode Q
  = {| qr_success := true; qr_uuid := u;
       qrCodeDataUrl := "data:image/png;base64," +:+ b; qr_message := None |}.
Proof.
  intros Hc Hu Hi.
  unfold WeChatUtils.getWeChatQRCode, WeChatUtils.getUUID,
    WeChatUtils.generateQRCodeDataURL, catch.
  rewrite Hc. simpl. rewrite (proj2 (String.eqb_neq _ _) Hu). simpl. by rewrite Hi.
Qed.

(** X26. [getWeChatQRCode] succeeds exactly when the provider's page
    carries a non-empty uuid and the image of that uuid can be fetched; the
    result then has that uuid and the image as a PNG data URL.  A failure
    carries an empty data URL and a non-empty message, and when no uuid was
    obtained the result does not depend on the image endpoint. *)
Theorem X26_qr_code (Q : QrProvider) :
  let r := WeChatUtils.getWeChatQRCode Q in
  (qr_success r = true
   <-> exists u b, qr_connect Q = UuidPage (Some u) /\ u <> "" /\ qr_image Q u = QrImage b)
  /\ (forall u b,
        qr_connect Q = UuidPage (Some u) -> u <> "" -> qr_image Q u = QrImage b ->
        r = {| qr_success := true; qr_uuid := u;
               qrCodeDataUrl := "data:image/png;base64," +:+ b; qr_message := None |})
  /\ (qr_success r = false ->
      qrCodeDataUrl r = "" /\ exists msg, qr_message r = Some msg /\ msg <> "")
  /\ (forall Q',
        qr_connect Q' = qr_connect Q ->
        (forall u, qr_connect Q <> UuidPage (Some u) \/ u = "") ->
        WeChatUtils.getWeChatQRCode Q' = r).
Proof.
  intros r. subst r. split; [|split; [|split]].
  - split.
    + unfold WeChatUtils.getWeChatQRCode, WeChatUtils.getUUID,
        WeChatUtils.generateQRCodeDataURL, catch.
      destruct (qr_connect Q) as [msg|st txt|[u|]]; simpl; try done.
      destruct (String.eqb u "") eqn:Hu; simpl; [done|].
      apply String.eqb_neq in Hu.
      destruct (qr_image Q u) as [msg|st|b] eqn:Hi; simpl; try done.
      intros _. by exists u, b.
    + intros (u & b & Hc & Hu & Hi). by rewrite (getWeChatQRCode_run Q u b).
  - apply getWeChatQRCode_run.
  - unfold WeChatUtils.getWeChatQRCode, WeChatUtils.getUUID,
      WeChatUtils.generateQRCodeDataURL, catch.
    destruct (qr_connect Q) as [msg|st txt|[u|]]; simpl.
    + destruct (String.eqb msg "") eqn:Hm; simpl; intros _; (split; [done|]);
        eexists; (split; [done|]); [done|]. by apply String.eqb_neq.
    + intros _. split; [done|]. eexists. split; [done|]. done.
    + destruct (String.eqb u "") eqn:Hu; simpl.
      { intros _. split; [done|]. eexists. split; [done|]. done. }
      destruct (qr_image Q u) as [msg|st|b] eqn:Hi; simpl; [| |done].
      * destruct (String.eqb msg "") eqn:Hm; simpl; intros _; (split; [done|]);
          eexists; (split; [done|]); [done|]. by apply String.eqb_neq.
      * intros _. split; [done|]. eexists. split; [done|]. done.
    + intros _. split; [done|]. eexists. split; [done|]. done.
  - intros Q' Hsame Hno.
    unfold WeChatUtils.getWeChatQRCode, WeChatUtils.getUUID,
      WeChatUtils.generateQRCodeDataURL, catch.
    rewrite Hsame.
    destruct (qr_connect Q) as [msg|st txt|[u|]]; simpl; try done.
    destruct (Hno u) as [Hne| ->]; [done|]. done.
Qed.

(** * The login page (auth-service.ts) *)

Section AuthFacts.

Context {S : WeChatLoginStatus}.

Lemma validateOneTimeLink_run E token w d ttl :
  nofault w ->
  (32 <= String.length token)%nat ->
  kv w !! ("onetime_" +:+ token) = Some {| value := VOneTime d; expirationTtl := ttl |} ->
  purpose d = "wechat_auth" ->
  (forall e, expiresAt d = Some e -> now E <= e) ->
  validateOneTimeLink E token w
  = (Ok true, set_kv (delete ("onetime_" +:+ token) (kv w)) w).
Proof.
  intros Hf Hlen Hk Hp He.
  unfold validateOneTimeLink, AuthUtils.validateOneTimeLink, try_catch, bind.
  rewrite (proj2 (Nat.ltb_ge _ _) Hlen).
  rewrite (consumeOneTimeLink_run token w d ttl) by done.
  simpl. rewrite Hp. simpl.
  destruct (expiresAt d) as [e|]; simpl; [|done].
  rewrite (proj2 (Z.ltb_ge _ _) (He e eq_refl)). by rewrite andb_false_r.
Qed.

Lemma handleAuthRequest_run Q E token w d ttl u b :
  nofault w ->
  (32 <= String.length token)%nat ->
  kv w !! ("onetime_" +:+ token) = Some {| value := VOneTime d; expirationTtl := ttl |} ->
  purpose d = "wechat_auth" ->
  (forall e, expiresAt d = Some e -> now E <= e) ->
  qr_connect Q = UuidPage (Some u) -> u <> "" -> qr_image Q u = QrImage b ->
  let id := "polling_" +:+ pretty (now E) +:+ "_" +:+ randomSuffix E in
  handleAuthRequest Q E token w
  = (Ok {| ar_success := true;
           ar_data := Some {| ad_qrCodeDataUrl := "data:image/png;base64," +:+ b;
                              ad_uuid := u; ad_pollingId := id |};
           ar_error := None |},
     set_kv (<[id +:+ "_uuid" := {| value := VText u; expirationTtl := 300 |}]>
               (<[id := {| value := VPolling
                                      {| ps_status := WAITING; ps_message := None;
                                         ps_wxCode := None; ps_uuid := None;
                                         timestamp := now E |};
                           expirationTtl := 300 |}]>
                  (delete ("onetime_" +:+ token) (kv w)))) w).
Proof.
  intros Hf Hlen Hk Hp He Hc Hu Hi id.
  unfold handleAuthRequest, try_catch, bind.
  rewrite (validateOneTimeLink_run E token w d ttl) by done. simpl.
  rewrite (getWeChatQRCode_run Q u b) by done. simpl.
  rewrite startPollingSession_run by done. done.
Qed.

Lemma handleAuthRequest_absent Q E token w :
  nofault w ->
  kv w !! ("onetime_" +:+ token) = None ->
  handleAuthRequest Q E token w
  = (Ok {| ar_success := false; ar_data := None;
           ar_error := Some "认证链接已失效或无效" |}, w).
Proof.
  intros Hf Hk. unfold handleAuthRequest, try_catch, bind.
  by rewrite validateOneTimeLink_absent.
Qed.

(** X25. The link that the scheduler mails opens the login page once.
    When [scheduled] finds no valid credential (the store answering), the
    token of the link in its e-mail, presented to [handleAuthRequest] within
    24 hours while the provider delivers a QR code, yields a successful reply
    with that QR code and the id of a new session; the session is stored in
    status WAITING with the clock of the request as timestamp, together with
    the provider's uuid, the one-time record is gone, and nothing is sent.
    Every further request with the same token is refused as invalid and
    changes nothing. *)
Theorem X25_mailed_link_opens_once (Q : QrProvider) (E0 E1 : Env) (w : World)
    (u b : string) :
  nofault w ->
  no_valid_token E0 w ->
  (32 <= String.length (randomBytes32 E0))%nat ->
  now E1 <= now E0 + 24 * 60 * 60 * 1000 ->
  qr_connect Q = UuidPage (Some u) -> u <> "" -> qr_image Q u = QrImage b ->
  let tok := randomBytes32 E0 in
  let id := "polling_" +:+ pretty (now E1) +:+ "_" +:+ randomSuffix E1 in
  let w1 := (scheduled E0 w).2 in
  let w2 := (handleAuthRequest Q E1 tok w1).2 in
  trace w1 = EmailSent (LoginRequiredEmail (AUTH_WORKER_URL E0 +:+ "/auth/" +:+ tok))
               :: trace w
  /\ (handleAuthRequest Q E1 tok w1).1
     = Ok {| ar_success := true;
             ar_data := Some {| ad_qrCodeDataUrl := "data:image/png;base64," +:+ b;
                                ad_uuid := u; ad_pollingId := id |};
             ar_error := None |}
  /\ holds_session id (now E1) w2
  /\ kv w2 !! (id +:+ "_uuid") = Some {| value := VText u; expirationTtl := 300 |}
  /\ kv w2 !! ("onetime_" +:+ tok) = None
  /\ trace w2 = trace w1
  /\ (forall Q' E2,
        handleAuthRequest Q' E2 tok w2
        = (Ok {| ar_success := false; ar_data := None;
                 ar_error := Some "认证链接已失效或无效" |}, w2)).
Proof.
  intros Hf Hinv Hlen Hnow Hc Hu Hi tok id w1 w2.
  assert (Hw1 : scheduled E0 w = _)
    by (rewrite scheduled_invalid_run by done; by apply handleAuthenticationRequired_run).
  subst w2 w1. rewrite Hw1. cbn [snd]. split; [done|].
  rewrite (handleAuthRequest_run Q E1 tok _
             {| purpose := "wechat_auth"; createdAt := now E0;
                expiresAt := Some (now E0 + 24 * 60 * 60 * 1000) |} 86400 u b);
    [| done | done | apply lookup_insert_eq | done
     | simpl; intros e [= <-]; lia | done | done | done ].
  fold id. cbn [fst snd]. split; [done|].
  assert (Hid : id <> "onetime_" +:+ tok) by done.
  assert (Hidu : id +:+ "_uuid" <> "onetime_" +:+ tok) by done.
  split; [|split; [|split; [|split]]].
  - eexists _, _. cbn [kv set_kv set_trace].
    rewrite lookup_insert_ne by apply uuid_key_ne. rewrite lookup_insert_eq. done.
  - cbn [kv set_kv set_trace]. by rewrite lookup_insert_eq.
  - cbn [kv set_kv set_trace]. rewrite !lookup_insert_ne by done.
    by rewrite lookup_delete_eq.
  - done.
  - intros Q' E2. apply handleAuthRequest_absent; [done|].
    cbn [kv set_kv set_trace]. rewrite !lookup_insert_ne by done.
    by rewrite lookup_delete_eq.
Qed.



(** X21. [handleAuthRequest] under store failures.  Whichever store
    requests are rejected, it returns a reply, never throws and sends
    nothing.  A successful reply is only given for a token of at least 32
    characters whose one-time record was in the store with purpose
    [wechat_auth], after the provider delivered a QR code; it carries the
    provider's data URL and uuid and the id of the new session, and the
    store then holds the session and its uuid and no longer the one-time
    record.  A failed reply has no data and an error message, and a token
    without a record leaves the store as it was. *)
Theorem X21_auth_request_safety (Q : QrProvider) (E : Env) (token : string) (w : World) :
  let key := "onetime_" +:+ token in
  let id := "polling_" +:+ pretty (now E) +:+ "_" +:+ randomSuffix E in
  let qr := WeChatUtils.getWeChatQRCode Q in
  let r := handleAuthRequest Q E token w in
  exists reply,
    r.1 = Ok reply
    /\ trace r.2 = trace w
    /\ (ar_success reply = true ->
        (32 <= String.length token)%nat
        /\ (exists d ttl,
              kv w !! key = Some {| value := VOneTime d; expirationTtl := ttl |}
              /\ purpose d = "wechat_auth")
        /\ qr_success qr = true
        /\ ar_data reply = Some {| ad_qrCodeDataUrl := qrCodeDataUrl qr;
                                   ad_uuid := qr_uuid qr; ad_pollingId := id |}
        /\ kv r.2
           = <[id +:+ "_uuid" := {| value := VText (qr_uuid qr); expirationTtl := 300 |}]>
               (<[id := {| value := VPolling
                                      {| ps_status := WAITING; ps_message := None;
                                         ps_wxCode := None; ps_uuid := None;
                                         timestamp := now E |};
                           expirationTtl := 300 |}]>
                  (delete key (kv w))))
    /\ (ar_success reply = false -> ar_data reply = None /\ is_Some (ar_error reply))
    /\ (kv w !! key = None -> kv r.2 = kv w).
Proof.
  intros key id qr r. subst r.
  unfold handleAuthRequest, validateOneTimeLink, AuthUtils.validateOneTimeLink,
    KVStorage.consumeOneTimeLink, KVStorage.getOneTimeLink, startPollingSession,
    kv_get_json, kv_get, kv_put, kv_delete, kv_request, try_catch, bind.
  fold key id qr.
  destruct (String.length token <? 32)%nat eqn:Hlen; simpl.
  { eexists; repeat split; try done; eauto. }
  apply Nat.ltb_ge in Hlen.
  destruct w as [m tr fs]. simpl.
  destruct fs as [|[] fs]; simpl.
  all: destruct (m !! key) as [[[s|p|t|d] ttl]|] eqn:Hk; simpl.
  all: try (eexists; repeat split; try done; try congruence; by eauto).
  all: try (destruct fs as [|[] fs]; simpl).
  all: try (eexists; repeat split; try done; try congruence; by eauto).
  all: destruct (bool_decide (Some (purpose d) = Some "wechat_auth")) eqn:Hp; simpl.
  all: try (eexists; repeat split; try done; try congruence; by eauto).
  all: apply bool_decide_eq_true in Hp; injection Hp as Hp.
  all: destruct (truthy_number (expiresAt d) && number_lt (expiresAt d) (now E)); simpl.
  all: try (eexists; repeat split; try done; try congruence; by eauto).
  all: destruct (qr_success qr) eqn:Hqr; simpl.
  all: try (eexists; repeat split; try done; try congruence; by eauto).
  all: destruct fs as [|[] fs]; simpl.
  all: try (eexists; repeat split; try done; try congruence; by eauto).
  all: destruct fs as [|[] fs]; simpl.
  all: eexists; repeat split; try done; try congruence; by eauto.
Qed.

End AuthFacts.

(** * The request handler *)

Lemma scheduled_returns E w : (scheduled E w).1 = Ok tt.
Proof.
  unfold scheduled, try_catch at 1.
  match goal with |- context [match ?m w with _ => _ end] =>
    destruct (m w) as [[[]|msg] w'] end; done.
Qed.

Lemma length_ge_nonempty (s : string) (n : nat) :
  (Datatypes.S n <= String.length s)%nat -> String.eqb s "" = false.
Proof. destruct s; simpl; [lia | done]. Qed.

Section FetchFacts.

Context {S : WeChatLoginStatus}.

Lemma getPollingStatus_returns E id w : exists reply, (getPollingStatus E id w).1 = Ok reply.
Proof. apply try_catch_returns. Qed.

(** X22. The route [/login-status] with a well-formed polling id never
    answers 500.  When the rate limiter refuses, the answer is 429 with
    [Retry-After: 60] and the session store is not touched; otherwise the
    answer is 200 with the reply of [getPollingStatus], run on the world
    that one tick of [processPollingSession] leaves.  Neither of the two
    can throw, so the handler's own [catch] is never entered. *)
Theorem X22_login_status_route (Q : QrProvider) (E : Env) (request : Request)
    (k : Worker) (id : string) :
  pathname request = "/login-status" ->
  pollingId_param request = Some id ->
  (10 <= String.length id)%nat ->
  is_id_string id = true ->
  let clientIP :=
    if truthy_string (CF_Connecting_IP request)
    then default "" (CF_Connecting_IP request)
    else or_string (X_Forwarded_For request) "unknown" in
  let limit := RateLimit.checkRateLimit E clientIP 100 60000 (rate k) in
  let tick := processPollingSession E id (world k) in
  let query := getPollingStatus E id tick.2 in
  if limit.1 then
    exists reply,
      query.1 = Ok reply
      /\ fetch Q E request k
         = (Ok (respond 200 (StatusJson reply)), {| world := query.2; rate := limit.2 |})
  else
    fetch Q E request k
    = (Ok {| resp_status := 429; resp_body := FailureJson "Too many requests";
             retry_after := Some "60" |},
       {| world := world k; rate := limit.2 |}).
Proof.
  intros Hpath Hid Hlen Hchars clientIP limit tick query.
  unfold fetch. rewrite Hpath, Hid. simpl.
  rewrite (length_ge_nonempty id 9 Hlen), (proj2 (Nat.ltb_ge _ _) Hlen), Hchars. simpl.
  fold clientIP. fold limit. destruct limit as [[] rate']; simpl; [|done].
  subst query tick. unfold try_catch, bind.
  pose proof (process_returns (exchangeWeChatCode E) E id (world k)) as Htick.
  fold (processPollingSession E id) in Htick.
  destruct (processPollingSession E id (world k)) as [rt wt]. simpl in Htick. subst rt.
  simpl.
  destruct (getPollingStatus_returns E id wt) as [reply Hreply]. exists reply.
  destruct (getPollingStatus E id wt) as [rq wq]. simpl in Hreply. by subst rq.
Qed.



(** X23. The guards in front of a one-time link on the route
    [/auth/<token>].  A token of fewer than 32 characters is answered 400
    before anything is read or written.  A client that has used up its ten
    attempts inside the five-minute window (the limiter's store answering)
    is answered 429 with [Retry-After: 300], again with nothing written: the
    link is not consumed by a throttled request.  Only a request that the
    limiter lets through reaches [handleAuthRequest], and the world it
    leaves is the world of the handler. *)
Theorem X23_auth_route_guards (Q : QrProvider) (E : Env) (request : Request)
    (k : Worker) (token : string) :
  pathname request = "/auth/" +:+ token ->
  let clientIP :=
    if truthy_string (CF_Connecting_IP request)
    then default "" (CF_Connecting_IP request)
    else or_string (X_Forwarded_For request) "unknown" in
  let limit := RateLimit.checkRateLimit E clientIP 10 300000 (rate k) in
  let r := fetch Q E request k in
  ((String.length token < 32)%nat ->
   r = (Ok (respond 400 (TextBody "Invalid authentication link")), k))
  /\ ((32 <= String.length token)%nat ->
      limit_faults (rate k) = [] ->
      forall entry,
        limits (rate k) !! ("rate_limit_" +:+ clientIP) = Some entry ->
        now E - firstAttempt (rl_data entry) <= 300000 ->
        10 <= count (rl_data entry) ->
        r = (Ok {| resp_status := 429; resp_body := TextBody "Too many requests";
                   retry_after := Some "300" |}, k))
  /\ ((32 <= String.length token)%nat ->
      limit.1 = true ->
      world r.2 = (handleAuthRequest Q E token (world k)).2 /\ rate r.2 = limit.2).
Proof.
  intros Hpath clientIP limit r. subst r. unfold fetch. rewrite Hpath.
  change (String.prefix "/auth/" ("/auth/" +:+ token)) with (String.prefix "" token).
  change (slice_from 6 ("/auth/" +:+ token)) with token.
  replace (String.prefix "" token) with true by (by destruct token).
  fold clientIP. fold limit.
  split; [|split].
  - intros Hlen. by rewrite (proj2 (Nat.ltb_lt _ _) Hlen).
  - intros Hlen Hf [[c t0] ttl] Hk Hwin Hcount. simpl in Hwin, Hcount.
    rewrite (proj2 (Nat.ltb_ge _ _) Hlen).
    subst limit. destruct k as [w [m fs]]. simpl in Hf, Hk. subst fs. simpl.
    rewrite (checkRateLimit_counting E clientIP 10 300000 m c t0 ttl) by done.
    by rewrite (proj2 (Z.leb_le _ _) Hcount).
  - intros Hlen Hallowed. rewrite (proj2 (Nat.ltb_ge _ _) Hlen).
    destruct limit as [allowed rate']. simpl in Hallowed. subst allowed. simpl.
    unfold try_catch, bind.
    destruct (handleAuthRequest Q E token (world k)) as [[reply|msg] w']; simpl; [|done].
    destruct (negb (ar_success reply)); simpl; [done|].
    by destruct (ar_data reply).
Qed.

(** X24. The route [/trigger-checkin], which [triggerCheckin] calls after
    a login.  A POST runs the scheduler once and always answers 200: the
    world it leaves is the one [scheduled] leaves, and the limiter's store is
    not touched.  Any other method is answered 404 and changes nothing. *)
Theorem X24_trigger_route (Q : QrProvider) (E : Env) (request : Request) (k : Worker) :
  pathname request = "/trigger-checkin" ->
  fetch Q E request k
  = if String.eqb (method request) "POST"
    then (Ok (respond 200 TriggeredJson),
          {| world := (scheduled E (world k)).2; rate := rate k |})
    else (Ok (respond 404 (TextBody "Not Found")), k).
Proof.
  intros Hpath. unfold fetch. rewrite Hpath. simpl.
  destruct (String.eqb (method request) "POST"); simpl; [|done].
  unfold bind. pose proof (scheduled_returns E (world k)) as Hr.
  destruct (scheduled E (world k)) as [rs ws]. simpl in Hr. by subst rs.
Qed.

End FetchFacts.

Lemma X25_witness :
  trace (scheduled
           (exampleEnv 1000 (PollFetchError "") (ExFetchError "") (CheckinFetchError ""))
           emptyWorld).2
  = [EmailSent (LoginRequiredEmail
       ("https://checkin.example.workers.dev/auth/"
        +:+ "00112233445566778899aabbccddeeff00112233445566778899aabbccddeeff"))]
  /\ kv (handleAuthRequest (S := errcodeStatus)
           {| qr_connect := UuidPage (Some "0a1b2c3d4e5f6g7h");
              qr_image := fun _ => QrImage "iVBORw0KGgo=" |}
           (exampleEnv 5000 (PollFetchError "") (ExFetchError "") (CheckinFetchError ""))
           "00112233445566778899aabbccddeeff00112233445566778899aabbccddeeff"
           (scheduled
              (exampleEnv 1000 (PollFetchError "") (ExFetchError "")
                 (CheckinFetchError ""))
              emptyWorld).2).2
       !! ("onetime_"
           +:+ "00112233445566778899aabbccddeeff00112233445566778899aabbccddeeff")
     = None.
Proof.
  assert (Hlen : (32 <= String.length
                          "00112233445566778899aabbccddeeff00112233445566778899aabbccddeeff")%nat)
    by (simpl; lia).
  assert (Hnow : 5000 <= 1000 + 24 * 60 * 60 * 1000) by lia.
  destruct (X25_mailed_link_opens_once (S := errcodeStatus)
              {| qr_connect := UuidPage (Some "0a1b2c3d4e5f6g7h");
                 qr_image := fun _ => QrImage "iVBORw0KGgo=" |}
              (exampleEnv 1000 (PollFetchError "") (ExFetchError "") (CheckinFetchError ""))
              (exampleEnv 5000 (PollFetchError "") (ExFetchError "") (CheckinFetchError ""))
              emptyWorld "0a1b2c3d4e5f6g7h" "iVBORw0KGgo="
              eq_refl (or_introl eq_refl) Hlen Hnow eq_refl ltac:(discriminate) eq_refl)
    as (Hmail & _ & _ & _ & Hgone & _).
  split; [exact Hmail | exact Hgone].
Defined.

Lemma X22_witness :
  exists reply,
    (getPollingStatus (S := errcodeStatus)
       (exampleEnv 2000 (PollBody 200 (Some 408) None) (ExFetchError "")
          (CheckinFetchError ""))
       "polling_1000_k3j9x2m1q"
       (processPollingSession (S := errcodeStatus)
          (exampleEnv 2000 (PollBody 200 (Some 408) None) (ExFetchError "")
             (CheckinFetchError ""))
          "polling_1000_k3j9x2m1q" (sessionWorld 404 1000)).2).1 = Ok reply
    /\ (fetch (S := errcodeStatus)
          {| qr_connect := UuidFetchError ""; qr_image := fun _ => QrFetchError "" |}
          (exampleEnv 2000 (PollBody 200 (Some 408) None) (ExFetchError "")
             (CheckinFetchError ""))
          {| method := "GET"; pathname := "/login-status";
             pollingId_param := Some "polling_1000_k3j9x2m1q";
             CF_Connecting_IP := Some "203.0.113.7"; X_Forwarded_For := None |}
          {| world := sessionWorld 404 1000;
             rate := {| limits := ∅; limit_faults := [] |} |}).1
       = Ok (respond 200 (StatusJson reply)).
Proof.
  assert (Hlen : (10 <= String.length "polling_1000_k3j9x2m1q")%nat) by (simpl; lia).
  destruct (X22_login_status_route (S := errcodeStatus)
              {| qr_connect := UuidFetchError ""; qr_image := fun _ => QrFetchError "" |}
              (exampleEnv 2000 (PollBody 200 (Some 408) None) (ExFetchError "")
                 (CheckinFetchError ""))
              {| method := "GET"; pathname := "/login-status";
                 pollingId_param := Some "polling_1000_k3j9x2m1q";
                 CF_Connecting_IP := Some "203.0.113.7"; X_Forwarded_For := None |}
              {| world := sessionWorld 404 1000;
                 rate := {| limits := ∅; limit_faults := [] |} |}
              "polling_1000_k3j9x2m1q" eq_refl eq_refl Hlen eq_refl)
    as (reply & Hreply & Hfetch).
  exists reply. split; [exact Hreply|]. by rewrite Hfetch.
Defined.

Lemma X23_witness :
  fetch (S := errcodeStatus)
    {| qr_connect := UuidFetchError ""; qr_image := fun _ => QrFetchError "" |}
    (exampleEnv 2000 (PollFetchError "") (ExFetchError "") (CheckinFetchError ""))
    {| method := "GET"; pathname := "/auth/0011223344556677";
       pollingId_param := None;
       CF_Connecting_IP := Some "203.0.113.7"; X_Forwarded_For := None |}
    {| world := emptyWorld; rate := {| limits := ∅; limit_faults := [] |} |}
  = (Ok (respond 400 (TextBody "Invalid authentication link")),
     {| world := emptyWorld; rate := {| limits := ∅; limit_faults := [] |} |}).
Proof.
  apply (X23_auth_route_guards (S := errcodeStatus)
           {| qr_connect := UuidFetchError ""; qr_image := fun _ => QrFetchError "" |}
           (exampleEnv 2000 (PollFetchError "") (ExFetchError "") (CheckinFetchError ""))
           {| method := "GET"; pathname := "/auth/0011223344556677";
              pollingId_param := None;
              CF_Connecting_IP := Some "203.0.113.7"; X_Forwarded_For := None |}
           {| world := emptyWorld; rate := {| limits := ∅; limit_faults := [] |} |}
           "0011223344556677" eq_refl).
  simpl. lia.
Defined.

Lemma X24_witness :
  fetch (S := errcodeStatus)
    {| qr_connect := UuidFetchError ""; qr_image := fun _ => QrFetchError "" |}
    (exampleEnv 2000 (PollFetchError "") (ExFetchError "") (CheckinReply (Some "打卡成功")))
    {| method := "POST"; pathname := "/trigger-checkin"; pollingId_param := None;
       CF_Connecting_IP := None; X_Forwarded_For := None |}
    {| world := tokenWorld 5000; rate := {| limits := ∅; limit_faults := [] |} |}
  = (Ok (respond 200 TriggeredJson),
     {| world := (scheduled
                    (exampleEnv 2000 (PollFetchError "") (ExFetchError "")
                       (CheckinReply (Some "打卡成功")))
                    (tokenWorld 5000)).2;
        rate := {| limits := ∅; limit_faults := [] |} |}).
Proof.
  exact (X24_trigger_route (S := errcodeStatus)
           {| qr_connect := UuidFetchError ""; qr_image := fun _ => QrFetchError "" |}
           (exampleEnv 2000 (PollFetchError "") (ExFetchError "")
              (CheckinReply (Some "打卡成功")))
           {| method := "POST"; pathname := "/trigger-checkin"; pollingId_param := None;
              CF_Connecting_IP := None; X_Forwarded_For := None |}
           {| world := tokenWorld 5000; rate := {| limits := ∅; limit_faults := [] |} |}
           eq_refl).
Defined.
